(** * Transaction analytics, tax and loan engines: a shallow embedding

    The Python sources embedded here are
      - [backend/book3.py]: head-wise (Section 14) tax computation,
      - [backend/book1.py]: flat old/new regime comparison,
      - [backend/new.py]:   the one-pass transaction aggregator,
      - [backend/loan.py]:  the loan optimisation pipeline.

    Conventions of the embedding.
      - A Python [float] is an exact rational [Q]: sums, products and
        comparisons are those of the rationals, and results are compared
        with [==].  Binary rounding of floats is not represented; the
        decimal rounding [round(x, 2)] of the sources is ([Py.round2]).
      - A Python [str] is a [string]; one [ascii] stands for one character.
      - A [dict] is an association list in insertion order with unique keys.
      - A record of the transaction table is [Txn.t]; a field that may be
        missing from the record is an [option]. *)

From Stdlib Require Import QArith Qminmax Qround Qabs Qpower Lqa Lia ZArith.
From Stdlib Require Import List String Ascii Bool Permutation.
Import ListNotations.

Open Scope Q_scope.

(** ** Python builtins used by the sources *)

Module Py.

(** [x <= y] and [x < y] on floats, as tests. *)
Definition leb (x y : Q) : bool := Qle_bool x y.
Definition ltb (x y : Q) : bool := negb (Qle_bool y x).

(** [sum(xs)] *)
Definition sum (xs : list Q) : Q := fold_left Qplus xs 0.

(** [c.lower()] on one character, and [s.lower()]. *)
Definition lower_ascii (c : ascii) : ascii :=
  let n := nat_of_ascii c in
  if ((65 <=? n) && (n <=? 90))%nat then ascii_of_nat (n + 32) else c.

Fixpoint lower (s : string) : string :=
  match s with
  | EmptyString => EmptyString
  | String c rest => String (lower_ascii c) (lower rest)
  end.

(** [needle in hay] on strings. *)
Fixpoint contains (needle hay : string) : bool :=
  if String.prefix needle hay then true
  else match hay with
       | EmptyString => false
       | String _ rest => contains needle rest
       end.

(** [any(keyword in s for keyword in keywords)] *)
Definition any_in (keywords : list string) (s : string) : bool :=
  existsb (fun keyword => contains keyword s) keywords.

(** [x in xs] for a list or set of strings. *)
Definition mem (x : string) (xs : list string) : bool :=
  existsb (String.eqb x) xs.

(** [s.strip()]: whitespace removed at both ends. *)
Definition is_space (c : ascii) : bool :=
  let n := nat_of_ascii c in
  ((n =? 32) || ((9 <=? n) && (n <=? 13)))%nat.

Fixpoint lstrip (s : string) : string :=
  match s with
  | EmptyString => EmptyString
  | String c rest => if is_space c then lstrip rest else s
  end.

Fixpoint rstrip (s : string) : string :=
  match s with
  | EmptyString => EmptyString
  | String c rest =>
      match rstrip rest with
      | EmptyString => if is_space c then EmptyString else String c EmptyString
      | rest' => String c rest'
      end
  end.

Definition strip (s : string) : string := rstrip (lstrip s).

(** [s[:n]] *)
Definition take (n : nat) (s : string) : string := String.substring 0 n s.

(** Dictionaries: association lists in insertion order. *)
Section Dict.
Context {V : Type}.

Fixpoint get (k : string) (d : list (string * V)) : option V :=
  match d with
  | [] => None
  | (k', v) :: rest => if String.eqb k k' then Some v else get k rest
  end.

(** [d[k] = v] *)
Fixpoint set (k : string) (v : V) (d : list (string * V)) : list (string * V) :=
  match d with
  | [] => [(k, v)]
  | (k', v') :: rest =>
      if String.eqb k k' then (k', v) :: rest else (k', v') :: set k v rest
  end.

Definition keys (d : list (string * V)) : list string := map fst d.
Definition values (d : list (string * V)) : list V := map snd d.
Definition has (k : string) (d : list (string * V)) : bool :=
  match get k d with Some _ => true | None => false end.

End Dict.

(** [d[k] += x] on a [defaultdict(float)]: a missing key starts at [0.0]. *)
Definition add (k : string) (x : Q) (d : list (string * Q)) : list (string * Q) :=
  match get k d with
  | Some v => set k (v + x) d
  | None => set k (0 + x) d
  end.

(** [d.get(k, 0.0)] *)
Definition get0 (k : string) (d : list (string * Q)) : Q :=
  match get k d with Some v => v | None => 0 end.

(** [round(x)] to the nearest integer, ties to the even one, and
    [round(x, 2)]. *)
Definition round_half_even (x : Q) : Z :=
  let f := Qfloor x in
  match Qcompare (x - inject_Z f) (1 # 2) with
  | Lt => f
  | Gt => (f + 1)%Z
  | Eq => if Z.even f then f else (f + 1)%Z
  end.

Definition round2 (x : Q) : Q := inject_Z (round_half_even (x * 100)) / 100.

End Py.

(** ** The transaction record *)

Module Txn.

(** [txn["amount"]] may be missing, present but not convertible by
    [float(...)], or a number. *)
Inductive raw_amount : Type :=
| AmountMissing
| AmountInvalid
| Amount (q : Q).

Record t : Type := mk {
  amount : raw_amount;
  description : option string;
  type : option string;
  category : option string;
  created_at : option string
}.

(** [txn.get(key, default)] *)
Definition get_or (field : option string) (default : string) : string :=
  match field with Some s => s | None => default end.

End Txn.

(** ** [backend/book3.py]: head-wise tax computation (Mode B) *)

Module Book3.

Definition STANDARD_DEDUCTION : Q := 75000.
Definition TAX_REBATE_LIMIT : Q := 1200000.
Definition TAX_REBATE_AMOUNT : Q := 60000.

(** [INCOME_HEAD_KEYWORDS]: head, keywords, regular expressions, in the
    order of the dictionary literal. *)
Definition INCOME_HEAD_KEYWORDS : list (string * (list string * list string)) :=
  [ ("salary",
     (["salary"; "wages"; "allowance"; "hra"; "da"; "bonus"; "incentive";
       "commission"; "gratuity"; "pension"],
      ["salary\s*[\-–—]?\s*([a-zA-Z]+)\s+(\d{4})"; "pay.*slip";
       "monthly.*salary"]));
    ("house_property",
     (["rent"; "rental"; "property"; "house"; "apartment"; "maintenance";
       "municipal"; "property tax"],
      ["rent.*received"; "rental.*income"; "house.*rent"]));
    ("business_profession",
     (["business"; "profession"; "consultancy"; "freelance"; "service";
       "contract"; "invoice"; "fees"],
      ["professional.*fees"; "consultancy.*income"; "business.*income"]));
    ("capital_gains",
     (["shares"; "stocks"; "mutual fund"; "sip"; "equity"; "bond";
       "securities"; "investment"; "capital gain"],
      ["share.*sale"; "stock.*profit"; "mutual.*fund.*redemption"]));
    ("other_sources",
     (["interest"; "dividend"; "fd"; "fixed deposit"; "savings"; "lottery";
       "gift"; "other income"],
      ["interest.*earned"; "dividend.*received"; "fd.*maturity"])) ]%string.

(** [DEDUCTIONS]: the description attached to every head. *)
Definition DEDUCTIONS : list (string * (Q * string)) :=
  [ ("salary", (75000, "Standard Deduction (applicable only to salary income)"));
    ("house_property", (0.30, "30% standard deduction for house property"));
    ("business_profession",
     (0, "No standard deduction (actual business expenses to be claimed)"));
    ("capital_gains", (0, "Separate tax treatment for capital gains"));
    ("other_sources", (0, "No standard deduction for other sources")) ]%string.

(** A slab limit is a number or [float('inf')]. *)
Inductive limit : Type :=
| Finite (q : Q)
| Infinity.

Definition NEW_REGIME_SLABS : list (limit * Q) :=
  [ (Finite 400000, 0.0);
    (Finite 800000, 0.05);
    (Finite 1200000, 0.10);
    (Finite 1600000, 0.15);
    (Finite 2000000, 0.20);
    (Finite 2400000, 0.25);
    (Infinity, 0.30) ].

Section Classification.

(** [re.search(pattern, text, re.IGNORECASE)], as a test: the regular
    expression engine of the Python library. *)
Variable re_search : string -> string -> bool.

Fixpoint classify_heads (table : list (string * (list string * list string)))
    (desc_lower : string) : option string :=
  match table with
  | [] => None
  | (head, (keywords, patterns)) :: rest =>
      if Py.any_in keywords desc_lower then Some head
      else if existsb (fun pattern => re_search pattern desc_lower) patterns
           then Some head
           else classify_heads rest desc_lower
  end.

Definition classify_transaction_by_section14
    (description : string) (amount : Q) (txn_type : string) : string :=
  let desc_lower := Py.lower description in
  match classify_heads INCOME_HEAD_KEYWORDS desc_lower with
  | Some head => head
  | None =>
      if String.eqb txn_type "received" then "other_sources"%string
      else "expense"%string
  end.

(** One entry of [income_heads[head]]. *)
Record head_entry : Type := mk_head_entry {
  entry_date : string;
  entry_description : string;
  entry_amount : Q
}.

Record head_analysis : Type := mk_head_analysis {
  income_heads : list (string * list head_entry);
  head_totals : list (string * Q);
  total_expenses : Q;
  tds_deducted : Q
}.

Definition HEADS : list string :=
  [ "salary"; "house_property"; "business_profession"; "capital_gains";
    "other_sources" ]%string.

Definition initial_head_analysis : head_analysis :=
  {| income_heads := map (fun head => (head, [])) HEADS;
     head_totals := map (fun head => (head, 0.0)) HEADS;
     total_expenses := 0.0;
     tds_deducted := 0.0 |}.

(** [tds_deducted += amount] when the description mentions TDS. *)
Definition track_tds (desc : string) (amount : Q) (st : head_analysis)
    : head_analysis :=
  if Py.contains "tds" (Py.lower desc)
     || Py.contains "tax deducted" (Py.lower desc)
  then {| income_heads := income_heads st;
          head_totals := head_totals st;
          total_expenses := total_expenses st;
          tds_deducted := tds_deducted st + amount |}
  else st.

(** The body of the loop of [analyze_income_by_heads]: an exception leaves
    the body, keeping what was updated before it. *)
Definition analyze_income_step (st : head_analysis) (txn : Txn.t)
    : head_analysis :=
  match Txn.amount txn, Txn.description txn with
  | Txn.Amount amount, Some desc =>
      let txn_type := Txn.get_or (Txn.type txn) "" in
      if String.eqb txn_type "received" then
        let head := classify_transaction_by_section14 desc amount txn_type in
        match Py.get head (income_heads st) with
        | Some entries =>
            match Txn.created_at txn with
            | None => st
            | Some created =>
                track_tds desc amount
                  {| income_heads :=
                       Py.set head
                         (entries ++ [mk_head_entry created desc amount])
                         (income_heads st);
                     head_totals := Py.add head amount (head_totals st);
                     total_expenses := total_expenses st;
                     tds_deducted := tds_deducted st |}
            end
        | None => track_tds desc amount st
        end
      else if Py.mem txn_type ["sent"; "expense"]%string then
        track_tds desc amount
          {| income_heads := income_heads st;
             head_totals := head_totals st;
             total_expenses := total_expenses st + amount;
             tds_deducted := tds_deducted st |}
      else track_tds desc amount st
  | _, _ => st
  end.

Definition analyze_income_by_heads (transactions : list Txn.t) : head_analysis :=
  fold_left analyze_income_step transactions initial_head_analysis.

End Classification.

(** One value of [head_wise_calculation]. *)
Record head_detail : Type := mk_head_detail {
  gross_income : Q;
  deduction_amount : Q;
  taxable_income : Q;
  deduction_description : string
}.

Record head_wise : Type := mk_head_wise {
  head_wise_details : list (string * head_detail);
  total_taxable_income : Q
}.

(** The branches on [head] in the loop of
    [calculate_head_wise_taxable_income]: the pair of [deduction_amount] and
    [taxable_income]. *)
Definition head_deduction (head : string) (gross_income : Q) : Q * Q :=
  if String.eqb head "salary" then
    let deduction_amount := Qmin STANDARD_DEDUCTION gross_income in
    (deduction_amount, Qmax 0 (gross_income - deduction_amount))
  else if String.eqb head "house_property" then
    let deduction_amount := gross_income * 0.30 in
    (deduction_amount, Qmax 0 (gross_income - deduction_amount))
  else if String.eqb head "business_profession" then (0, gross_income)
  else if String.eqb head "capital_gains" then (0, 0)
  else if String.eqb head "other_sources" then (0, gross_income)
  else (0, gross_income).

(** The body of that loop. *)
Definition head_wise_step (acc : head_wise) (item : string * Q) : head_wise :=
  let '(head, gross_income) := item in
  if Py.leb gross_income 0 then acc
  else
    let deduction_info :=
      match Py.get head DEDUCTIONS with
      | Some info => info
      | None => (0, "No deduction"%string)
      end in
    let '(deduction_amount, taxable_income) := head_deduction head gross_income in
    {| head_wise_details :=
         Py.set head
           (mk_head_detail gross_income deduction_amount taxable_income
              (snd deduction_info))
           (head_wise_details acc);
       total_taxable_income :=
         if negb (String.eqb head "capital_gains")
         then total_taxable_income acc + taxable_income
         else total_taxable_income acc |}.

Definition calculate_head_wise_taxable_income (income_heads : list (string * Q))
    : head_wise :=
  fold_left head_wise_step income_heads
    {| head_wise_details := []; total_taxable_income := 0 |}.

(** One element of [slab_breakdown]; the formatted range and rate strings are
    kept as the numbers they print. *)
Record slab_entry : Type := mk_slab_entry {
  range_from : Q;
  range_to : Q;
  slab_rate : Q;
  taxable_amount : Q;
  tax_amount : Q
}.

(** The loop of [calculate_tax_slab], with its two [break]s. *)
Fixpoint tax_slab_loop (income : Q) (slabs : list (limit * Q))
    (tax : Q) (prev_limit : limit) (slab_breakdown : list slab_entry)
    : Q * list slab_entry :=
  match slabs with
  | [] => (tax, slab_breakdown)
  | (limit, rate) :: rest =>
      match prev_limit with
      | Infinity => (tax, slab_breakdown)
      | Finite prev =>
          if Py.leb income prev then (tax, slab_breakdown)
          else
            let taxable_in_slab :=
              match limit with
              | Finite l => Qmin (income - prev) (l - prev)
              | Infinity => income - prev
              end in
            let tax_in_slab := taxable_in_slab * rate in
            let tax := tax + tax_in_slab in
            let range_end :=
              match limit with
              | Finite l => Qmin l income
              | Infinity => income
              end in
            let slab_breakdown :=
              if Py.ltb 0 taxable_in_slab
              then slab_breakdown ++
                   [mk_slab_entry prev range_end rate taxable_in_slab tax_in_slab]
              else slab_breakdown in
            let stop :=
              match limit with
              | Finite l => Py.leb income l
              | Infinity => true
              end in
            if stop then (tax, slab_breakdown)
            else tax_slab_loop income rest tax limit slab_breakdown
      end
  end.

Definition calculate_tax_slab (income : Q) (slabs : list (limit * Q))
    : Q * list slab_entry :=
  tax_slab_loop income slabs 0.0 (Finite 0) [].

Record tax_result : Type := mk_tax_result {
  head_wise_calculation : list (string * head_detail);
  total_gross_income : Q;
  result_total_taxable_income : Q;
  tax_before_rebate : Q;
  tax_rebate : Q;
  tax_after_rebate : Q;
  health_education_cess : Q;
  total_tax_liability : Q;
  effective_tax_rate : Q;
  slab_breakdown : list slab_entry
}.

Definition calculate_tax_liability_enhanced (income_heads : list (string * Q))
    : tax_result :=
  let head_wise_calc := calculate_head_wise_taxable_income income_heads in
  let total_taxable_income := total_taxable_income head_wise_calc in
  let '(tax_liability, slab_breakdown) :=
    calculate_tax_slab total_taxable_income NEW_REGIME_SLABS in
  let tax_rebate :=
    if Py.leb total_taxable_income TAX_REBATE_LIMIT
    then Qmin TAX_REBATE_AMOUNT tax_liability
    else 0 in
  let tax_after_rebate := tax_liability - tax_rebate in
  let cess := tax_after_rebate * 0.04 in
  let total_tax := tax_after_rebate + cess in
  let total_gross_income := Py.sum (Py.values income_heads) in
  {| head_wise_calculation := head_wise_details head_wise_calc;
     total_gross_income := total_gross_income;
     result_total_taxable_income := total_taxable_income;
     tax_before_rebate := tax_liability;
     tax_rebate := tax_rebate;
     tax_after_rebate := tax_after_rebate;
     health_education_cess := cess;
     total_tax_liability := total_tax;
     effective_tax_rate :=
       if Py.ltb 0 total_gross_income
       then total_tax / total_gross_income * 100
       else 0;
     slab_breakdown := slab_breakdown |}.

End Book3.

(** ** [backend/book1.py]: flat regime comparison (Mode A) *)

Module Book1.

(** An element of [analysis["investment_entries"]]. *)
Record investment_entry : Type := mk_investment_entry {
  inv_date : string;
  inv_amount : Q;
  inv_description : string
}.

(** The keys of the analysis read by [calculate_full_year_tax_optimized]. *)
Record analysis : Type := mk_analysis {
  total_income : Q;
  investment_entries : list investment_entry;
  tds_paid : Q
}.

Definition calculate_old_regime_tax (taxable : Q) : Q :=
  if Py.leb taxable 250000 then 0
  else if Py.leb taxable 500000 then (taxable - 250000) * 0.05
  else if Py.leb taxable 1000000 then (250000 * 0.05) + (taxable - 500000) * 0.2
  else (250000 * 0.05) + (500000 * 0.2) + (taxable - 1000000) * 0.3.

Definition new_regime_slabs : list (Q * Q) :=
  [ (300000, 0); (300000, 0.05); (300000, 0.1); (300000, 0.15); (300000, 0.2) ].

(** The [for] loop of [calculate_new_regime_tax]; the result is the pair
    [(tax, remaining)] at the end of the loop. *)
Fixpoint new_regime_loop (slabs : list (Q * Q)) (tax remaining : Q) : Q * Q :=
  match slabs with
  | [] => (tax, remaining)
  | (slab_limit, rate) :: rest =>
      if Py.leb remaining 0 then (tax, remaining)
      else
        let taxable_in_slab := Qmin remaining slab_limit in
        new_regime_loop rest (tax + taxable_in_slab * rate)
          (remaining - taxable_in_slab)
  end.

Definition calculate_new_regime_tax (taxable : Q) : Q :=
  let '(tax, remaining) := new_regime_loop new_regime_slabs 0 taxable in
  if Py.ltb 0 remaining then tax + remaining * 0.3 else tax.

Inductive regime : Type := Old | New.

(** The [summary] written to the report file, and the unrounded taxes that
    the returned text prints. *)
Record summary : Type := mk_summary {
  gross_income : Q;
  deductions : Q;
  standard_deduction : Q;
  taxable_income : Q;
  tax_old : Q;
  tax_new : Q;
  estimated_tax_old_regime : Q;
  estimated_tax_new_regime : Q;
  selected_regime : regime;
  estimated_tax : Q;
  final_estimated_tax : Q;
  summary_tds_paid : Q
}.

Definition calculate_full_year_tax_optimized (a : analysis) : summary :=
  let income := total_income a in
  let deductions := Py.sum (map inv_amount (investment_entries a)) in
  let standard_deduction := 50000 in
  let taxable_income := Qmax 0 (income - deductions - standard_deduction) in
  let tax_old := calculate_old_regime_tax taxable_income in
  let tax_new := calculate_new_regime_tax taxable_income in
  let tax_old := if Py.leb taxable_income 700000 then 0 else tax_old in
  let selected_regime := if Py.leb tax_old tax_new then Old else New in
  let estimated_tax := Qmin tax_old tax_new in
  {| gross_income := income;
     deductions := deductions;
     standard_deduction := standard_deduction;
     taxable_income := taxable_income;
     tax_old := tax_old;
     tax_new := tax_new;
     estimated_tax_old_regime := Py.round2 tax_old;
     estimated_tax_new_regime := Py.round2 tax_new;
     selected_regime := selected_regime;
     estimated_tax := estimated_tax;
     final_estimated_tax := Py.round2 estimated_tax;
     summary_tds_paid := tds_paid a |}.

End Book1.

(** ** [backend/new.py]: the aggregator *)

Module New.

Definition FOOD_KEYWORDS : list string :=
  [ "zomato"; "swiggy"; "domino"; "pizza"; "food"; "restaurant"; "cafe";
    "meal"; "dining" ]%string.
Definition INVESTMENT_KEYWORDS : list string :=
  [ "lic"; "elss"; "nps"; "ppf"; "insurance"; "mutual fund"; "sip"; "fd";
    "fixed deposit" ]%string.
Definition AVOIDABLE_CATEGORIES : list string :=
  [ "entertainment"; "shopping"; "luxury"; "gaming"; "subscription" ]%string.
Definition PERSON_KEYWORDS : list string :=
  [ "to"; "sent to"; "paid to"; "transfer to"; "payment to" ]%string.

Record investment_entry : Type := mk_investment_entry {
  inv_date : string;
  inv_amount : Q;
  inv_description : string
}.

(** The accumulators of [analyze_transactions_comprehensive]. *)
Record analysis : Type := mk_analysis {
  category_totals : list (string * Q);
  monthly_totals : list (string * Q);
  yearly_totals : list (string * Q);
  person_totals : list (string * Q);
  total_income : Q;
  total_expense : Q;
  reminders : list string;
  investment_entries : list investment_entry;
  avoidable_expenses : list Txn.t
}.

Definition initial : analysis :=
  {| category_totals := []; monthly_totals := []; yearly_totals := [];
     person_totals := []; total_income := 0; total_expense := 0;
     reminders := []; investment_entries := []; avoidable_expenses := [] |}.

(** The category under which a record is totalled. *)
Definition resolve_category (desc_lower : string) (category : string) : string :=
  if Py.any_in FOOD_KEYWORDS desc_lower then "food"%string
  else if Py.any_in INVESTMENT_KEYWORDS desc_lower then "investment"%string
  else category.

Section Aggregator.

(** Library functions of the loop body:
      - [month_year_keys created] is the pair of [strftime("%B %Y")] and
        [strftime("%Y")] of [datetime.fromisoformat(created.replace("Z",
        "+00:00"))], or [None] when parsing raises;
      - [person_search desc_lower] is the title-cased, stripped first group
        of the person regular expression, or [None] without a match;
      - [str_float x] is the text an f-string prints for the float [x]. *)
Variable month_year_keys : string -> option (string * string).
Variable person_search : string -> option string.
Variable str_float : Q -> string.

Definition add_category (category : string) (amount : Q) (st : analysis) : analysis :=
  mk_analysis (Py.add category amount (category_totals st)) (monthly_totals st)
    (yearly_totals st) (person_totals st) (total_income st) (total_expense st)
    (reminders st) (investment_entries st) (avoidable_expenses st).

Definition add_month_year (created : option string) (amount : Q) (st : analysis)
    : analysis :=
  match created with
  | None => st
  | Some created =>
      match month_year_keys created with
      | None => st
      | Some (month_key, year_key) =>
          mk_analysis (category_totals st)
            (Py.add month_key amount (monthly_totals st))
            (Py.add year_key amount (yearly_totals st))
            (person_totals st) (total_income st) (total_expense st)
            (reminders st) (investment_entries st) (avoidable_expenses st)
      end
  end.

Definition add_person (desc_lower : string) (amount : Q) (st : analysis) : analysis :=
  if Py.any_in PERSON_KEYWORDS desc_lower then
    match person_search desc_lower with
    | Some person_name =>
        mk_analysis (category_totals st) (monthly_totals st) (yearly_totals st)
          (Py.add person_name amount (person_totals st))
          (total_income st) (total_expense st)
          (reminders st) (investment_entries st) (avoidable_expenses st)
    | None => st
    end
  else st.

Definition add_income_expense (txn_type : string) (amount : Q) (st : analysis)
    : analysis :=
  if String.eqb txn_type "received" then
    mk_analysis (category_totals st) (monthly_totals st) (yearly_totals st)
      (person_totals st) (total_income st + amount) (total_expense st)
      (reminders st) (investment_entries st) (avoidable_expenses st)
  else if Py.mem txn_type ["sent"; "expense"]%string then
    mk_analysis (category_totals st) (monthly_totals st) (yearly_totals st)
      (person_totals st) (total_income st) (total_expense st + amount)
      (reminders st) (investment_entries st) (avoidable_expenses st)
  else st.

Definition reminder_text (created : string) (amount : Q) : string :=
  ("Loan payment was due on " ++ Py.take 10 created ++ " for ₹"
   ++ str_float amount)%string.

(** The three last statements of the body read [txn["created_at"]] without
    a guard: [None] is the [KeyError] that leaves the body. *)
Definition add_reminder (txn_type : string) (created : option string)
    (amount : Q) (st : analysis) : option analysis :=
  if String.eqb txn_type "loan_payment" then
    match created with
    | None => None
    | Some created =>
        Some (mk_analysis (category_totals st) (monthly_totals st)
                (yearly_totals st) (person_totals st) (total_income st)
                (total_expense st)
                (reminders st ++ [reminder_text created amount])
                (investment_entries st) (avoidable_expenses st))
    end
  else Some st.

Definition add_investment (desc desc_lower : string) (created : option string)
    (amount : Q) (st : analysis) : option analysis :=
  if Py.any_in INVESTMENT_KEYWORDS desc_lower then
    match created with
    | None => None
    | Some created =>
        Some (mk_analysis (category_totals st) (monthly_totals st)
                (yearly_totals st) (person_totals st) (total_income st)
                (total_expense st) (reminders st)
                (investment_entries st ++ [mk_investment_entry created amount desc])
                (avoidable_expenses st))
    end
  else Some st.

Definition add_avoidable (category : string) (amount : Q) (txn : Txn.t)
    (st : analysis) : analysis :=
  if Py.mem (Py.lower category) AVOIDABLE_CATEGORIES && Py.ltb 1000 amount then
    mk_analysis (category_totals st) (monthly_totals st) (yearly_totals st)
      (person_totals st) (total_income st) (total_expense st) (reminders st)
      (investment_entries st) (avoidable_expenses st ++ [txn])
  else st.

(** The body of the loop: [try: ... except Exception: continue]. *)
Definition analyze_step (st : analysis) (txn : Txn.t) : analysis :=
  match Txn.amount txn, Txn.description txn with
  | Txn.Amount amount, Some desc =>
      let desc_lower := Py.lower desc in
      let txn_type := Txn.get_or (Txn.type txn) "" in
      let category := Txn.get_or (Txn.category txn) "Other" in
      let category := resolve_category desc_lower category in
      let st := add_category category amount st in
      let st := add_month_year (Txn.created_at txn) amount st in
      let st := add_person desc_lower amount st in
      let st := add_income_expense txn_type amount st in
      match add_reminder txn_type (Txn.created_at txn) amount st with
      | None => st
      | Some st =>
          match add_investment desc desc_lower (Txn.created_at txn) amount st with
          | None => st
          | Some st => add_avoidable category amount txn st
          end
      end
  | _, _ => st
  end.

(** The returned dictionary: the accumulators and [net_savings]. *)
Record result : Type := mk_result {
  totals : analysis;
  net_savings : Q
}.

(** [None] is the empty dictionary returned for an empty batch. *)
Definition analyze_transactions_comprehensive (transactions : list Txn.t)
    : option result :=
  match transactions with
  | [] => None
  | _ =>
      let st := fold_left analyze_step transactions initial in
      Some {| totals := st; net_savings := total_income st - total_expense st |}
  end.

End Aggregator.

(** [find_person_transactions]: the loop appends the records it keeps. *)
Definition mentions_person (person_name_lower : string) (txn : Txn.t) : bool :=
  let desc := Py.lower (Txn.get_or (Txn.description txn) "") in
  Py.contains person_name_lower desc && Py.any_in PERSON_KEYWORDS desc.

Definition find_person_transactions (transactions : list Txn.t)
    (person_name : string) : list Txn.t :=
  let person_name_lower := Py.lower person_name in
  fold_left
    (fun person_transactions txn =>
       if mentions_person person_name_lower txn
       then person_transactions ++ [txn]
       else person_transactions)
    transactions [].

(** [float(txn.get("amount", 0))]: [None] when the conversion raises. *)
Definition amount_or_zero (txn : Txn.t) : option Q :=
  match Txn.amount txn with
  | Txn.AmountMissing => Some 0
  | Txn.AmountInvalid => None
  | Txn.Amount q => Some q
  end.

(** An element of the [transactions] of [analyze_spending_by_category]. *)
Record category_entry : Type := mk_category_entry {
  ce_date : string;
  ce_description : string;
  ce_amount : Q;
  ce_type : string
}.

Record category_report : Type := mk_category_report {
  report_transactions : list category_entry;
  total_spent : Q;
  transaction_count : nat
}.

Definition category_matches (category_lower : string) (txn : Txn.t) : bool :=
  let desc := Py.lower (Txn.get_or (Txn.description txn) "") in
  let txn_category := Py.lower (Txn.get_or (Txn.category txn) "") in
  Py.contains category_lower desc
  || Py.contains category_lower txn_category
  || (String.eqb category_lower "food" && Py.any_in FOOD_KEYWORDS desc).

(** The body of the loop of [analyze_spending_by_category], which has no
    [try]: [None] is an exception, raised by [float], by
    [txn["created_at"]] or by [txn["description"]]. *)
Definition category_step (category_lower : string)
    (acc : list category_entry * Q) (txn : Txn.t)
    : option (list category_entry * Q) :=
  let '(category_transactions, total_amount) := acc in
  if category_matches category_lower txn then
    match amount_or_zero txn, Txn.created_at txn, Txn.description txn with
    | Some amount, Some created, Some description =>
        let category_transactions :=
          category_transactions
          ++ [mk_category_entry created description amount
                (Txn.get_or (Txn.type txn) "")] in
        match Txn.type txn with
        | Some txn_type =>
            if Py.mem txn_type ["sent"; "expense"]%string
            then Some (category_transactions, total_amount + amount)
            else Some (category_transactions, total_amount)
        | None => Some (category_transactions, total_amount)
        end
    | _, _, _ => None
    end
  else Some acc.

Fixpoint category_loop (category_lower : string) (transactions : list Txn.t)
    (acc : list category_entry * Q) : option (list category_entry * Q) :=
  match transactions with
  | [] => Some acc
  | txn :: rest =>
      match category_step category_lower acc txn with
      | None => None
      | Some acc => category_loop category_lower rest acc
      end
  end.

Definition analyze_spending_by_category (transactions : list Txn.t)
    (category : string) : option category_report :=
  match category_loop (Py.lower category) transactions ([], 0) with
  | None => None
  | Some (category_transactions, total_amount) =>
      Some (mk_category_report category_transactions total_amount
              (List.length category_transactions))
  end.

(** [gst_summary_basic]: the three numbers of the returned text. *)
Record gst_summary : Type := mk_gst_summary {
  gst_collected : Q;
  gst_paid : Q;
  gst_liability : Q
}.

Definition gst_step (acc : Q * Q) (txn : Txn.t) : option (Q * Q) :=
  let '(gst_collected, gst_paid) := acc in
  let desc := Py.lower (Txn.get_or (Txn.description txn) "") in
  match amount_or_zero txn with
  | None => None
  | Some amount =>
      if Py.contains "gst collected" desc || Py.contains "gst received" desc
      then Some (gst_collected + amount, gst_paid)
      else if Py.contains "gst paid" desc || Py.contains "gst payment" desc
           then Some (gst_collected, gst_paid + amount)
           else Some acc
  end.

Fixpoint gst_loop (transactions : list Txn.t) (acc : Q * Q) : option (Q * Q) :=
  match transactions with
  | [] => Some acc
  | txn :: rest =>
      match gst_step acc txn with
      | None => None
      | Some acc => gst_loop rest acc
      end
  end.

Definition gst_summary_basic (transactions : list Txn.t) : option gst_summary :=
  match gst_loop transactions (0, 0) with
  | None => None
  | Some (gst_collected, gst_paid) =>
      Some (mk_gst_summary gst_collected gst_paid (gst_collected - gst_paid))
  end.

(** [int(x)]: the integer towards zero. *)
Definition int_of (x : Q) : Z := if Py.leb 0 x then Qfloor x else Qceiling x.

(** A record of the loan table: its [monthly_interest] may be missing. *)
Record loan : Type := mk_loan { monthly_interest : Txn.raw_amount }.

(** A message of [simulate_loan_repayment_impact]: the numbers and the
    description it prints. *)
Record insight : Type := mk_insight {
  alt_payment : Q;
  insight_description : string;
  months_saved : Z
}.

Inductive simulation : Type :=
| NoInsights          (* "No loan optimization insights available." *)
| NoInterestData      (* "No loan interest data available." *)
| NoSignificant       (* "No significant optimization insights found." *)
| Insights (messages : list insight).

(** The body of the loop: [txn['amount']] and [txn['description']] are read
    without default. *)
Definition insight_step (monthly_interest : Q) (messages : list insight)
    (txn : Txn.t) : option (list insight) :=
  match Txn.amount txn with
  | Txn.Amount alt_payment =>
      let months_saved := alt_payment / monthly_interest in
      if Py.leb 1 months_saved then
        match Txn.description txn with
        | Some description =>
            Some (messages
                  ++ [mk_insight alt_payment description (int_of months_saved)])
        | None => None
        end
      else Some messages
  | _ => None
  end.

Fixpoint insight_loop (monthly_interest : Q) (expenses : list Txn.t)
    (messages : list insight) : option (list insight) :=
  match expenses with
  | [] => Some messages
  | txn :: rest =>
      match insight_step monthly_interest messages txn with
      | None => None
      | Some messages => insight_loop monthly_interest rest messages
      end
  end.

(** [analysis] is the dictionary of [analyze_transactions_comprehensive],
    [None] being the empty one. *)
Definition simulate_loan_repayment_impact (analysis : option result)
    (loans : list loan) : option simulation :=
  let avoidable :=
    match analysis with
    | Some r => avoidable_expenses (totals r)
    | None => []
    end in
  match loans, avoidable with
  | [], _ => Some NoInsights
  | _, [] => Some NoInsights
  | first :: _, _ =>
      let monthly_interest :=
        match monthly_interest first with
        | Txn.AmountMissing => Some 0
        | Txn.AmountInvalid => None
        | Txn.Amount q => Some q
        end in
      match monthly_interest with
      | None => None
      | Some monthly_interest =>
          if Qeq_bool monthly_interest 0 then Some NoInterestData
          else
            match insight_loop monthly_interest (firstn 3 avoidable) [] with
            | None => None
            | Some [] => Some NoSignificant
            | Some messages => Some (Insights messages)
            end
      end
  end.

(** [sorted(items, key=lambda x: -x[1])]: a stable sort, larger amounts
    first. *)
Fixpoint insert_by_amount (item : string * Q) (sorted : list (string * Q))
    : list (string * Q) :=
  match sorted with
  | [] => [item]
  | x :: rest =>
      if Py.ltb (snd x) (snd item) then item :: sorted
      else x :: insert_by_amount item rest
  end.

Definition sort_by_amount (items : list (string * Q)) : list (string * Q) :=
  fold_left (fun sorted item => insert_by_amount item sorted) items [].

(** The numbers that [generate_gamified_dashboard] draws. *)
Record dashboard : Type := mk_dashboard {
  dash_category_totals : list (string * Q);
  dash_total_income : Q;
  dash_total_expense : Q;
  dash_net_savings : Q;
  daily_limit : Q;
  top_categories : list (string * Q);
  monthly_avg : Q
}.

(** The body of the first loop, which reads [amount], [description] and
    [type] without default and has no [try]. *)
Definition dashboard_step (acc : list (string * Q) * Q * Q) (txn : Txn.t)
    : option (list (string * Q) * Q * Q) :=
  let '(category_totals, total_income, total_expense) := acc in
  match Txn.amount txn, Txn.description txn, Txn.type txn with
  | Txn.Amount amt, Some _, Some txn_type =>
      if String.eqb txn_type "received"
      then Some (category_totals, total_income + amt, total_expense)
      else if Py.mem txn_type ["sent"; "expense"]%string
           then
             let cat := Txn.get_or (Txn.category txn) "Other" in
             Some (Py.add cat amt category_totals, total_income,
                   total_expense + amt)
           else Some acc
  | _, _, _ => None
  end.

Fixpoint dashboard_loop (transactions : list Txn.t)
    (acc : list (string * Q) * Q * Q) : option (list (string * Q) * Q * Q) :=
  match transactions with
  | [] => Some acc
  | txn :: rest =>
      match dashboard_step acc txn with
      | None => None
      | Some acc => dashboard_loop rest acc
      end
  end.

Definition generate_gamified_dashboard (transactions : list Txn.t)
    : option dashboard :=
  match dashboard_loop transactions ([], 0, 0) with
  | None => None
  | Some (category_totals, total_income, total_expense) =>
      let net_savings := total_income - total_expense in
      let daily_limit :=
        if Py.ltb 0 total_income
        then Py.round2 ((total_income - total_expense) / 30)
        else 0 in
      let sorted_cats := firstn 3 (sort_by_amount category_totals) in
      let monthly_avg :=
        if Py.ltb 0 total_expense then total_expense / 12 else 0 in
      Some (mk_dashboard category_totals total_income total_expense
              net_savings daily_limit sorted_cats monthly_avg)
  end.

End New.

(** ** [backend/loan.py]: the loan optimisation engine *)

Module Loan.

Definition LOAN_OPTIMIZATION_BASE_CATEGORIES : list (string * Q) :=
  [ ("food", 0.10); ("entertainment", 0.05); ("shopping", 0.06);
    ("travel", 0.05); ("health", 0.10); ("festival", 0.05);
    ("emergency", 0.10); ("investment", 0.10); ("gifts", 0.05);
    ("utilities", 0.10); ("salary", 0.0) ]%string.

Definition LOAN_OPTIMIZATION_UNNECESSARY_KEYWORDS : list string :=
  [ "entertainment"; "shopping"; "movies"; "party"; "gadgets"; "luxury";
    "travel"; "gaming"; "subscriptions"; "gifts" ]%string.
Definition LOAN_OPTIMIZATION_NECESSARY_KEYWORDS : list string :=
  [ "rent"; "food"; "health"; "education"; "festival"; "emergency";
    "investment"; "utilities"; "salary"; "income" ]%string.

Definition LOAN_AMOUNT : Q := 1200000.
Definition INTEREST_RATE : Q := 0.09.
Definition LOAN_YEARS : Z := 5.

(** A parsed [transaction_date]; rows are ordered by it, field after field.
    [to_period('M')] keeps the year and the month. *)
Record timestamp : Type := mk_timestamp {
  ts_year : Z;
  ts_month : Z;
  ts_day : Z;
  ts_time : Z
}.

Definition period : Type := (Z * Z)%type.

Definition to_period (ts : timestamp) : period := (ts_year ts, ts_month ts).

Definition period_compare (p q : period) : comparison :=
  match (fst p ?= fst q)%Z with
  | Eq => (snd p ?= snd q)%Z
  | c => c
  end.

Definition timestamp_ltb (a b : timestamp) : bool :=
  match period_compare (to_period a) (to_period b) with
  | Lt => true
  | Gt => false
  | Eq =>
      match (ts_day a ?= ts_day b)%Z with
      | Lt => true
      | Gt => false
      | Eq => (ts_time a <? ts_time b)%Z
      end
  end.

(** A row of the frame built by [loan_optimization_pipeline]. *)
Record raw_row : Type := mk_raw_row {
  raw_transaction_date : string;
  raw_category : string;
  raw_amount : Q;
  raw_description : string;
  raw_type : string
}.

(** A row of the frame once dates are parsed and [month] is added. *)
Record row : Type := mk_row {
  transaction_date : timestamp;
  category : string;
  amount : Q;
  description : string;
  type : string;
  month : period
}.

(** A row with the columns [necessary] and [non_essential_amount]. *)
Record spend_row : Type := mk_spend_row {
  base : row;
  necessary : bool;
  non_essential_amount : Q
}.

(** A row with the column [necessity_flag]. *)
Record final_row : Type := mk_final_row {
  spend : spend_row;
  necessity_flag : string
}.

Record summary_row : Type := mk_summary_row {
  Summary_Month : period;
  Salary : Q;
  Loan_EMI : Q;
  Remaining_Salary : Q;
  Unnecessary_Spending : Q;
  Advice : string
}.

Record schedule_row : Type := mk_schedule_row {
  Year : Z;
  Month : string;
  Beginning_Balance : Q;
  EMI : Q;
  Principal : Q;
  Interest : Q;
  Ending_Balance : Q
}.

(** The instalment formula shared by [dynamic_threshold_adjuster] and
    [generate_repayment_schedule]; [None] is the [ZeroDivisionError] of a
    zero divisor. *)
Definition emi_formula (P R : Q) (N : Z) : option Q :=
  if Qeq_bool R 0 then Some (if (0 <? N)%Z then P / inject_Z N else 0)
  else
    let divisor := (1 + R) ^ N - 1 in
    if Qeq_bool divisor 0 then None
    else Some ((P * R * (1 + R) ^ N) / divisor).

Definition infer_lifestyle (df : list row) : string :=
  match df with
  | [] => "Unmarried_but_Living_with_family"
  | _ =>
      let categories := map (fun r => Py.lower (category r)) df in
      if existsb (fun c => Py.contains "school" c || Py.contains "education" c)
           categories
      then "Married_Living_with_family_with_children"
      else if existsb (Py.contains "rent") categories
              && existsb (Py.contains "food") categories
           then "Bachelor_Living_Alone"
           else "Unmarried_but_Living_with_family"
  end%string.

(** [adjustments[k] += delta] on a key of the copied base table. *)
Definition adjust (k : string) (delta : Q) (d : list (string * Q)) : list (string * Q) :=
  match Py.get k d with
  | Some v => Py.set k (v + delta) d
  | None => d
  end.

Definition lifestyle_adjustments (lifestyle : string) : list (string * Q) :=
  let adjustments := LOAN_OPTIMIZATION_BASE_CATEGORIES in
  if String.eqb lifestyle "Unmarried_but_Living_with_family" then
    adjust "entertainment" 0.01
      (adjust "festival" (- 0.02) (adjust "food" (- 0.01) adjustments))
  else if String.eqb lifestyle "Bachelor_Living_Alone" then
    adjust "entertainment" 0.01 (adjust "food" 0.02 adjustments)
  else if String.eqb lifestyle "Married_Living_with_family_with_children" then
    adjust "health" 0.03 (adjust "festival" 0.02 (adjust "food" 0.02 adjustments))
  else adjustments.

Definition dynamic_threshold_adjuster (salary : Q) (lifestyle : string)
    : option (list (string * Q)) :=
  let P := LOAN_AMOUNT in
  let R := INTEREST_RATE / 12 in
  let N := (LOAN_YEARS * 12)%Z in
  match emi_formula P R N with
  | None => None
  | Some emi =>
      let remaining_amount := Qmax (salary - emi) 0 in
      let adjustments := lifestyle_adjustments lifestyle in
      Some (map (fun '(cat, perc) =>
                   (cat, Qmax 0 (Py.round2 (remaining_amount * perc))))
              (filter (fun '(cat, _) => negb (String.eqb cat "salary"))
                 adjustments))
  end.

(** [df.sort_values(by='transaction_date')], as a stable insertion sort. *)
Fixpoint insert_by_date (r : row) (sorted : list row) : list row :=
  match sorted with
  | [] => [r]
  | x :: rest =>
      if timestamp_ltb (transaction_date r) (transaction_date x)
      then r :: sorted
      else x :: insert_by_date r rest
  end.

Definition sort_by_date (df : list row) : list row :=
  fold_left (fun sorted r => insert_by_date r sorted) df [].

(** The body of the loop of [calculate_not_necessary_spending]: the
    cumulative totals and the rows written so far. *)
Definition spending_step (thresholds : list (string * Q))
    (acc : list (string * Q) * list spend_row) (r : row)
    : list (string * Q) * list spend_row :=
  let '(category_cumulative, out) := acc in
  let cat := Py.lower (Py.strip (category r)) in
  let amount := amount r in
  match Py.get cat thresholds with
  | Some threshold =>
      let current_total := Py.get0 cat category_cumulative in
      if Py.leb (current_total + amount) threshold then
        (Py.set cat (current_total + amount) category_cumulative,
         out ++ [mk_spend_row r true 0.0])
      else
        let allowed := Qmax (threshold - current_total) 0 in
        let non_essential := amount - allowed in
        (Py.set cat threshold category_cumulative,
         out ++ [mk_spend_row r false non_essential])
  | None => (category_cumulative, out ++ [mk_spend_row r true 0.0])
  end.

Definition initial_cumulative (thresholds : list (string * Q)) : list (string * Q) :=
  map (fun '(cat, _) => (cat, 0.0)) thresholds.

Definition spending_loop (thresholds : list (string * Q)) (df : list row)
    : list (string * Q) * list spend_row :=
  fold_left (spending_step thresholds) (sort_by_date df)
    (initial_cumulative thresholds, []).

Definition calculate_not_necessary_spending (df : list row)
    (thresholds : list (string * Q)) : list spend_row :=
  snd (spending_loop thresholds df).

(** The state of the [while] loop of [generate_repayment_schedule]. *)
Record loop_state : Type := mk_loop_state {
  balance : Q;
  emi : Q;
  year : Z;
  cur_month : Z;
  months_processed : Z
}.

Definition month_names : list string :=
  [ "Jan"; "Feb"; "Mar"; "Apr"; "May"; "Jun"; "Jul"; "Aug"; "Sep"; "Oct";
    "Nov"; "Dec" ]%string.

(** One turn of the [while] loop: the row appended and the next state. *)
Definition schedule_step (monthly_interest extra_annual_payment : Q)
    (st : loop_state) : schedule_row * loop_state :=
  let balance := balance st in
  let emi := emi st in
  let interest :=
    if Py.ltb 0 monthly_interest then balance * monthly_interest else 0 in
  let principal :=
    if Py.ltb 0 monthly_interest then emi - interest else emi in
  let '(principal, emi) :=
    if Py.ltb balance emi
    then (balance,
          if Py.ltb 0 monthly_interest then balance + interest else balance)
    else (principal, emi) in
  let end_balance := balance - principal in
  let appended :=
    {| Year := year st;
       Month := nth (Z.to_nat (cur_month st mod 12)) month_names ""%string;
       Beginning_Balance := Py.round2 balance;
       EMI := Py.round2 emi;
       Principal := Py.round2 principal;
       Interest := Py.round2 interest;
       Ending_Balance := Py.round2 end_balance |} in
  let balance := end_balance in
  let months_processed := (months_processed st + 1)%Z in
  let month := (cur_month st + 1)%Z in
  let balance :=
    if (month mod 12 =? 0)%Z && Py.ltb 0 extra_annual_payment && Py.ltb 0 balance
    then balance - Qmin balance extra_annual_payment
    else balance in
  let year := if (month mod 12 =? 0)%Z then (year st + 1)%Z else year st in
  (appended, mk_loop_state balance emi year month months_processed).

(** The [while] loop; it makes at most [n_months] turns, which [fuel] counts. *)
Fixpoint schedule_loop (fuel : nat) (monthly_interest extra_annual_payment : Q)
    (n_months : Z) (st : loop_state) : list schedule_row :=
  match fuel with
  | O => []
  | S fuel' =>
      if Py.ltb 0 (balance st) && (months_processed st <? n_months)%Z then
        let '(appended, st') :=
          schedule_step monthly_interest extra_annual_payment st in
        appended :: schedule_loop fuel' monthly_interest extra_annual_payment
                      n_months st'
      else []
  end.

Definition generate_repayment_schedule (loan_amount interest_rate : Q)
    (years : Z) (extra_annual_payment : Q) : option (list schedule_row) :=
  let balance := loan_amount in
  let monthly_interest := interest_rate / 12 in
  let n_months := (years * 12)%Z in
  match emi_formula loan_amount monthly_interest n_months with
  | None => None
  | Some emi =>
      Some (schedule_loop (Z.to_nat n_months) monthly_interest
              extra_annual_payment n_months
              (mk_loop_state balance emi 2025 6 0))
  end.

(** [df.groupby('month')]: the groups in increasing order of the month, the
    rows of a group in the order of the frame. *)
Fixpoint insert_group (r : row) (groups : list (period * list row))
    : list (period * list row) :=
  match groups with
  | [] => [(month r, [r])]
  | (p, rows) :: rest =>
      match period_compare (month r) p with
      | Eq => (p, rows ++ [r]) :: rest
      | Lt => (month r, [r]) :: groups
      | Gt => (p, rows) :: insert_group r rest
      end
  end.

Definition groupby_month (df : list row) : list (period * list row) :=
  fold_left (fun groups r => insert_group r groups) df [].

(** The rows of a month selected as salary: [type] is ['received'] and the
    description matches ["salary|income"], case ignored. *)
Definition mentions_salary (description : string) : bool :=
  Py.contains "salary" (Py.lower description)
  || Py.contains "income" (Py.lower description).

Definition is_salary_row (r : row) : bool :=
  String.eqb (Py.lower (type r)) "received" && mentions_salary (description r).

Definition month_salary (group : list row) : Q :=
  match filter is_salary_row group with
  | [] => 0.0
  | salary_transactions => Py.sum (map amount salary_transactions)
  end.

(** The thresholds of one month, as the loop of [_run_loan_optimization_core]
    computes them: [remaining] is handed to [dynamic_threshold_adjuster]. *)
Definition month_thresholds (monthly_emi : Q) (lifestyle : string)
    (group : list row) : option (list (string * Q)) :=
  let salary := month_salary group in
  let remaining := Qmax (salary - monthly_emi) 0 in
  dynamic_threshold_adjuster remaining lifestyle.

Section Pipeline.

(** Library functions:
      - [to_datetime s] is [pd.to_datetime(s, format='mixed', dayfirst=True,
        errors='coerce')], [None] being [NaT];
      - [get_best_match text keywords] is the keyword of highest TF-IDF
        cosine similarity, when above 0.3, and that similarity. *)
Variable to_datetime : string -> option timestamp.
Variable get_best_match : string -> list string -> option string * Q.

(** [re.sub(r"[^a-zA-Z ]", "", text)] *)
Fixpoint letters_and_spaces (text : string) : string :=
  match text with
  | EmptyString => EmptyString
  | String c rest =>
      let n := nat_of_ascii c in
      if ((n =? 32) || ((65 <=? n) && (n <=? 90)) || ((97 <=? n) && (n <=? 122)))%nat
      then String c (letters_and_spaces rest)
      else letters_and_spaces rest
  end.

Definition categorize_nlp (text : string) : string :=
  let text_clean := Py.lower (letters_and_spaces text) in
  if Py.contains "salary" text_clean || Py.contains "income" text_clean
  then "Necessary"%string
  else
    let '(necessary_match, necessary_sim) :=
      get_best_match text_clean LOAN_OPTIMIZATION_NECESSARY_KEYWORDS in
    let '(unnecessary_match, unnecessary_sim) :=
      get_best_match text_clean LOAN_OPTIMIZATION_UNNECESSARY_KEYWORDS in
    if (match necessary_match with Some _ => true | None => false end)
       && Py.leb unnecessary_sim necessary_sim
    then "Necessary"%string
    else match unnecessary_match with
         | Some _ => "Not Necessary"%string
         | None => "Necessary"%string
         end.

(** Date parsing, [dropna], category normalisation and the [month] column. *)
Definition parse_rows (df : list raw_row) : list row :=
  flat_map
    (fun r =>
       match to_datetime (raw_transaction_date r) with
       | None => []
       | Some ts =>
           [ mk_row ts (Py.strip (Py.lower (raw_category r))) (raw_amount r)
               (raw_description r) (raw_type r) (to_period ts) ]
       end)
    df.

Definition flag_row (s : spend_row) : final_row :=
  let r := base s in
  mk_final_row s
    (if String.eqb (Py.lower (type r)) "received" && mentions_salary (description r)
     then "Necessary - Income"%string
     else if negb (necessary s) then "Not Necessary - Threshold Exceed"%string
          else categorize_nlp (description r)).

(** The body of the loop over the months. *)
Definition process_month (monthly_emi : Q) (lifestyle : string)
    (p : period) (group : list row) : option (list final_row * summary_row) :=
  let salary := month_salary group in
  let remaining := Qmax (salary - monthly_emi) 0 in
  match dynamic_threshold_adjuster remaining lifestyle with
  | None => None
  | Some thresholds =>
      let group := calculate_not_necessary_spending group thresholds in
      let group := map flag_row group in
      let unnecessary_spending :=
        Py.sum (map (fun f => non_essential_amount (spend f)) group) in
      let advice :=
        if Py.ltb 0 salary && Py.ltb (0.15 * salary) unnecessary_spending
        then "⚠ High unnecessary expenses. Consider reviewing your budget."%string
        else "✅ Good control on spending!"%string in
      Some (group,
            mk_summary_row p (Py.round2 salary) monthly_emi remaining
              unnecessary_spending advice)
  end.

Fixpoint process_months (monthly_emi : Q) (lifestyle : string)
    (groups : list (period * list row))
    : option (list (list final_row) * list summary_row) :=
  match groups with
  | [] => Some ([], [])
  | (p, group) :: rest =>
      match process_month monthly_emi lifestyle p group with
      | None => None
      | Some (rows, summary) =>
          match process_months monthly_emi lifestyle rest with
          | None => None
          | Some (final_results, monthly_summary) =>
              Some (rows :: final_results, summary :: monthly_summary)
          end
      end
  end.

(** The dictionary returned by [_run_loan_optimization_core]; the keys
    [user_id] and [user_prompt], copied from the arguments, are left out. *)
Record results : Type := mk_results {
  lifestyle : string;
  monthly_emi : Q;
  categorized_transactions : list final_row;
  monthly_summary : list summary_row;
  normal_schedule : list schedule_row;
  optimized_schedule : list schedule_row
}.

(** [None] is an exception raised inside the core. *)
Definition _run_loan_optimization_core (df : list raw_row) : option results :=
  let df := parse_rows df in
  let lifestyle := infer_lifestyle df in
  match generate_repayment_schedule LOAN_AMOUNT INTEREST_RATE LOAN_YEARS 0 with
  | None => None
  | Some schedule_df =>
      let monthly_emi :=
        match schedule_df with
        | first :: _ => Py.round2 (EMI first)
        | [] => 0.0
        end in
      match process_months monthly_emi lifestyle (groupby_month df) with
      | None => None
      | Some (final_results, monthly_summary) =>
          let final_df := List.concat final_results in
          let total_extra_payment :=
            match final_df with
            | [] => 0.0
            | _ => Py.sum (map (fun f => non_essential_amount (spend f)) final_df)
            end in
          match generate_repayment_schedule LOAN_AMOUNT INTEREST_RATE
                  LOAN_YEARS total_extra_payment with
          | None => None
          | Some optimized_schedule =>
              Some (mk_results lifestyle monthly_emi final_df monthly_summary
                      schedule_df optimized_schedule)
          end
      end
  end.

(** The messages of the [{"error": ...}] results. *)
Inductive error : Type :=
| NoTransactionData   (* "No transaction data provided for loan optimization." *)
| UnableToProcess     (* "Unable to process transaction data for loan optimization." *)
| ErrorOccurred.      (* "An error occurred during loan optimization: ..." *)

Inductive outcome : Type :=
| Failure (e : error)
| Success (r : results).

(** One element of [df_data]; [None] when [float(...)] raises. *)
Definition frame_row (txn : Txn.t) : option raw_row :=
  let amount :=
    match Txn.amount txn with
    | Txn.AmountMissing => Some 0.0
    | Txn.AmountInvalid => None
    | Txn.Amount q => Some q
    end in
  match amount with
  | None => None
  | Some amount =>
      Some (mk_raw_row (Txn.get_or (Txn.created_at txn) "")
              (Txn.get_or (Txn.category txn) "Other") amount
              (Txn.get_or (Txn.description txn) "")
              (Txn.get_or (Txn.type txn) "unknown"))
  end.

Fixpoint build_frame (transactions : list Txn.t) : option (list raw_row) :=
  match transactions with
  | [] => Some []
  | txn :: rest =>
      match frame_row txn with
      | None => None
      | Some r =>
          match build_frame rest with
          | None => None
          | Some rows => Some (r :: rows)
          end
      end
  end.

(** [loan_optimization_pipeline]; the markdown text added to the results
    under [formatted_output] is left out. *)
Definition loan_optimization_pipeline (transactions : list Txn.t) : outcome :=
  match transactions with
  | [] => Failure NoTransactionData
  | _ =>
      match build_frame transactions with
      | None => Failure ErrorOccurred
      | Some [] => Failure UnableToProcess
      | Some df =>
          match _run_loan_optimization_core df with
          | None => Failure ErrorOccurred
          | Some r => Success r
          end
      end
  end.

End Pipeline.

End Loan.

(** * Properties *)

(** ** Facts about the Python builtins *)

Module PyFacts.

Lemma leb_le (x y : Q) : Py.leb x y = true <-> x <= y.
Proof. apply Qle_bool_iff. Qed.

Lemma leb_gt (x y : Q) : Py.leb x y = false <-> y < x.
Proof.
  unfold Py.leb. split; intros H.
  - apply Qnot_le_lt. intros Hle. apply Qle_bool_iff in Hle. congruence.
  - destruct (Qle_bool x y) eqn:E; [|reflexivity].
    apply Qle_bool_iff in E. lra.
Qed.

Lemma ltb_lt (x y : Q) : Py.ltb x y = true <-> x < y.
Proof.
  unfold Py.ltb. rewrite negb_true_iff. apply (leb_gt y x).
Qed.

Lemma ltb_ge (x y : Q) : Py.ltb x y = false <-> y <= x.
Proof.
  unfold Py.ltb. rewrite negb_false_iff. apply (leb_le y x).
Qed.

Lemma fold_plus_acc (xs : list Q) (a : Q) :
  fold_left Qplus xs a == a + Py.sum xs.
Proof.
  unfold Py.sum. revert a.
  induction xs as [|x xs IH]; intros a; simpl.
  - lra.
  - rewrite (IH (a + x)), (IH (0 + x)). lra.
Qed.

Lemma sum_nil : Py.sum [] == 0.
Proof. reflexivity. Qed.

Lemma sum_cons (x : Q) (xs : list Q) : Py.sum (x :: xs) == x + Py.sum xs.
Proof.
  unfold Py.sum at 1. simpl. rewrite fold_plus_acc. lra.
Qed.

Lemma sum_app (xs ys : list Q) : Py.sum (xs ++ ys) == Py.sum xs + Py.sum ys.
Proof.
  induction xs as [|x xs IH]; simpl.
  - rewrite sum_nil. lra.
  - rewrite !sum_cons, IH. lra.
Qed.

Section DictFacts.
Context {V : Type}.
Implicit Types (d : list (string * V)) (k : string) (v : V).

Lemma get_set_same k v d : Py.get k (Py.set k v d) = Some v.
Proof.
  induction d as [|[k' v'] d IH]; simpl.
  - now rewrite String.eqb_refl.
  - destruct (String.eqb k k') eqn:E; simpl; rewrite E; auto.
Qed.

Lemma get_set_other k k' v d : k <> k' -> Py.get k (Py.set k' v d) = Py.get k d.
Proof.
  intros Hne. induction d as [|[k0 v0] d IH]; simpl.
  - destruct (String.eqb k k') eqn:E; [apply String.eqb_eq in E; congruence|auto].
  - destruct (String.eqb k' k0) eqn:E'; simpl.
    + apply String.eqb_eq in E'. subst k0.
      apply String.eqb_neq in Hne. now rewrite Hne.
    + destruct (String.eqb k k0); auto.
Qed.

Lemma get_none_not_in k d : Py.get k d = None <-> ~ In k (Py.keys d).
Proof.
  induction d as [|[k' v'] d IH]; simpl.
  - tauto.
  - destruct (String.eqb k k') eqn:E.
    + apply String.eqb_eq in E. subst. split; [discriminate|tauto].
    + apply String.eqb_neq in E. rewrite IH. split; [intros H [H'|H']; congruence|tauto].
Qed.

Lemma keys_set k v d :
  Py.keys (Py.set k v d) = if Py.has k d then Py.keys d else Py.keys d ++ [k].
Proof.
  unfold Py.has. induction d as [|[k' v'] d IH]; simpl; auto.
  destruct (String.eqb k k') eqn:E; simpl; auto.
  rewrite IH. destruct (Py.get k d); auto.
Qed.

End DictFacts.

End PyFacts.

(** ** Rounding to two decimals *)

Module RoundFacts.

Lemma floor_bounds (x : Q) :
  inject_Z (Qfloor x) <= x /\ x < inject_Z (Qfloor x) + 1.
Proof.
  split; [apply Qfloor_le|].
  pose proof (Qlt_floor x) as H. rewrite inject_Z_plus in H. exact H.
Qed.

Lemma inject_Z_succ (z : Z) : inject_Z (z + 1) == inject_Z z + 1.
Proof. rewrite inject_Z_plus. reflexivity. Qed.

Lemma round_half_even_error (x : Q) :
  x - (1 # 2) <= inject_Z (Py.round_half_even x) <= x + (1 # 2).
Proof.
  unfold Py.round_half_even.
  destruct (floor_bounds x) as [Hlo Hhi].
  destruct (Qcompare (x - inject_Z (Qfloor x)) (1 # 2)) eqn:E.
  - apply Qeq_alt in E.
    destruct (Z.even (Qfloor x)); rewrite ?inject_Z_succ; lra.
  - apply Qlt_alt in E. lra.
  - apply Qgt_alt in E. rewrite inject_Z_succ. lra.
Qed.

Lemma round_half_even_monotone (x y : Q) :
  x <= y -> (Py.round_half_even x <= Py.round_half_even y)%Z.
Proof.
  intros Hxy.
  pose proof (Qfloor_resp_le x y Hxy) as Hfloor.
  destruct (floor_bounds x) as [Hxlo Hxhi].
  destruct (floor_bounds y) as [Hylo Hyhi].
  assert (Hx : (Qfloor x <= Py.round_half_even x <= Qfloor x + 1)%Z).
  { unfold Py.round_half_even.
    destruct (Qcompare _ _); [destruct (Z.even _)| |]; lia. }
  assert (Hy : (Qfloor y <= Py.round_half_even y <= Qfloor y + 1)%Z).
  { unfold Py.round_half_even.
    destruct (Qcompare _ _); [destruct (Z.even _)| |]; lia. }
  destruct (Z.eq_dec (Qfloor x) (Qfloor y)) as [Heq|Hne]; [|lia].
  unfold Py.round_half_even. rewrite <- Heq in *.
  destruct (Qcompare (x - inject_Z (Qfloor x)) (1 # 2)) eqn:Ex;
    destruct (Qcompare (y - inject_Z (Qfloor x)) (1 # 2)) eqn:Ey;
    try (destruct (Z.even (Qfloor x))); try lia; exfalso;
    rewrite <- ?Qeq_alt, <- ?Qlt_alt, <- ?Qgt_alt in Ex;
    rewrite <- ?Qeq_alt, <- ?Qlt_alt, <- ?Qgt_alt in Ey; lra.
Qed.

Lemma round2_error (x : Q) : x - (1 # 200) <= Py.round2 x <= x + (1 # 200).
Proof.
  unfold Py.round2. pose proof (round_half_even_error (x * 100)) as H.
  split; apply Qmult_le_r with (z := 100); try reflexivity; field_simplify; lra.
Qed.

Lemma round2_monotone (x y : Q) : x <= y -> Py.round2 x <= Py.round2 y.
Proof.
  intros Hxy. unfold Py.round2.
  assert (H : x * 100 <= y * 100) by lra.
  apply round_half_even_monotone in H.
  rewrite Zle_Qle in H.
  apply Qmult_le_r with (z := 100); [reflexivity|]. field_simplify. lra.
Qed.

End RoundFacts.

(** ** Head-wise taxable income ([backend/book3.py]) *)

Module Book3Facts.
Import Book3.

(** The deduction rules in the words of the specification. *)
Definition spec_deduction (head : string) (gross : Q) : Q :=
  if String.eqb head "salary" then Qmin 75000 gross
  else if String.eqb head "house_property" then gross * 0.30
  else 0.

(** What a head adds to the total taxable income: nothing for capital gains
    and for a head without positive gross income. *)
Definition spec_contribution (item : string * Q) : Q :=
  let '(head, gross) := item in
  if String.eqb head "capital_gains" then 0
  else if Py.leb gross 0 then 0
  else Qmax 0 (gross - spec_deduction head gross).

(** The Scenario 1 batch. *)
Definition salary_march : Txn.t :=
  Txn.mk (Txn.Amount 5000) (Some "Salary - March 2025"%string)
    (Some "received"%string) None (Some "2025-03-05T00:00:00Z"%string).

Lemma head_deduction_taxable (head : string) (gross : Q) :
  0 < gross ->
  head <> "capital_gains"%string ->
  snd (head_deduction head gross) == Qmax 0 (gross - spec_deduction head gross).
Proof.
  intros Hpos Hcg. unfold head_deduction, spec_deduction, STANDARD_DEDUCTION.
  destruct (String.eqb head "salary"); [reflexivity|].
  destruct (String.eqb head "house_property"); [reflexivity|].
  destruct (String.eqb head "capital_gains") eqn:E.
  { apply String.eqb_eq in E. contradiction. }
  assert (Hmax : Qmax 0 (gross - 0) == gross).
  { rewrite Q.max_r; lra. }
  destruct (String.eqb head "business_profession"); simpl; [now rewrite Hmax|].
  destruct (String.eqb head "other_sources"); simpl; now rewrite Hmax.
Qed.

Lemma head_wise_step_total (acc : head_wise) (item : string * Q) :
  total_taxable_income (head_wise_step acc item)
  == total_taxable_income acc + spec_contribution item.
Proof.
  destruct item as [head gross]. unfold head_wise_step, spec_contribution.
  destruct (Py.leb gross 0) eqn:Hg.
  - destruct (String.eqb head "capital_gains"); lra.
  - apply PyFacts.leb_gt in Hg.
    destruct (head_deduction head gross) as [ded tax] eqn:Hd. simpl.
    destruct (String.eqb head "capital_gains") eqn:E; simpl; [lra|].
    apply String.eqb_neq in E.
    pose proof (head_deduction_taxable head gross Hg E) as H.
    rewrite Hd in H. simpl in H. rewrite H. lra.
Qed.

Lemma head_wise_fold_total (items : list (string * Q)) (acc : head_wise) :
  total_taxable_income (fold_left head_wise_step items acc)
  == total_taxable_income acc + Py.sum (map spec_contribution items).
Proof.
  revert acc. induction items as [|item items IH]; intros acc; simpl.
  - rewrite PyFacts.sum_nil. lra.
  - rewrite IH, head_wise_step_total, PyFacts.sum_cons. lra.
Qed.

Lemma head_wise_step_details_other (acc : head_wise) (item : string * Q)
    (head : string) :
  head <> fst item ->
  Py.get head (head_wise_details (head_wise_step acc item))
  = Py.get head (head_wise_details acc).
Proof.
  destruct item as [h g]. simpl. intros Hne. unfold head_wise_step.
  destruct (Py.leb g 0); [reflexivity|].
  destruct (head_deduction h g). simpl.
  now apply PyFacts.get_set_other.
Qed.

Lemma head_wise_fold_details_other (items : list (string * Q))
    (acc : head_wise) (head : string) :
  ~ In head (Py.keys items) ->
  Py.get head (head_wise_details (fold_left head_wise_step items acc))
  = Py.get head (head_wise_details acc).
Proof.
  revert acc. induction items as [|item items IH]; intros acc Hnin; simpl.
  - reflexivity.
  - simpl in Hnin. rewrite IH by tauto.
    apply head_wise_step_details_other. intros ->. tauto.
Qed.

(** The entry of a head after the loop, for a mapping with unique keys. *)
Lemma head_wise_fold_details (items : list (string * Q)) (acc : head_wise)
    (head : string) (gross : Q) :
  NoDup (Py.keys items) ->
  In (head, gross) items ->
  Py.get head (head_wise_details (fold_left head_wise_step items acc))
  = if Py.leb gross 0 then Py.get head (head_wise_details acc)
    else Some (mk_head_detail gross (fst (head_deduction head gross))
                 (snd (head_deduction head gross))
                 (snd match Py.get head DEDUCTIONS with
                      | Some info => info
                      | None => (0, "No deduction"%string)
                      end)).
Proof.
  revert acc. induction items as [|item items IH]; intros acc Hnd Hin.
  - destruct Hin.
  - simpl in Hnd. inversion Hnd as [|? ? Hnotin Hnd']; subst.
    destruct Hin as [->|Hin]; simpl.
    + rewrite head_wise_fold_details_other by exact Hnotin.
      unfold head_wise_step.
      destruct (Py.leb gross 0); [reflexivity|].
      destruct (head_deduction head gross). simpl.
      apply PyFacts.get_set_same.
    + rewrite (IH _ Hnd' Hin).
      destruct (Py.leb gross 0); [|reflexivity].
      apply head_wise_step_details_other.
      intros ->. apply Hnotin.
      change (In (fst item) (map fst items)).
      apply in_map_iff. exists (fst item, gross). split; [reflexivity|].
      destruct item; exact Hin.
Qed.

(** C1. For every income-heads mapping, each head of positive gross income
    gets an entry that records its gross income and the deduction of its
    rule: min(75000, gross) for salary, 30% of gross for house property, 0
    for business/profession and other sources, and taxable income 0 for
    capital gains; a head without positive gross income gets no entry; the
    total taxable income is the sum of max(0, gross - deduction) over the
    heads other than capital gains.  In particular the single received
    transaction "Salary - March 2025" of 5000 gives the salary head gross
    5000, deduction 5000, taxable 0 and a total tax of 0. *)
Theorem C1_head_wise_deduction_rules :
  (forall income_heads : list (string * Q),
      NoDup (Py.keys income_heads) ->
      let r := calculate_head_wise_taxable_income income_heads in
      (forall head gross,
          In (head, gross) income_heads -> 0 < gross ->
          exists d,
            Py.get head (head_wise_details r) = Some d /\
            gross_income d = gross /\
            (head = "salary"%string ->
             deduction_amount d = Qmin 75000 gross /\
             taxable_income d = Qmax 0 (gross - Qmin 75000 gross)) /\
            (head = "house_property"%string ->
             deduction_amount d = gross * 0.30 /\
             taxable_income d = Qmax 0 (gross - gross * 0.30)) /\
            (head = "business_profession"%string \/ head = "other_sources"%string ->
             deduction_amount d = 0 /\ taxable_income d = gross) /\
            (head = "capital_gains"%string -> taxable_income d = 0)) /\
      (forall head gross,
          In (head, gross) income_heads -> gross <= 0 ->
          Py.get head (head_wise_details r) = None) /\
      total_taxable_income r == Py.sum (map spec_contribution income_heads)) /\
  (forall re_search,
      let heads := head_totals (analyze_income_by_heads re_search [salary_march]) in
      let r := calculate_tax_liability_enhanced heads in
      exists d,
        Py.get "salary" (head_wise_calculation r) = Some d /\
        gross_income d == 5000 /\
        deduction_amount d == 5000 /\
        taxable_income d == 0 /\
        total_tax_liability r == 0).
Proof.
  split.
  - intros income_heads Hnd r. split; [|split].
    + intros head gross Hin Hpos.
      unfold r, calculate_head_wise_taxable_income.
      rewrite (head_wise_fold_details _ _ head gross Hnd Hin).
      apply PyFacts.leb_gt in Hpos. rewrite Hpos.
      eexists. split; [reflexivity|]. simpl.
      split; [reflexivity|].
      split; [intros ->; split; reflexivity|].
      split; [intros ->; split; reflexivity|].
      split; [intros [-> | ->]; split; reflexivity|].
      intros ->; reflexivity.
    + intros head gross Hin Hle.
      unfold r, calculate_head_wise_taxable_income.
      rewrite (head_wise_fold_details _ _ head gross Hnd Hin).
      apply PyFacts.leb_le in Hle. rewrite Hle. reflexivity.
    + unfold r, calculate_head_wise_taxable_income.
      rewrite head_wise_fold_total. simpl. lra.
  - intros re_search heads r.
    eexists. split; [vm_compute; reflexivity|].
    vm_compute. repeat split; discriminate.
Qed.

(** The theorem at the mapping of Scenario 1. *)
Lemma C1_witness :
  NoDup (Py.keys [("salary"%string, 5000)]) /\
  exists d,
    Py.get "salary"
      (head_wise_details (calculate_head_wise_taxable_income [("salary"%string, 5000)]))
    = Some d /\ deduction_amount d = Qmin 75000 5000.
Proof.
  assert (Hnd : NoDup (Py.keys [("salary"%string, 5000)])).
  { constructor; [simpl; tauto | constructor]. }
  split; [exact Hnd|].
  destruct (proj1 C1_head_wise_deduction_rules _ Hnd) as [Hhead _].
  destruct (Hhead "salary"%string 5000) as [d [Hget [_ [Hsal _]]]].
  - simpl. left. reflexivity.
  - reflexivity.
  - exists d. split; [exact Hget|]. apply Hsal. reflexivity.
Defined.

(** *** The slab loop *)

(** The tax added by the slabs still to visit, without the accumulator. *)
Fixpoint slab_tax (income : Q) (slabs : list (limit * Q)) (prev : Q) : Q :=
  match slabs with
  | [] => 0
  | (Finite l, rate) :: rest =>
      if Py.leb income prev then 0
      else Qmin (income - prev) (l - prev) * rate
           + (if Py.leb income l then 0 else slab_tax income rest l)
  | (Infinity, rate) :: rest =>
      if Py.leb income prev then 0 else (income - prev) * rate
  end.

Lemma tax_slab_loop_fst (income : Q) (slabs : list (limit * Q)) (tax prev : Q)
    (bd : list slab_entry) :
  fst (tax_slab_loop income slabs tax (Finite prev) bd)
  == tax + slab_tax income slabs prev.
Proof.
  revert tax prev bd.
  induction slabs as [|[[l|] rate] rest IH]; intros tax prev bd; simpl.
  - lra.
  - destruct (Py.leb income prev); simpl; [lra|].
    destruct (Py.leb income l); simpl; [lra|].
    rewrite IH. lra.
  - destruct (Py.leb income prev); simpl; lra.
Qed.

(** Slabs with non-negative rates and limits that increase from [prev]. *)
Fixpoint ascending (prev : Q) (slabs : list (limit * Q)) : Prop :=
  match slabs with
  | [] => True
  | (Finite l, rate) :: rest => prev <= l /\ 0 <= rate /\ ascending l rest
  | (Infinity, rate) :: rest => 0 <= rate
  end.

Lemma slab_tax_nonneg (income : Q) (slabs : list (limit * Q)) (prev : Q) :
  ascending prev slabs -> 0 <= slab_tax income slabs prev.
Proof.
  revert prev. induction slabs as [|[[l|] rate] rest IH]; intros prev Hasc; simpl.
  - lra.
  - destruct Hasc as (Hpl & Hrate & Hrest).
    destruct (Py.leb income prev) eqn:E; [lra|].
    apply PyFacts.leb_gt in E.
    assert (0 <= Qmin (income - prev) (l - prev) * rate).
    { apply Qmult_le_0_compat; [apply Q.min_glb; lra | exact Hrate]. }
    destruct (Py.leb income l); [lra|].
    specialize (IH l Hrest). lra.
  - simpl in Hasc. destruct (Py.leb income prev) eqn:E; [lra|].
    apply PyFacts.leb_gt in E.
    apply Qmult_le_0_compat; lra.
Qed.

Lemma slab_tax_monotone (slabs : list (limit * Q)) (prev x y : Q) :
  ascending prev slabs -> x <= y ->
  slab_tax x slabs prev <= slab_tax y slabs prev.
Proof.
  revert prev. induction slabs as [|[[l|] rate] rest IH]; intros prev Hasc Hxy; simpl.
  - lra.
  - pose proof (slab_tax_nonneg y _ _ Hasc) as Hy. simpl in Hy.
    destruct Hasc as (Hpl & Hrate & Hrest).
    destruct (Py.leb x prev) eqn:Ex; [exact Hy|].
    apply PyFacts.leb_gt in Ex.
    destruct (Py.leb y prev) eqn:Ey; [apply PyFacts.leb_le in Ey; lra|].
    assert (Hpart : Qmin (x - prev) (l - prev) * rate
                    <= Qmin (y - prev) (l - prev) * rate).
    { apply Qmult_le_compat_r; [|exact Hrate].
      apply Q.min_le_compat_r. lra. }
    destruct (Py.leb x l) eqn:Exl.
    + destruct (Py.leb y l); [lra|].
      pose proof (slab_tax_nonneg y rest l Hrest). lra.
    + apply PyFacts.leb_gt in Exl.
      destruct (Py.leb y l) eqn:Eyl; [apply PyFacts.leb_le in Eyl; lra|].
      specialize (IH l Hrest Hxy). lra.
  - simpl in Hasc.
    destruct (Py.leb x prev) eqn:Ex.
    + destruct (Py.leb y prev) eqn:Ey; [lra|].
      apply PyFacts.leb_gt in Ey. apply Qmult_le_0_compat; lra.
    + apply PyFacts.leb_gt in Ex.
      destruct (Py.leb y prev) eqn:Ey; [apply PyFacts.leb_le in Ey; lra|].
      apply Qmult_le_compat_r; lra.
Qed.

Lemma NEW_REGIME_SLABS_ascending : ascending 0 NEW_REGIME_SLABS.
Proof. simpl. repeat split; discriminate. Qed.

Lemma calculate_tax_slab_monotone (x y : Q) :
  x <= y ->
  fst (calculate_tax_slab x NEW_REGIME_SLABS)
  <= fst (calculate_tax_slab y NEW_REGIME_SLABS).
Proof.
  intros Hxy. unfold calculate_tax_slab. rewrite !tax_slab_loop_fst.
  pose proof (slab_tax_monotone _ _ _ _ NEW_REGIME_SLABS_ascending Hxy). lra.
Qed.

Lemma calculate_tax_slab_compat (x y : Q) :
  x == y ->
  fst (calculate_tax_slab x NEW_REGIME_SLABS)
  == fst (calculate_tax_slab y NEW_REGIME_SLABS).
Proof.
  intros Hxy. apply Qle_antisym; apply calculate_tax_slab_monotone; lra.
Qed.

Lemma tax_before_rebate_eq (income_heads : list (string * Q)) :
  tax_before_rebate (calculate_tax_liability_enhanced income_heads)
  = fst (calculate_tax_slab
           (total_taxable_income (calculate_head_wise_taxable_income income_heads))
           NEW_REGIME_SLABS).
Proof.
  unfold calculate_tax_liability_enhanced.
  destruct (calculate_tax_slab _ NEW_REGIME_SLABS). reflexivity.
Qed.

Lemma result_total_taxable_income_eq (income_heads : list (string * Q)) :
  result_total_taxable_income (calculate_tax_liability_enhanced income_heads)
  = total_taxable_income (calculate_head_wise_taxable_income income_heads).
Proof.
  unfold calculate_tax_liability_enhanced.
  destruct (calculate_tax_slab _ NEW_REGIME_SLABS). reflexivity.
Qed.

(** C2. For every income-heads input of the head-wise computation: the
    rebate is min(60000, tax before rebate) when the total taxable income is
    at most 1,200,000 and 0 above; at exactly 1,200,000 the rebate applies
    (and is 60000), at 1,200,001 it is 0; the cess is 4% of the tax after
    rebate and the total liability is the tax after rebate plus the cess. *)
Theorem C2_rebate_cess_total (income_heads : list (string * Q)) :
  let r := calculate_tax_liability_enhanced income_heads in
  let total := result_total_taxable_income r in
  (total <= 1200000 -> tax_rebate r == Qmin 60000 (tax_before_rebate r)) /\
  (1200000 < total -> tax_rebate r == 0) /\
  (total == 1200000 ->
   tax_rebate r == Qmin 60000 (tax_before_rebate r) /\ tax_rebate r == 60000) /\
  (total == 1200001 -> tax_rebate r == 0) /\
  health_education_cess r == 0.04 * (tax_before_rebate r - tax_rebate r) /\
  total_tax_liability r
  == (tax_before_rebate r - tax_rebate r) + health_education_cess r.
Proof.
  intros r total.
  assert (Hle : total <= 1200000 -> tax_rebate r == Qmin 60000 (tax_before_rebate r)).
  { intros H. apply PyFacts.leb_le in H.
    unfold r, total, calculate_tax_liability_enhanced in *.
    destruct (calculate_tax_slab _ NEW_REGIME_SLABS). simpl in *.
    unfold TAX_REBATE_LIMIT. rewrite H. reflexivity. }
  assert (Hgt : 1200000 < total -> tax_rebate r == 0).
  { intros H. apply PyFacts.leb_gt in H.
    unfold r, total, calculate_tax_liability_enhanced in *.
    destruct (calculate_tax_slab _ NEW_REGIME_SLABS). simpl in *.
    unfold TAX_REBATE_LIMIT. rewrite H. reflexivity. }
  split; [exact Hle|]. split; [exact Hgt|].
  split; [|split; [|split]].
  - intros Heq. assert (H : total <= 1200000) by lra.
    split; [exact (Hle H)|]. rewrite (Hle H).
    assert (Htax : tax_before_rebate r == 60000).
    { unfold r. rewrite tax_before_rebate_eq.
      rewrite (calculate_tax_slab_compat _ 1200000).
      - reflexivity.
      - unfold total, r in Heq.
        rewrite result_total_taxable_income_eq in Heq. exact Heq. }
    rewrite Htax. reflexivity.
  - intros Heq. apply Hgt. lra.
  - unfold r, calculate_tax_liability_enhanced.
    destruct (calculate_tax_slab _ NEW_REGIME_SLABS). simpl. lra.
  - unfold r, calculate_tax_liability_enhanced.
    destruct (calculate_tax_slab _ NEW_REGIME_SLABS). simpl. lra.
Qed.

(** The theorem at a business income of 1,200,000 and of 1,200,001. *)
Lemma C2_witness :
  tax_rebate (calculate_tax_liability_enhanced [("business_profession"%string, 1200000)])
  == 60000 /\
  tax_rebate (calculate_tax_liability_enhanced [("business_profession"%string, 1200001)])
  == 0.
Proof.
  split.
  - apply (C2_rebate_cess_total [("business_profession"%string, 1200000)]).
    reflexivity.
  - apply (C2_rebate_cess_total [("business_profession"%string, 1200001)]).
    reflexivity.
Defined.

End Book3Facts.

(** ** Flat regime comparison ([backend/book1.py]) *)

Module Book1Facts.
Import Book1.

(** The part of [taxable] inside the band from [lo] to [hi]. *)
Definition band (taxable lo hi : Q) : Q := Qmax 0 (Qmin taxable hi - lo).

(** The old-regime slabs in the words of the specification:
    0-250k at 0%, 250k-500k at 5%, 500k-1M at 20%, above 1M at 30%. *)
Definition spec_old_regime_slabs (taxable : Q) : Q :=
  band taxable 0 250000 * 0
  + band taxable 250000 500000 * 0.05
  + band taxable 500000 1000000 * 0.2
  + Qmax 0 (taxable - 1000000) * 0.3.

Ltac case_leb :=
  repeat match goal with
         | |- context [Py.leb ?a ?b] =>
             let E := fresh "E" in
             destruct (Py.leb a b) eqn:E;
             [apply PyFacts.leb_le in E | apply PyFacts.leb_gt in E]
         | |- context [Py.ltb ?a ?b] =>
             let E := fresh "E" in
             destruct (Py.ltb a b) eqn:E;
             [apply PyFacts.ltb_lt in E | apply PyFacts.ltb_ge in E]
         end.

Ltac case_minmax :=
  repeat match goal with
         | |- context [Qmin ?a ?b] =>
             let H := fresh "H" in
             destruct (Q.min_spec a b) as [[? H]|[? H]]; rewrite H
         | |- context [Qmax ?a ?b] =>
             let H := fresh "H" in
             destruct (Q.max_spec a b) as [[? H]|[? H]]; rewrite H
         end.

Lemma old_regime_follows_slabs (taxable : Q) :
  calculate_old_regime_tax taxable == spec_old_regime_slabs taxable.
Proof.
  unfold calculate_old_regime_tax, spec_old_regime_slabs, band.
  case_leb; case_minmax; lra.
Qed.

Lemma old_regime_monotone (x y : Q) :
  x <= y -> calculate_old_regime_tax x <= calculate_old_regime_tax y.
Proof.
  intros Hxy. unfold calculate_old_regime_tax. case_leb; lra.
Qed.

(** The value of [calculate_new_regime_tax] from a state of its loop. *)
Definition finish (state : Q * Q) : Q :=
  let '(tax, remaining) := state in
  if Py.ltb 0 remaining then tax + remaining * 0.3 else tax.

Lemma new_regime_loop_acc (slabs : list (Q * Q)) (tax remaining : Q) :
  finish (new_regime_loop slabs tax remaining)
  == tax + finish (new_regime_loop slabs 0 remaining).
Proof.
  revert tax remaining.
  induction slabs as [|[w r] slabs IH]; intros tax remaining; simpl.
  - case_leb; lra.
  - destruct (Py.leb remaining 0) eqn:E; simpl.
    + apply PyFacts.leb_le in E. case_leb; lra.
    + rewrite (IH (tax + _)), (IH (0 + _)). lra.
Qed.

Definition nonneg_slabs (slabs : list (Q * Q)) : Prop :=
  Forall (fun s => 0 <= fst s /\ 0 <= snd s) slabs.

Lemma new_regime_loop_nonneg (slabs : list (Q * Q)) (remaining : Q) :
  nonneg_slabs slabs -> 0 <= finish (new_regime_loop slabs 0 remaining).
Proof.
  intros Hs. revert remaining.
  induction Hs as [|[w r] slabs [Hw Hr] Hs IH]; intros remaining; simpl in *.
  - case_leb; lra.
  - destruct (Py.leb remaining 0) eqn:E; simpl.
    + apply PyFacts.leb_le in E. case_leb; lra.
    + apply PyFacts.leb_gt in E. rewrite new_regime_loop_acc.
      specialize (IH (remaining - Qmin remaining w)).
      assert (0 <= Qmin remaining w * r).
      { apply Qmult_le_0_compat; [apply Q.min_glb; lra | exact Hr]. }
      lra.
Qed.

Lemma new_regime_loop_monotone (slabs : list (Q * Q)) (x y : Q) :
  nonneg_slabs slabs -> x <= y ->
  finish (new_regime_loop slabs 0 x) <= finish (new_regime_loop slabs 0 y).
Proof.
  intros Hs. revert x y.
  induction Hs as [|[w r] slabs [Hw Hr] Hs IH]; intros x y Hxy; simpl in *.
  - case_leb; lra.
  - destruct (Py.leb x 0) eqn:Ex.
    + apply PyFacts.leb_le in Ex.
      pose proof (new_regime_loop_nonneg ((w, r) :: slabs) y) as Hy.
      simpl in Hy. simpl (finish (0, x)).
      destruct (Py.ltb 0 x) eqn:Ex'; [apply PyFacts.ltb_lt in Ex'; lra|].
      apply Hy. constructor; [split; assumption | exact Hs].
    + apply PyFacts.leb_gt in Ex.
      destruct (Py.leb y 0) eqn:Ey; [apply PyFacts.leb_le in Ey; lra|].
      rewrite (new_regime_loop_acc slabs (0 + Qmin x w * r)).
      rewrite (new_regime_loop_acc slabs (0 + Qmin y w * r)).
      assert (Hmin : Qmin x w <= Qmin y w) by (apply Q.min_le_compat_r; exact Hxy).
      assert (Hpart : Qmin x w * r <= Qmin y w * r).
      { apply Qmult_le_compat_r; assumption. }
      assert (Hrest : x - Qmin x w <= y - Qmin y w).
      { destruct (Q.min_spec x w) as [[? H1]|[? H1]];
        destruct (Q.min_spec y w) as [[? H2]|[? H2]]; rewrite H1, H2; lra. }
      specialize (IH _ _ Hrest). lra.
Qed.

Lemma new_regime_slabs_nonneg : nonneg_slabs new_regime_slabs.
Proof. repeat constructor; simpl; discriminate. Qed.

Lemma calculate_new_regime_tax_finish (taxable : Q) :
  calculate_new_regime_tax taxable
  = finish (new_regime_loop new_regime_slabs 0 taxable).
Proof.
  unfold calculate_new_regime_tax, finish.
  destruct (new_regime_loop new_regime_slabs 0 taxable). reflexivity.
Qed.

Lemma new_regime_monotone (x y : Q) :
  x <= y -> calculate_new_regime_tax x <= calculate_new_regime_tax y.
Proof.
  intros Hxy. rewrite !calculate_new_regime_tax_finish.
  apply new_regime_loop_monotone; [apply new_regime_slabs_nonneg | exact Hxy].
Qed.

(** C4. For taxable incomes [x < y], the old-regime and the new-regime slab
    tax of the flat mode and the cumulative-bracket slab tax of the
    head-wise mode at [x] are at most those at [y]. *)
Theorem C4_slab_tax_monotone (x y : Q) :
  x < y ->
  calculate_old_regime_tax x <= calculate_old_regime_tax y /\
  calculate_new_regime_tax x <= calculate_new_regime_tax y /\
  fst (Book3.calculate_tax_slab x Book3.NEW_REGIME_SLABS)
  <= fst (Book3.calculate_tax_slab y Book3.NEW_REGIME_SLABS).
Proof.
  intros Hlt. assert (Hxy : x <= y) by lra.
  split; [|split].
  - now apply old_regime_monotone.
  - now apply new_regime_monotone.
  - now apply Book3Facts.calculate_tax_slab_monotone.
Qed.

(** The theorem between 900,000 and 1,300,000. *)
Lemma C4_witness :
  calculate_old_regime_tax 900000 <= calculate_old_regime_tax 1300000 /\
  calculate_new_regime_tax 900000 <= calculate_new_regime_tax 1300000 /\
  fst (Book3.calculate_tax_slab 900000 Book3.NEW_REGIME_SLABS)
  <= fst (Book3.calculate_tax_slab 1300000 Book3.NEW_REGIME_SLABS).
Proof.
  apply (C4_slab_tax_monotone 900000 1300000). reflexivity.
Defined.

(** Scenario 2: an income of 1,500,000 without investment entries. *)
Definition scenario_2 : analysis := mk_analysis 1500000 [] 0.

(** C6. For every analysis, the taxable income of the flat comparison is
    max(0, income - investment deductions - 50000); the old-regime tax
    follows the slabs 0%, 5%, 20%, 30% and is 0 when the taxable income is
    at most 700000; the selected regime is Old exactly when the old-regime
    tax is at most the new-regime tax, New otherwise, and the estimate is
    the smaller tax; an income of 1,500,000 without deductions has taxable
    income 1,450,000 and old-regime tax 247,500. *)
Theorem C6_flat_regime_comparison (a : analysis) :
  let s := calculate_full_year_tax_optimized a in
  taxable_income s
  == Qmax 0 (total_income a - Py.sum (map inv_amount (investment_entries a)) - 50000) /\
  (taxable_income s <= 700000 -> tax_old s == 0) /\
  (700000 < taxable_income s -> tax_old s == spec_old_regime_slabs (taxable_income s)) /\
  (tax_old s <= tax_new s -> selected_regime s = Old /\ estimated_tax s == tax_old s) /\
  (tax_new s < tax_old s -> selected_regime s = New /\ estimated_tax s == tax_new s) /\
  taxable_income (calculate_full_year_tax_optimized scenario_2) == 1450000 /\
  tax_old (calculate_full_year_tax_optimized scenario_2) == 247500.
Proof.
  intros s. unfold s, calculate_full_year_tax_optimized. simpl.
  set (taxable := Qmax 0 _).
  split; [reflexivity|].
  split; [|split; [|split; [|split; [|split]]]].
  - intros H. apply PyFacts.leb_le in H. rewrite H. reflexivity.
  - intros H. apply PyFacts.leb_gt in H. rewrite H.
    apply old_regime_follows_slabs.
  - intros H. pose proof H as H'. apply PyFacts.leb_le in H'. rewrite H'.
    split; [reflexivity|]. apply Q.min_l. exact H.
  - intros H. pose proof H as H'. apply PyFacts.leb_gt in H'. rewrite H'.
    split; [reflexivity|]. apply Q.min_r. lra.
  - reflexivity.
  - reflexivity.
Qed.

(** The theorem at Scenario 2 and at an income of 600,000. *)
Lemma C6_witness :
  (selected_regime (calculate_full_year_tax_optimized scenario_2) = New /\
   tax_old (calculate_full_year_tax_optimized scenario_2)
   == spec_old_regime_slabs (taxable_income (calculate_full_year_tax_optimized scenario_2))) /\
  (selected_regime (calculate_full_year_tax_optimized (mk_analysis 600000 [] 0)) = Old /\
   tax_old (calculate_full_year_tax_optimized (mk_analysis 600000 [] 0)) == 0).
Proof.
  pose proof (C6_flat_regime_comparison scenario_2) as H2.
  pose proof (C6_flat_regime_comparison (mk_analysis 600000 [] 0)) as H6.
  cbv zeta in H2, H6.
  destruct H2 as (_ & _ & Hslabs & _ & Hnew & _).
  destruct H6 as (_ & Hzero & _ & Hold & _).
  split; split.
  - apply Hnew. reflexivity.
  - apply Hslabs. reflexivity.
  - apply Hold. discriminate.
  - apply Hzero. discriminate.
Defined.

End Book1Facts.

(** ** The aggregator ([backend/new.py]) *)

Module NewFacts.
Import New.

(** A record reaches the totals when its amount converts and it has a
    description. *)
Definition classified (txn : Txn.t) : bool :=
  match Txn.amount txn, Txn.description txn with
  | Txn.Amount _, Some _ => true
  | _, _ => false
  end.

Definition amount_of (txn : Txn.t) : Q :=
  match Txn.amount txn with
  | Txn.Amount q => q
  | _ => 0
  end.

Definition desc_lower_of (txn : Txn.t) : string :=
  Py.lower (Txn.get_or (Txn.description txn) "").

Definition type_of (txn : Txn.t) : string := Txn.get_or (Txn.type txn) "".

(** The category a record is totalled under. *)
Definition resolved (txn : Txn.t) : string :=
  resolve_category (desc_lower_of txn) (Txn.get_or (Txn.category txn) "Other").

(** A record with the fields of the data model: a numeric amount, a
    description and a creation date. *)
Definition well_formed (txn : Txn.t) : Prop :=
  classified txn = true /\ Txn.created_at txn <> None.

Definition is_type (name : string) (txn : Txn.t) : bool :=
  String.eqb (type_of txn) name.

Lemma get0_add (k c : string) (x : Q) (d : list (string * Q)) :
  Py.get0 c (Py.add k x d) == Py.get0 c d + (if String.eqb c k then x else 0).
Proof.
  unfold Py.get0, Py.add.
  destruct (String.eqb c k) eqn:E.
  - apply String.eqb_eq in E. subst c.
    destruct (Py.get k d) eqn:G; rewrite PyFacts.get_set_same; lra.
  - apply String.eqb_neq in E.
    destruct (Py.get k d) eqn:G; rewrite PyFacts.get_set_other by exact E; lra.
Qed.

Lemma sum_values_set_new (k : string) (v : Q) (d : list (string * Q)) :
  Py.get k d = None ->
  Py.sum (Py.values (Py.set k v d)) == Py.sum (Py.values d) + v.
Proof.
  unfold Py.values. induction d as [|[k' v'] d IH]; simpl; intros G.
  - rewrite PyFacts.sum_cons, PyFacts.sum_nil. lra.
  - destruct (String.eqb k k'); [discriminate|]. simpl.
    rewrite !PyFacts.sum_cons, (IH G). lra.
Qed.

Lemma sum_values_set_old (k : string) (v old : Q) (d : list (string * Q)) :
  Py.get k d = Some old ->
  Py.sum (Py.values (Py.set k v d)) == Py.sum (Py.values d) - old + v.
Proof.
  unfold Py.values. induction d as [|[k' v'] d IH]; simpl; intros G.
  - discriminate.
  - destruct (String.eqb k k'); simpl.
    + injection G as ->. rewrite !PyFacts.sum_cons. lra.
    + rewrite !PyFacts.sum_cons, (IH G). lra.
Qed.

Lemma sum_values_add (k : string) (x : Q) (d : list (string * Q)) :
  Py.sum (Py.values (Py.add k x d)) == Py.sum (Py.values d) + x.
Proof.
  unfold Py.add. destruct (Py.get k d) eqn:G.
  - rewrite (sum_values_set_old _ _ _ _ G). lra.
  - rewrite (sum_values_set_new _ _ _ G). lra.
Qed.

Lemma NoDup_keys_set {V : Type} (k : string) (v : V) (d : list (string * V)) :
  NoDup (Py.keys d) -> NoDup (Py.keys (Py.set k v d)).
Proof.
  intros Hnd. rewrite PyFacts.keys_set. unfold Py.has.
  destruct (Py.get k d) eqn:G; [exact Hnd|].
  apply PyFacts.get_none_not_in in G.
  apply NoDup_app; [exact Hnd | constructor; [simpl; tauto | constructor] |].
  intros x Hx [<-|[]]. exact (G Hx).
Qed.

Lemma NoDup_keys_add (k : string) (x : Q) (d : list (string * Q)) :
  NoDup (Py.keys d) -> NoDup (Py.keys (Py.add k x d)).
Proof.
  unfold Py.add. destruct (Py.get k d); apply NoDup_keys_set.
Qed.

Section Aggregator.

Variable month_year_keys : string -> option (string * string).
Variable person_search : string -> option string.
Variable str_float : Q -> string.

Abbreviation analyze_step :=
  (New.analyze_step month_year_keys person_search str_float).
Abbreviation analyze :=
  (New.analyze_transactions_comprehensive month_year_keys person_search str_float).

(** The fields of the state that the claims are about. *)
Definition view (st : analysis) : list (string * Q) * Q * Q * list string :=
  (category_totals st, total_income st, total_expense st, reminders st).

Lemma view_add_month_year created amount st :
  view (add_month_year month_year_keys created amount st) = view st.
Proof.
  unfold add_month_year. destruct created as [created|]; [|reflexivity].
  destruct (month_year_keys created) as [[? ?]|]; reflexivity.
Qed.

Lemma view_add_person desc_lower amount st :
  view (add_person person_search desc_lower amount st) = view st.
Proof.
  unfold add_person. destruct (Py.any_in _ _); [|reflexivity].
  destruct (person_search _); reflexivity.
Qed.

Lemma view_add_avoidable category amount txn st :
  view (add_avoidable category amount txn st) = view st.
Proof.
  unfold add_avoidable. destruct (_ && _); reflexivity.
Qed.

Lemma view_add_investment desc desc_lower created amount st st' :
  add_investment desc desc_lower created amount st = Some st' ->
  view st' = view st.
Proof.
  unfold add_investment. destruct (Py.any_in _ _).
  - destruct created; intros [= <-]; reflexivity.
  - intros [= <-]; reflexivity.
Qed.

Lemma view_add_category category amount st :
  view (add_category category amount st)
  = (Py.add category amount (category_totals st), total_income st,
     total_expense st, reminders st).
Proof. reflexivity. Qed.

Lemma view_add_income_expense txn_type amount st :
  view (add_income_expense txn_type amount st)
  = (category_totals st,
     if String.eqb txn_type "received" then total_income st + amount
     else total_income st,
     if String.eqb txn_type "received" then total_expense st
     else if Py.mem txn_type ["sent"; "expense"]%string
          then total_expense st + amount else total_expense st,
     reminders st).
Proof.
  unfold add_income_expense. destruct (String.eqb _ _); [reflexivity|].
  destruct (Py.mem _ _); reflexivity.
Qed.

(** The reminder of a record, when the loop appends one. *)
Definition reminder_of (txn : Txn.t) : list string :=
  if classified txn && is_type "loan_payment" txn then
    match Txn.created_at txn with
    | Some created => [reminder_text str_float created (amount_of txn)]
    | None => []
    end
  else [].

Lemma view_add_reminder txn_type created amount st :
  match add_reminder str_float txn_type created amount st with
  | Some st' =>
      view st'
      = (category_totals st, total_income st, total_expense st,
         reminders st ++
           (if String.eqb txn_type "loan_payment" then
              match created with
              | Some created => [reminder_text str_float created amount]
              | None => []
              end
            else []))
  | None => String.eqb txn_type "loan_payment" = true /\ created = None
  end.
Proof.
  unfold add_reminder. destruct (String.eqb _ _).
  - destruct created; [reflexivity | split; reflexivity].
  - unfold view. now rewrite app_nil_r.
Qed.

(** What one turn of the loop does to the fields of the claims. *)
Lemma view_step (st : analysis) (txn : Txn.t) :
  view (analyze_step st txn)
  = if classified txn then
      (Py.add (resolved txn) (amount_of txn) (category_totals st),
       (if is_type "received" txn then total_income st + amount_of txn
        else total_income st),
       (if is_type "received" txn then total_expense st
        else if Py.mem (type_of txn) ["sent"; "expense"]%string
             then total_expense st + amount_of txn else total_expense st),
       reminders st ++ reminder_of txn)
    else view st.
Proof.
  unfold New.analyze_step, classified, reminder_of, classified, amount_of,
    resolved, desc_lower_of, type_of, is_type.
  destruct (Txn.amount txn) as [| |amount]; try reflexivity.
  destruct (Txn.description txn) as [desc|]; try reflexivity.
  cbn [Txn.get_or andb].
  set (category := resolve_category _ _).
  set (txn_type := Txn.get_or (Txn.type txn) "").
  set (st1 := add_category category amount st).
  set (st2 := add_month_year _ _ _ st1).
  set (st3 := add_person _ _ _ st2).
  set (st4 := add_income_expense _ _ st3).
  assert (H4 : view st4
               = (Py.add category amount (category_totals st),
                  (if String.eqb txn_type "received"
                   then total_income st + amount else total_income st),
                  (if String.eqb txn_type "received" then total_expense st
                   else if Py.mem txn_type ["sent"; "expense"]%string
                        then total_expense st + amount else total_expense st),
                  reminders st)).
  { unfold st4. rewrite view_add_income_expense.
    assert (H3 : view st3 = view st1).
    { unfold st3, st2. now rewrite view_add_person, view_add_month_year. }
    unfold view in H3. injection H3 as -> -> -> ->. reflexivity. }
  pose proof (view_add_reminder txn_type (Txn.created_at txn) amount st4) as Hr.
  destruct (add_reminder _ _ _ _ st4) as [st5|].
  - destruct (add_investment _ _ _ _ st5) as [st6|] eqn:Hinv.
    + rewrite view_add_avoidable, (view_add_investment _ _ _ _ _ _ Hinv), Hr.
      unfold view in H4. injection H4 as -> -> -> ->. reflexivity.
    + rewrite Hr.
      unfold view in H4. injection H4 as -> -> -> ->. reflexivity.
  - destruct Hr as [_ Hnone]. rewrite H4, Hnone.
    destruct (String.eqb (type_of txn) "loan_payment");
      rewrite app_nil_r; reflexivity.
Qed.

Definition view_fold (acc : list (string * Q) * Q * Q * list string) (txn : Txn.t)
    : list (string * Q) * Q * Q * list string :=
  let '(categories, income, expense, notes) := acc in
  if classified txn then
    (Py.add (resolved txn) (amount_of txn) categories,
     (if is_type "received" txn then income + amount_of txn else income),
     (if is_type "received" txn then expense
      else if Py.mem (type_of txn) ["sent"; "expense"]%string
           then expense + amount_of txn else expense),
     notes ++ reminder_of txn)
  else acc.

Lemma view_loop (txns : list Txn.t) (st : analysis) :
  view (fold_left analyze_step txns st) = fold_left view_fold txns (view st).
Proof.
  revert st. induction txns as [|txn txns IH]; intros st; simpl.
  - reflexivity.
  - rewrite IH, view_step. unfold view_fold, view.
    destruct (classified txn); reflexivity.
Qed.

(** The processed records that count as income, as expense, and under the
    category [c]. *)
Definition received (txn : Txn.t) : bool :=
  classified txn && is_type "received" txn.
Definition spent (txn : Txn.t) : bool :=
  classified txn && (is_type "sent" txn || is_type "expense" txn).
Definition in_category (c : string) (txn : Txn.t) : bool :=
  classified txn && String.eqb c (resolved txn).

(** The totals after the loop, for every batch. *)
Lemma view_fold_totals (txns : list Txn.t)
    (acc : list (string * Q) * Q * Q * list string) :
  let '(categories0, income0, expense0, notes0) := acc in
  let '(categories, income, expense, notes) := fold_left view_fold txns acc in
  Py.sum (Py.values categories)
  == Py.sum (Py.values categories0)
     + Py.sum (map amount_of (filter classified txns)) /\
  (forall c, Py.get0 c categories
             == Py.get0 c categories0
                + Py.sum (map amount_of (filter (in_category c) txns))) /\
  (NoDup (Py.keys categories0) -> NoDup (Py.keys categories)) /\
  income == income0 + Py.sum (map amount_of (filter received txns)) /\
  expense == expense0 + Py.sum (map amount_of (filter spent txns)) /\
  notes = notes0 ++ flat_map reminder_of txns.
Proof.
  revert acc. induction txns as [|txn txns IH]; intros [[[c0 i0] e0] n0].
  - simpl. rewrite PyFacts.sum_nil, app_nil_r.
    repeat split; try lra; auto. intros c. rewrite PyFacts.sum_nil. lra.
  - simpl fold_left.
    specialize (IH (view_fold (c0, i0, e0, n0) txn)).
    destruct (fold_left view_fold txns _) as [[[c1 i1] e1] n1].
    unfold view_fold in IH.
    simpl filter. simpl flat_map.
    destruct (classified txn) eqn:Hc.
    + assert (Hin : forall c, in_category c txn = String.eqb c (resolved txn)).
      { intros c. unfold in_category. now rewrite Hc. }
      assert (Hrec : received txn = is_type "received" txn).
      { unfold received. now rewrite Hc. }
      assert (Hsp : spent txn = (is_type "sent" txn || is_type "expense" txn)).
      { unfold spent. now rewrite Hc. }
      rewrite Hrec, Hsp.
      destruct IH as (Hsum & Hget & Hnd & Hinc & Hexp & Hnotes).
      split; [|split; [|split; [|split; [|split]]]].
      * rewrite Hsum, sum_values_add. simpl map. rewrite PyFacts.sum_cons. lra.
      * intros c. rewrite Hget, get0_add, Hin.
        destruct (String.eqb c (resolved txn)); simpl map;
          rewrite ?PyFacts.sum_cons; lra.
      * intros H. apply Hnd. now apply NoDup_keys_add.
      * rewrite Hinc.
        destruct (is_type "received" txn); simpl map;
          rewrite ?PyFacts.sum_cons; lra.
      * rewrite Hexp. unfold Py.mem. simpl existsb. rewrite orb_false_r.
        fold (is_type "sent" txn). fold (is_type "expense" txn).
        destruct (is_type "received" txn) eqn:Er.
        -- unfold is_type in *. apply String.eqb_eq in Er. rewrite Er.
           simpl. lra.
        -- destruct (is_type "sent" txn || is_type "expense" txn);
             simpl map; rewrite ?PyFacts.sum_cons; lra.
      * rewrite Hnotes. now rewrite app_assoc.
    + assert (Hrem : reminder_of txn = []).
      { unfold reminder_of. now rewrite Hc. }
      assert (Hin : forall c, in_category c txn = false).
      { intros c. unfold in_category. now rewrite Hc. }
      assert (Hrec : received txn = false).
      { unfold received. now rewrite Hc. }
      assert (Hsp : spent txn = false).
      { unfold spent. now rewrite Hc. }
      rewrite Hrem, Hrec, Hsp.
      destruct IH as (Hsum & Hget & Hnd & Hinc & Hexp & Hnotes).
      repeat split; auto.
      intros c. rewrite Hin. apply Hget.
Qed.

Lemma analyze_nonempty (txns : list Txn.t) :
  txns <> [] ->
  analyze txns
  = Some {| totals := fold_left analyze_step txns initial;
            net_savings :=
              total_income (fold_left analyze_step txns initial)
              - total_expense (fold_left analyze_step txns initial) |}.
Proof.
  destruct txns; [congruence | reflexivity].
Qed.

Lemma analyze_view (txns : list Txn.t) :
  let st := fold_left analyze_step txns initial in
  Py.sum (Py.values (category_totals st))
  == Py.sum (map amount_of (filter classified txns)) /\
  (forall c, Py.get0 c (category_totals st)
             == Py.sum (map amount_of (filter (in_category c) txns))) /\
  NoDup (Py.keys (category_totals st)) /\
  total_income st == Py.sum (map amount_of (filter received txns)) /\
  total_expense st == Py.sum (map amount_of (filter spent txns)) /\
  reminders st = flat_map reminder_of txns.
Proof.
  intros st.
  pose proof (view_fold_totals txns (view initial)) as H.
  pose proof (view_loop txns initial) as Hv. fold st in Hv.
  unfold view in Hv at 1. simpl (view initial) in *.
  destruct (fold_left view_fold txns _) as [[[c1 i1] e1] n1].
  injection Hv as -> -> -> ->.
  destruct H as (Hsum & Hget & Hnd & Hinc & Hexp & Hnotes).
  cbn [initial category_totals total_income total_expense reminders] in *.
  split; [|split; [|split; [|split; [|split]]]].
  - rewrite Hsum. unfold Py.values. simpl map. rewrite PyFacts.sum_nil. lra.
  - intros c. rewrite Hget. unfold Py.get0. simpl. lra.
  - apply Hnd. constructor.
  - rewrite Hinc. lra.
  - rewrite Hexp. lra.
  - exact Hnotes.
Qed.

(** C7. For every non-empty batch, the values of [category_totals] sum to
    the amounts of the classified transactions; the total of each category
    is the sum of the amounts of the classified transactions resolved to
    it, a category appearing once among the keys; a transaction is resolved
    to one category: "food" on a food keyword, otherwise "investment" on an
    investment keyword, otherwise its own category, "Other" when it has
    none. *)
Theorem C7_category_partition (txns : list Txn.t) :
  txns <> [] ->
  exists r,
    analyze txns = Some r /\
    Py.sum (Py.values (category_totals (totals r)))
    == Py.sum (map amount_of (filter classified txns)) /\
    NoDup (Py.keys (category_totals (totals r))) /\
    (forall c, Py.get0 c (category_totals (totals r))
               == Py.sum (map amount_of (filter (in_category c) txns))) /\
    (forall txn c, in_category c txn = true <-> classified txn = true /\ c = resolved txn) /\
    (forall txn,
        (Py.any_in FOOD_KEYWORDS (desc_lower_of txn) = true ->
         resolved txn = "food"%string) /\
        (Py.any_in FOOD_KEYWORDS (desc_lower_of txn) = false ->
         Py.any_in INVESTMENT_KEYWORDS (desc_lower_of txn) = true ->
         resolved txn = "investment"%string) /\
        (Py.any_in FOOD_KEYWORDS (desc_lower_of txn) = false ->
         Py.any_in INVESTMENT_KEYWORDS (desc_lower_of txn) = false ->
         resolved txn = match Txn.category txn with
                        | Some category => category
                        | None => "Other"%string
                        end)).
Proof.
  intros Hne. rewrite (analyze_nonempty txns Hne). eexists. split; [reflexivity|].
  cbn [totals].
  destruct (analyze_view txns) as (Hsum & Hget & Hnd & _).
  split; [exact Hsum|]. split; [exact Hnd|]. split; [exact Hget|]. split.
  - intros txn c. unfold in_category. rewrite andb_true_iff, String.eqb_eq.
    reflexivity.
  - intros txn. unfold resolved, resolve_category.
    split; [|split].
    + intros ->. reflexivity.
    + intros -> ->. reflexivity.
    + intros -> ->. destruct (Txn.category txn); reflexivity.
Qed.

(** The reminder of a loan payment in the words of the specification. *)
Definition spec_reminder (txn : Txn.t) : string :=
  ("Loan payment was due on "
   ++ Py.take 10 (Txn.get_or (Txn.created_at txn) "")
   ++ " for ₹" ++ str_float (amount_of txn))%string.

Lemma filter_well_formed (p q : Txn.t -> bool) (txns : list Txn.t) :
  Forall well_formed txns ->
  (forall txn, well_formed txn -> p txn = q txn) ->
  filter p txns = filter q txns.
Proof.
  intros Hwf Hpq. apply filter_ext_in. intros txn Hin.
  apply Hpq. rewrite Forall_forall in Hwf. now apply Hwf.
Qed.

Lemma reminders_well_formed (txns : list Txn.t) :
  Forall well_formed txns ->
  flat_map reminder_of txns
  = map spec_reminder (filter (is_type "loan_payment") txns).
Proof.
  induction 1 as [|txn txns [Hc Hcreated] _ IH]; simpl.
  - reflexivity.
  - rewrite IH. unfold reminder_of. rewrite Hc. simpl andb.
    destruct (is_type "loan_payment" txn); [|reflexivity].
    destruct (Txn.created_at txn) as [created|] eqn:E; [|congruence].
    simpl. f_equal. unfold spec_reminder, reminder_text. now rewrite E.
Qed.

(** C8. For every non-empty batch, [net_savings] is [total_income] minus
    [total_expense]; over the records that the loop processes (numeric
    amount, description present), [total_income] is the sum of the amounts
    of type received and [total_expense] the sum of the amounts of type sent
    or expense, so that any other type, loan_payment included, adds to
    neither; the reminders are one text per processed record of type
    loan_payment that has a creation date.  When all records have an amount,
    a description and a creation date, these are the sums over the whole
    batch, and the reminders are exactly one text "Loan payment was due on
    <first 10 characters of created_at> for ₹<amount>" for each record of
    type loan_payment, in order. *)
Theorem C8_income_expense_reminders (txns : list Txn.t) :
  txns <> [] ->
  exists r,
    analyze txns = Some r /\
    net_savings r = total_income (totals r) - total_expense (totals r) /\
    total_income (totals r) == Py.sum (map amount_of (filter received txns)) /\
    total_expense (totals r) == Py.sum (map amount_of (filter spent txns)) /\
    reminders (totals r) = flat_map reminder_of txns /\
    (Forall well_formed txns ->
     total_income (totals r)
     == Py.sum (map amount_of (filter (is_type "received") txns)) /\
     total_expense (totals r)
     == Py.sum (map amount_of
                  (filter (fun txn => is_type "sent" txn || is_type "expense" txn)
                     txns)) /\
     reminders (totals r)
     = map spec_reminder (filter (is_type "loan_payment") txns)).
Proof.
  intros Hne. rewrite (analyze_nonempty txns Hne). eexists. split; [reflexivity|].
  cbn [totals net_savings]. split; [reflexivity|].
  destruct (analyze_view txns) as (_ & _ & _ & Hinc & Hexp & Hrem).
  split; [exact Hinc|]. split; [exact Hexp|]. split; [exact Hrem|].
  intros Hwf.
  split; [|split].
  - rewrite Hinc.
    rewrite (filter_well_formed received (is_type "received") txns Hwf);
      [reflexivity|].
    intros txn [Hc _]. unfold received. now rewrite Hc.
  - rewrite Hexp.
    rewrite (filter_well_formed spent
               (fun txn => is_type "sent" txn || is_type "expense" txn) txns Hwf);
      [reflexivity|].
    intros txn [Hc _]. unfold spent. now rewrite Hc.
  - rewrite Hrem. now apply reminders_well_formed.
Qed.

End Aggregator.

(** A batch with one record of each kind, and concrete library functions. *)
Definition sample_batch : list Txn.t :=
  [ Txn.mk (Txn.Amount 5000) (Some "Salary - March 2025"%string)
      (Some "received"%string) None (Some "2025-03-05T00:00:00Z"%string);
    Txn.mk (Txn.Amount 800) (Some "paid to Ramesh for dinner"%string)
      (Some "sent"%string) (Some "Dining"%string)
      (Some "2025-03-06T00:00:00Z"%string);
    Txn.mk (Txn.Amount 1200) (Some "Home loan"%string)
      (Some "loan_payment"%string) (Some "Loan"%string)
      (Some "2025-03-07T10:00:00Z"%string);
    Txn.mk (Txn.Amount 300) (Some "Pizza night"%string)
      (Some "expense"%string) (Some "Fun"%string)
      (Some "2025-03-08T00:00:00Z"%string) ].

Definition no_keys (created : string) : option (string * string) := None.
Definition no_person (desc_lower : string) : option string := None.
Definition plain_float (x : Q) : string := "<amount>"%string.

Lemma sample_batch_well_formed : Forall well_formed sample_batch.
Proof.
  repeat constructor; simpl; discriminate.
Qed.

(** The partition theorem on the sample batch. *)
Lemma C7_witness :
  sample_batch <> [] /\
  exists r,
    analyze_transactions_comprehensive no_keys no_person plain_float sample_batch
    = Some r /\
    Py.sum (Py.values (category_totals (totals r)))
    == Py.sum (map amount_of (filter classified sample_batch)).
Proof.
  assert (Hne : sample_batch <> []) by discriminate.
  split; [exact Hne|].
  destruct (C7_category_partition no_keys no_person plain_float sample_batch Hne)
    as [r [Hr [Hsum _]]].
  exists r. split; [exact Hr | exact Hsum].
Defined.

(** The split theorem on the sample batch. *)
Lemma C8_witness :
  sample_batch <> [] /\ Forall well_formed sample_batch /\
  exists r,
    analyze_transactions_comprehensive no_keys no_person plain_float sample_batch
    = Some r /\
    reminders (totals r)
    = map (spec_reminder plain_float) (filter (is_type "loan_payment") sample_batch).
Proof.
  assert (Hne : sample_batch <> []) by discriminate.
  split; [exact Hne|]. split; [exact sample_batch_well_formed|].
  destruct (C8_income_expense_reminders no_keys no_person plain_float
              sample_batch Hne) as (r & Hr & _ & _ & _ & _ & Hwf).
  exists r. split; [exact Hr|].
  apply (Hwf sample_batch_well_formed).
Defined.

End NewFacts.

(** ** The non-essential spend detector ([backend/loan.py]) *)

Module SpendingFacts.
Import Loan.

(** No cumulative total is above its threshold. *)
Definition within (thresholds cumulative : list (string * Q)) : Prop :=
  forall cat threshold,
    Py.get cat thresholds = Some threshold -> Py.get0 cat cumulative <= threshold.

(** What the claim says of one written row. *)
Definition row_ok (s : spend_row) : Prop :=
  0 <= non_essential_amount s <= amount (base s) /\
  (necessary s = true <-> non_essential_amount s == 0).

Lemma get0_set (k c : string) (v : Q) (d : list (string * Q)) :
  Py.get0 c (Py.set k v d) = if String.eqb c k then v else Py.get0 c d.
Proof.
  unfold Py.get0. destruct (String.eqb c k) eqn:E.
  - apply String.eqb_eq in E. subst. now rewrite PyFacts.get_set_same.
  - apply String.eqb_neq in E. now rewrite PyFacts.get_set_other.
Qed.

Lemma initial_cumulative_zero (thresholds : list (string * Q)) (cat : string) :
  Py.get0 cat (initial_cumulative thresholds) == 0.
Proof.
  unfold Py.get0, initial_cumulative.
  induction thresholds as [|[k v] rest IH]; simpl.
  - reflexivity.
  - destruct (String.eqb cat k); [reflexivity | exact IH].
Qed.

Section Detector.

Variable thresholds : list (string * Q).
Hypothesis thresholds_nonneg :
  forall cat threshold, Py.get cat thresholds = Some threshold -> 0 <= threshold.

Lemma within_initial : within thresholds (initial_cumulative thresholds).
Proof.
  intros cat threshold H. rewrite initial_cumulative_zero.
  exact (thresholds_nonneg _ _ H).
Qed.

(** One turn of the loop keeps the totals within the thresholds and writes
    one row, for the record it reads. *)
Lemma spending_step_ok (cumulative : list (string * Q)) (out : list spend_row)
    (r : row) :
  within thresholds cumulative -> 0 <= amount r ->
  exists s,
    spending_step thresholds (cumulative, out) r
    = (fst (spending_step thresholds (cumulative, out) r), out ++ [s]) /\
    base s = r /\ row_ok s /\
    within thresholds (fst (spending_step thresholds (cumulative, out) r)).
Proof.
  intros Hin Hamount. unfold spending_step.
  set (cat := Py.lower (Py.strip (category r))).
  destruct (Py.get cat thresholds) as [threshold|] eqn:Hget.
  - pose proof (Hin _ _ Hget) as Hcur.
    destruct (Py.leb (Py.get0 cat cumulative + amount r) threshold) eqn:Hle.
    + apply PyFacts.leb_le in Hle.
      eexists. split; [reflexivity|]. simpl. split; [reflexivity|].
      split.
      * unfold row_ok. simpl. split; [lra|].
        split; reflexivity.
      * intros c t Hc. rewrite get0_set.
        destruct (String.eqb c cat) eqn:E.
        -- apply String.eqb_eq in E. subst c. rewrite Hget in Hc.
           injection Hc as <-. exact Hle.
        -- now apply Hin.
    + apply PyFacts.leb_gt in Hle.
      assert (Hallowed : Qmax (threshold - Py.get0 cat cumulative) 0
                         == threshold - Py.get0 cat cumulative).
      { apply Q.max_l. lra. }
      eexists. split; [reflexivity|]. simpl. split; [reflexivity|].
      split.
      * unfold row_ok. simpl. rewrite Hallowed.
        split; [lra|]. split; [discriminate|]. intros H. lra.
      * intros c t Hc. rewrite get0_set.
        destruct (String.eqb c cat) eqn:E.
        -- apply String.eqb_eq in E. subst c. rewrite Hget in Hc.
           injection Hc as <-. lra.
        -- now apply Hin.
  - eexists. split; [reflexivity|]. simpl. split; [reflexivity|].
    split; [|exact Hin].
    unfold row_ok. simpl. split; [lra|].
    split; reflexivity.
Qed.

Lemma spending_fold_ok (rows : list row) (cumulative : list (string * Q))
    (out : list spend_row) :
  within thresholds cumulative ->
  Forall (fun r => 0 <= amount r) rows ->
  exists written,
    snd (fold_left (spending_step thresholds) rows (cumulative, out))
    = out ++ written /\
    map base written = rows /\
    Forall row_ok written /\
    within thresholds
      (fst (fold_left (spending_step thresholds) rows (cumulative, out))).
Proof.
  revert cumulative out.
  induction rows as [|r rows IH]; intros cumulative out Hin Hrows;
    cbn [fold_left].
  - exists []. simpl. rewrite app_nil_r. repeat split; auto.
  - inversion Hrows as [|? ? Hr Hrows']; subst.
    destruct (spending_step_ok cumulative out r Hin Hr)
      as (s & Hstep & Hbase & Hok & Hin').
    rewrite Hstep.
    destruct (IH _ (out ++ [s]) Hin' Hrows') as (written & Hw & Hb & Hf & Hin'').
    exists (s :: written). rewrite Hw, <- app_assoc. simpl.
    repeat split; auto. now rewrite Hbase, Hb.
Qed.

End Detector.

Lemma insert_by_date_perm (r : row) (sorted : list row) :
  Permutation (r :: sorted) (insert_by_date r sorted).
Proof.
  induction sorted as [|x rest IH]; simpl.
  - apply Permutation_refl.
  - destruct (timestamp_ltb _ _).
    + apply Permutation_refl.
    + eapply perm_trans; [apply perm_swap|].
      now apply perm_skip.
Qed.

Lemma sort_by_date_perm (df : list row) :
  Permutation df (sort_by_date df).
Proof.
  unfold sort_by_date.
  assert (H : forall acc,
             Permutation (acc ++ df)
               (fold_left (fun sorted r => insert_by_date r sorted) df acc)).
  { induction df as [|r df IH]; intros acc; simpl.
    - rewrite app_nil_r. apply Permutation_refl.
    - eapply perm_trans; [|apply IH].
      eapply perm_trans;
        [apply Permutation_sym, Permutation_middle|].
      change (r :: acc ++ df) with ((r :: acc) ++ df).
      apply Permutation_app_tail. apply insert_by_date_perm. }
  apply (H []).
Qed.

(** C10. For every month's transactions with non-negative amounts and every
    threshold mapping with non-negative thresholds, the detector writes one
    row for each transaction, in date order; each row has
    0 <= non_essential_amount <= amount, with non_essential_amount 0 exactly
    when the row is marked necessary; and after any number of transactions
    processed, no category's cumulative total is above its threshold. *)
Theorem C10_non_essential_bounds (thresholds : list (string * Q)) (df : list row) :
  (forall cat threshold, Py.get cat thresholds = Some threshold -> 0 <= threshold) ->
  (forall r, In r df -> 0 <= amount r) ->
  let out := calculate_not_necessary_spending df thresholds in
  map base out = sort_by_date df /\
  Permutation df (sort_by_date df) /\
  (forall s, In s out ->
     0 <= non_essential_amount s <= amount (base s) /\
     (necessary s = true <-> non_essential_amount s == 0)) /\
  (forall processed cat threshold,
     Py.get cat thresholds = Some threshold ->
     Py.get0 cat
       (fst (fold_left (spending_step thresholds)
               (firstn processed (sort_by_date df))
               (initial_cumulative thresholds, [])))
     <= threshold).
Proof.
  intros Hthr Hamounts out.
  assert (Hsorted : Forall (fun r => 0 <= amount r) (sort_by_date df)).
  { apply Forall_forall. intros r Hr. apply Hamounts.
    eapply Permutation_in;
      [apply Permutation_sym, sort_by_date_perm | exact Hr]. }
  destruct (spending_fold_ok thresholds (sort_by_date df) _ []
              (within_initial thresholds Hthr) Hsorted)
    as (written & Hw & Hb & Hf & _).
  unfold out, calculate_not_necessary_spending, spending_loop.
  rewrite Hw. simpl app.
  split; [exact Hb|]. split; [apply sort_by_date_perm|]. split.
  - intros s Hs. rewrite Forall_forall in Hf. exact (Hf s Hs).
  - intros processed cat threshold Hget.
    assert (Hprefix : Forall (fun r => 0 <= amount r)
                        (firstn processed (sort_by_date df))).
    { rewrite <- (firstn_skipn processed (sort_by_date df)) in Hsorted.
      apply Forall_app in Hsorted. apply Hsorted. }
    destruct (spending_fold_ok thresholds _ _ []
                (within_initial thresholds Hthr) Hprefix)
      as (_ & _ & _ & _ & Hin).
    exact (Hin _ _ Hget).
Qed.

(** The thresholds that [dynamic_threshold_adjuster] returns are never
    negative, so that the theorem applies to every month of the engine. *)
Lemma dynamic_thresholds_nonneg (salary : Q) (lifestyle : string)
    (thresholds : list (string * Q)) :
  dynamic_threshold_adjuster salary lifestyle = Some thresholds ->
  forall cat threshold, Py.get cat thresholds = Some threshold -> 0 <= threshold.
Proof.
  unfold dynamic_threshold_adjuster.
  destruct (emi_formula _ _ _) as [emi|]; [|discriminate].
  intros [= <-] cat threshold.
  induction (filter _ (lifestyle_adjustments lifestyle)) as [|[c p] l IH];
    cbn [map Py.get].
  - discriminate.
  - destruct (String.eqb cat c); [|exact IH].
    intros [= <-]. apply Q.le_max_l.
Qed.

(** A month with two food purchases against a food threshold of 100. *)
Definition sample_thresholds : list (string * Q) := [("food"%string, 100)].

Definition sample_month : list row :=
  [ mk_row (mk_timestamp 2025 3 9 0) "food" 70 "Dinner" "sent" (2025, 3)%Z;
    mk_row (mk_timestamp 2025 3 2 0) "Food " 60 "Groceries" "sent" (2025, 3)%Z ].

(** The theorem on the sample month. *)
Lemma C10_witness :
  map base (calculate_not_necessary_spending sample_month sample_thresholds)
  = sort_by_date sample_month /\
  Py.get0 "food"
    (fst (fold_left (spending_step sample_thresholds)
            (firstn 2 (sort_by_date sample_month))
            (initial_cumulative sample_thresholds, [])))
  <= 100.
Proof.
  assert (Hthr : forall cat threshold,
             Py.get cat sample_thresholds = Some threshold -> 0 <= threshold).
  { intros cat threshold. unfold sample_thresholds. cbn [Py.get].
    destruct (String.eqb cat "food"); [|discriminate].
    intros [= <-]. discriminate. }
  assert (Hamounts : forall r, In r sample_month -> 0 <= amount r).
  { intros r [<-|[<-|[]]]; discriminate. }
  destruct (C10_non_essential_bounds sample_thresholds sample_month Hthr Hamounts)
    as (Hbase & _ & _ & Hcum).
  split; [exact Hbase|].
  apply (Hcum 2%nat "food"%string 100). reflexivity.
Defined.

End SpendingFacts.

(** ** The amortization schedule ([backend/loan.py]) *)

Module ScheduleFacts.
Import Loan.

(** The monthly rate and the instalment of the loan of the engine. *)
Definition monthly_rate : Q := INTEREST_RATE / 12.
Definition months : Z := (LOAN_YEARS * 12)%Z.
Definition standard_emi : Q :=
  (LOAN_AMOUNT * monthly_rate * (1 + monthly_rate) ^ months)
  / ((1 + monthly_rate) ^ months - 1).

Lemma emi_formula_standard :
  emi_formula LOAN_AMOUNT monthly_rate months = Some standard_emi.
Proof.
  unfold emi_formula.
  assert (H1 : Qeq_bool monthly_rate 0 = false) by (vm_compute; reflexivity).
  assert (H2 : Qeq_bool ((1 + monthly_rate) ^ months - 1) 0 = false)
    by (vm_compute; reflexivity).
  rewrite H1, H2. reflexivity.
Qed.

Lemma standard_emi_bounds : 24910 < standard_emi < 24911.
Proof. split; vm_compute; reflexivity. Qed.

Lemma monthly_rate_value : monthly_rate == 3 # 400.
Proof. vm_compute. reflexivity. Qed.

Lemma monthly_rate_positive : Py.ltb 0 monthly_rate = true.
Proof. vm_compute. reflexivity. Qed.

(** The loop keeps the balance non-negative and its interest below the
    instalment. *)
Definition inv (st : loop_state) : Prop :=
  0 <= balance st /\ balance st * monthly_rate < emi st.

Section Step.

Variable extra : Q.

Abbreviation step := (schedule_step monthly_rate extra).

(** The balance carried to the next turn from the closing balance [e] of a
    row written in month [m]: the lump payment of a twelfth month. *)
Definition carry (m : Z) (e : Q) : Q :=
  if ((m + 1) mod 12 =? 0)%Z && Py.ltb 0 extra && Py.ltb 0 e
  then e - Qmin e extra
  else e.

Lemma carry_bounds (m : Z) (e : Q) : 0 <= e -> 0 <= carry m e <= e.
Proof.
  intros He. unfold carry.
  destruct (_ && _ && Py.ltb 0 e) eqn:E; [|lra].
  apply andb_true_iff in E. destruct E as [E _].
  apply andb_true_iff in E. destruct E as [_ E].
  apply PyFacts.ltb_lt in E.
  destruct (Q.min_spec e extra) as [[? ->]|[? ->]]; lra.
Qed.

Lemma carry_without_extra (m : Z) (e : Q) : Py.ltb 0 extra = false -> carry m e = e.
Proof.
  intros H. unfold carry. now rewrite H, andb_false_r.
Qed.

(** A turn that pays the full instalment. *)
Lemma step_full (st : loop_state) :
  Py.ltb (balance st) (emi st) = false ->
  step st
  = ({| Year := year st;
        Month := nth (Z.to_nat (cur_month st mod 12)) month_names ""%string;
        Beginning_Balance := Py.round2 (balance st);
        EMI := Py.round2 (emi st);
        Principal := Py.round2 (emi st - balance st * monthly_rate);
        Interest := Py.round2 (balance st * monthly_rate);
        Ending_Balance :=
          Py.round2 (balance st - (emi st - balance st * monthly_rate)) |},
     mk_loop_state
       (carry (cur_month st) (balance st - (emi st - balance st * monthly_rate)))
       (emi st)
       (if ((cur_month st + 1) mod 12 =? 0)%Z then (year st + 1)%Z else year st)
       (cur_month st + 1) (months_processed st + 1)).
Proof.
  intros H. unfold schedule_step, carry.
  rewrite monthly_rate_positive, H. reflexivity.
Qed.

(** The last turn, which pays what is left. *)
Lemma step_last (st : loop_state) :
  Py.ltb (balance st) (emi st) = true ->
  step st
  = ({| Year := year st;
        Month := nth (Z.to_nat (cur_month st mod 12)) month_names ""%string;
        Beginning_Balance := Py.round2 (balance st);
        EMI := Py.round2 (balance st + balance st * monthly_rate);
        Principal := Py.round2 (balance st);
        Interest := Py.round2 (balance st * monthly_rate);
        Ending_Balance := Py.round2 (balance st - balance st) |},
     mk_loop_state
       (carry (cur_month st) (balance st - balance st))
       (balance st + balance st * monthly_rate)
       (if ((cur_month st + 1) mod 12 =? 0)%Z then (year st + 1)%Z else year st)
       (cur_month st + 1) (months_processed st + 1)).
Proof.
  intros H. unfold schedule_step, carry.
  rewrite monthly_rate_positive, H. reflexivity.
Qed.

(** What a turn writes and leaves, from a state with a positive balance. *)
Lemma step_facts (st : loop_state) :
  inv st -> 0 < balance st ->
  exists p e,
    Beginning_Balance (fst (step st)) = Py.round2 (balance st) /\
    Principal (fst (step st)) = Py.round2 p /\
    Ending_Balance (fst (step st)) = Py.round2 e /\
    e == balance st - p /\ 0 <= p /\ 0 <= e /\
    balance (snd (step st)) = carry (cur_month st) e /\
    inv (snd (step st)).
Proof.
  intros [Hb Hi] Hpos.
  assert (Hr : balance st * monthly_rate == balance st * (3 # 400)).
  { now rewrite monthly_rate_value. }
  destruct (Py.ltb (balance st) (emi st)) eqn:E.
  - rewrite (step_last st E). apply PyFacts.ltb_lt in E.
    exists (balance st), (balance st - balance st).
    unfold inv. cbn [fst snd Beginning_Balance Principal Ending_Balance balance emi].
    assert (He : 0 <= balance st - balance st) by lra.
    pose proof (carry_bounds (cur_month st) _ He) as Hc.
    set (c := carry _ _) in *.
    assert (Hc' : c * monthly_rate == c * (3 # 400)).
    { now rewrite monthly_rate_value. }
    repeat split; try reflexivity; lra.
  - rewrite (step_full st E). apply PyFacts.ltb_ge in E.
    exists (emi st - balance st * monthly_rate),
      (balance st - (emi st - balance st * monthly_rate)).
    unfold inv. cbn [fst snd Beginning_Balance Principal Ending_Balance balance emi].
    assert (He : 0 <= balance st - (emi st - balance st * monthly_rate)) by lra.
    pose proof (carry_bounds (cur_month st) _ He) as Hc.
    set (c := carry _ _) in *.
    assert (Hc' : c * monthly_rate == c * (3 # 400)).
    { now rewrite monthly_rate_value. }
    repeat split; try reflexivity; lra.
Qed.

(** Consecutive elements of a list are related. *)
Fixpoint adjacent {A : Type} (R : A -> A -> Prop) (l : list A) : Prop :=
  match l with
  | a :: (b :: _) as rest => R a b /\ adjacent R rest
  | _ => True
  end.

Lemma adjacent_nth {A : Type} (R : A -> A -> Prop) (l : list A) :
  adjacent R l ->
  forall i a b, nth_error l i = Some a -> nth_error l (S i) = Some b -> R a b.
Proof.
  induction l as [|x [|y l] IH]; intros Hadj i a b Ha Hb.
  - destruct i; discriminate.
  - destruct i as [|[|i]]; discriminate.
  - destruct Hadj as [Hxy Hrest]. destruct i as [|i].
    + simpl in Ha, Hb. injection Ha as <-. injection Hb as <-. exact Hxy.
    + exact (IH Hrest i a b Ha Hb).
Qed.

Lemma adjacent_cons {A : Type} (R : A -> A -> Prop) (a : A) (l : list A) :
  (forall b, hd_error l = Some b -> R a b) -> adjacent R l -> adjacent R (a :: l).
Proof.
  intros Hhd Hadj. destruct l as [|b l]; simpl; [exact I|].
  split; [apply Hhd; reflexivity | exact Hadj].
Qed.

(** A row closes at most where it opens, and its principal is the fall of
    the balance, up to the rounding of the three columns. *)
Definition row_sound (r : schedule_row) : Prop :=
  Ending_Balance r <= Beginning_Balance r /\
  Beginning_Balance r - Ending_Balance r - (3 # 200) <= Principal r
  <= Beginning_Balance r - Ending_Balance r + (3 # 200).

Abbreviation loop fuel := (schedule_loop fuel monthly_rate extra months).

Lemma loop_facts (fuel : nat) (st : loop_state) :
  inv st ->
  Forall row_sound (loop fuel st) /\
  (forall r, hd_error (loop fuel st) = Some r ->
             Beginning_Balance r = Py.round2 (balance st)) /\
  adjacent (fun a b => Beginning_Balance b <= Ending_Balance a) (loop fuel st) /\
  (Py.ltb 0 extra = false ->
   adjacent (fun a b => Beginning_Balance b = Ending_Balance a) (loop fuel st)) /\
  (List.length (loop fuel st) <= fuel)%nat.
Proof.
  revert st. induction fuel as [|fuel IH]; intros st Hinv; cbn [schedule_loop].
  - repeat split; auto. intros r H. discriminate.
  - destruct (Py.ltb 0 (balance st) && (months_processed st <? months)%Z) eqn:G.
    2:{ repeat split; auto; simpl; try lia. intros r H. discriminate. }
    apply andb_true_iff in G. destruct G as [G _]. apply PyFacts.ltb_lt in G.
    destruct (step_facts st Hinv G)
      as (p & e & Hbeg & Hprin & Hend & Hpe & Hp & He & Hbal & Hinv').
    destruct (schedule_step monthly_rate extra st) as [row st'].
    cbn [fst snd] in *.
    destruct (IH st' Hinv') as (Hsound & Hhd & Hle & Heq & Hlen).
    pose proof (carry_bounds (cur_month st) e He) as Hcarry.
    rewrite <- Hbal in Hcarry.
    split; [|split; [|split; [|split]]].
    + constructor; [|exact Hsound]. unfold row_sound.
      rewrite Hbeg, Hprin, Hend.
      pose proof (RoundFacts.round2_error (balance st)).
      pose proof (RoundFacts.round2_error p).
      pose proof (RoundFacts.round2_error e).
      pose proof (RoundFacts.round2_monotone e (balance st)).
      split; [|lra]. apply RoundFacts.round2_monotone. lra.
    + intros r [= <-]. exact Hbeg.
    + apply adjacent_cons; [|exact Hle].
      intros b Hb. rewrite (Hhd b Hb), Hend.
      apply RoundFacts.round2_monotone. lra.
    + intros Hextra. apply adjacent_cons; [|exact (Heq Hextra)].
      intros b Hb. rewrite (Hhd b Hb), Hend, Hbal.
      now rewrite (carry_without_extra _ _ Hextra).
    + simpl. lia.
Qed.

End Step.

(** *** Schedules as lists of rows *)

Lemma adjacent_head {A : Type} (R : A -> A -> Prop) (a : A) (l : list A) :
  (forall x y z, R x y -> R y z -> R x z) ->
  adjacent R (a :: l) -> Forall (R a) l.
Proof.
  intros Htrans. revert a. induction l as [|b l IH]; intros a Hadj.
  - constructor.
  - destruct Hadj as [Hab Hrest]. constructor; [exact Hab|].
    specialize (IH b Hrest).
    eapply Forall_impl; [|exact IH]. intros c Hbc. exact (Htrans _ _ _ Hab Hbc).
Qed.

Lemma adjacent_tail {A : Type} (R : A -> A -> Prop) (a : A) (l : list A) :
  adjacent R (a :: l) -> adjacent R l.
Proof. destruct l; simpl; tauto. Qed.

Lemma adjacent_between {A : Type} (R : A -> A -> Prop) (l : list A) :
  (forall x, R x x) -> (forall x y z, R x y -> R y z -> R x z) ->
  adjacent R l ->
  forall i j a b, (i <= j)%nat ->
    nth_error l i = Some a -> nth_error l j = Some b -> R a b.
Proof.
  intros Hrefl Htrans. induction l as [|x l IH]; intros Hadj i j a b Hij Ha Hb.
  - destruct i; discriminate.
  - destruct i as [|i].
    + simpl in Ha. injection Ha as <-. destruct j as [|j].
      * simpl in Hb. injection Hb as <-. apply Hrefl.
      * simpl in Hb. apply nth_error_In in Hb.
        pose proof (adjacent_head R x l Htrans Hadj) as Hall.
        rewrite Forall_forall in Hall. now apply Hall.
    + destruct j as [|j]; [lia|]. simpl in Ha, Hb.
      apply (IH (adjacent_tail R x l Hadj) i j a b); [lia | exact Ha | exact Hb].
Qed.

Lemma last_cons_default {A : Type} (l : list A) (x d d' : A) :
  last (x :: l) d = last (x :: l) d'.
Proof.
  revert x. induction l as [|y l IH]; intros x.
  - reflexivity.
  - change (last (y :: l) d = last (y :: l) d'). apply IH.
Qed.

(** The falls from a closing balance to the next opening balance, summed:
    the lump payments made between the rows. *)
Fixpoint lump_payments (rows : list schedule_row) : Q :=
  match rows with
  | a :: (b :: _) as rest =>
      (Ending_Balance a - Beginning_Balance b) + lump_payments rest
  | _ => 0
  end.

Fixpoint count (rows : list schedule_row) : Q :=
  match rows with
  | [] => 0
  | _ :: rest => 1 + count rest
  end.

Lemma count_bound (rows : list schedule_row) (n : nat) :
  (List.length rows <= n)%nat -> count rows <= inject_Z (Z.of_nat n).
Proof.
  revert n. induction rows as [|r rows IH]; intros n Hlen; simpl in *.
  - change 0 with (inject_Z 0). rewrite <- Zle_Qle. lia.
  - destruct n as [|n]; [lia|].
    specialize (IH n ltac:(lia)).
    rewrite Nat2Z.inj_succ. unfold Z.succ. rewrite RoundFacts.inject_Z_succ. lra.
Qed.

Lemma count_nonneg (rows : list schedule_row) : 0 <= count rows.
Proof. induction rows; simpl; lra. Qed.

Lemma lump_payments_nonneg (rows : list schedule_row) :
  adjacent (fun a b => Beginning_Balance b <= Ending_Balance a) rows ->
  0 <= lump_payments rows.
Proof.
  induction rows as [|a [|b rows] IH]; simpl; try lra.
  intros [Hab Hrest]. specialize (IH Hrest). simpl in IH. lra.
Qed.

Lemma lump_payments_zero (rows : list schedule_row) :
  adjacent (fun a b => Beginning_Balance b = Ending_Balance a) rows ->
  lump_payments rows == 0.
Proof.
  induction rows as [|a [|b rows] IH]; simpl; try lra.
  intros [Hab Hrest]. specialize (IH Hrest). simpl in IH. rewrite Hab. lra.
Qed.

(** The principal paid, the lump payments and the last closing balance add
    up to the first opening balance, up to the rounding of the rows. *)
Lemma telescope (first : schedule_row) (rest : list schedule_row) :
  Forall row_sound (first :: rest) ->
  Beginning_Balance first - (3 # 200) * count (first :: rest)
  <= Py.sum (map Principal (first :: rest)) + lump_payments (first :: rest)
     + Ending_Balance (last (first :: rest) first)
  <= Beginning_Balance first + (3 # 200) * count (first :: rest).
Proof.
  revert first. induction rest as [|second rest IH]; intros first Hs.
  - inversion Hs as [|? ? [H1 H2] _]; subst. simpl.
    rewrite PyFacts.sum_cons, PyFacts.sum_nil. lra.
  - inversion Hs as [|? ? [H1 H2] Hs']; subst.
    specialize (IH second Hs').
    change (last (first :: second :: rest) first)
      with (last (second :: rest) first).
    assert (Hlast : last (second :: rest) first = last (second :: rest) second)
      by apply last_cons_default.
    rewrite Hlast.
    change (map Principal (first :: second :: rest))
      with (Principal first :: map Principal (second :: rest)).
    rewrite PyFacts.sum_cons.
    change (lump_payments (first :: second :: rest))
      with ((Ending_Balance first - Beginning_Balance second)
            + lump_payments (second :: rest)).
    change (count (first :: second :: rest)) with (1 + count (second :: rest)).
    lra.
Qed.

(** *** The schedules of the engine *)

(** The properties of a schedule that the claim is about. *)
Definition opening_is_previous_closing (rows : list schedule_row) : Prop :=
  forall i a b,
    nth_error rows i = Some a -> nth_error rows (S i) = Some b ->
    Beginning_Balance b == Ending_Balance a.

Definition opening_at_most_previous_closing (rows : list schedule_row) : Prop :=
  forall i a b,
    nth_error rows i = Some a -> nth_error rows (S i) = Some b ->
    Beginning_Balance b <= Ending_Balance a.

Definition closing_non_increasing (rows : list schedule_row) : Prop :=
  forall i j a b,
    (i <= j)%nat -> nth_error rows i = Some a -> nth_error rows j = Some b ->
    Ending_Balance b <= Ending_Balance a.

(** The principal components and the closing balance of the final row add
    up to the loan, within one unit of currency. *)
Definition conserves (principal : Q) (rows : list schedule_row) : Prop :=
  exists first rest,
    rows = first :: rest /\
    Qabs (Py.sum (map Principal rows) + Ending_Balance (last rows first)
          - principal) <= 1.

(** The same with the lump payments made between the rows counted in. *)
Definition conserves_with_lump_payments (principal : Q)
    (rows : list schedule_row) : Prop :=
  exists first rest,
    rows = first :: rest /\
    Qabs (Py.sum (map Principal rows) + lump_payments rows
          + Ending_Balance (last rows first) - principal) <= 1.

Definition st0 : loop_state := mk_loop_state LOAN_AMOUNT standard_emi 2025 6 0.

Lemma engine_schedule (extra : Q) :
  generate_repayment_schedule LOAN_AMOUNT INTEREST_RATE LOAN_YEARS extra
  = Some (schedule_loop (Z.to_nat months) monthly_rate extra months st0).
Proof.
  unfold generate_repayment_schedule.
  fold monthly_rate. fold months. now rewrite emi_formula_standard.
Qed.

Lemma inv_st0 : inv st0.
Proof.
  unfold inv, st0. cbn [balance emi].
  pose proof standard_emi_bounds as [H _].
  assert (Hi : LOAN_AMOUNT * monthly_rate == 9000) by (vm_compute; reflexivity).
  split; [discriminate|]. rewrite Hi. lra.
Qed.

Lemma loop_unroll (extra : Q) (fuel : nat) (st : loop_state) :
  0 < balance st -> (months_processed st < months)%Z ->
  schedule_loop (S fuel) monthly_rate extra months st
  = fst (schedule_step monthly_rate extra st)
    :: schedule_loop fuel monthly_rate extra months
         (snd (schedule_step monthly_rate extra st)).
Proof.
  intros Hb Hm. cbn [schedule_loop].
  apply PyFacts.ltb_lt in Hb. apply Z.ltb_lt in Hm. rewrite Hb, Hm. simpl andb.
  destruct (schedule_step monthly_rate extra st). reflexivity.
Qed.

(** The rows of a schedule of the engine, whatever the extra annual
    payment. *)
Lemma engine_schedule_rows (extra : Q) :
  exists first rest,
    generate_repayment_schedule LOAN_AMOUNT INTEREST_RATE LOAN_YEARS extra
    = Some (first :: rest) /\
    Forall row_sound (first :: rest) /\
    adjacent (fun a b => Beginning_Balance b <= Ending_Balance a) (first :: rest) /\
    (Py.ltb 0 extra = false ->
     adjacent (fun a b => Beginning_Balance b = Ending_Balance a) (first :: rest)) /\
    count (first :: rest) <= 60 /\
    Beginning_Balance first == LOAN_AMOUNT.
Proof.
  rewrite engine_schedule.
  destruct (loop_facts extra (Z.to_nat months) st0 inv_st0)
    as (Hsound & Hhd & Hle & Heq & Hlen).
  assert (Hrows : exists first rest,
             schedule_loop (Z.to_nat months) monthly_rate extra months st0
             = first :: rest).
  { change (Z.to_nat months) with (S 59).
    rewrite loop_unroll; [do 2 eexists; reflexivity | reflexivity | reflexivity]. }
  destruct Hrows as (first & rest & Hrows). rewrite Hrows in *.
  exists first, rest. split; [reflexivity|].
  split; [exact Hsound|]. split; [exact Hle|]. split; [exact Heq|]. split.
  - pose proof (count_bound (first :: rest) (Z.to_nat months) Hlen) as Hc.
    exact Hc.
  - rewrite (Hhd first eq_refl). cbn [st0 balance]. vm_compute. reflexivity.
Qed.

Lemma closing_adjacent (rows : list schedule_row) :
  Forall row_sound rows ->
  adjacent (fun a b => Beginning_Balance b <= Ending_Balance a) rows ->
  adjacent (fun a b => Ending_Balance b <= Ending_Balance a) rows.
Proof.
  induction rows as [|a [|b rows] IH]; intros Hsound Hle; simpl; auto.
  destruct Hle as [Hab Hrest].
  inversion Hsound as [|? ? _ Hs']; subst.
  inversion Hs' as [|? ? [Hb _] _]; subst.
  split; [lra|]. apply IH; assumption.
Qed.

Lemma closing_non_increasing_rows (rows : list schedule_row) :
  Forall row_sound rows ->
  adjacent (fun a b => Beginning_Balance b <= Ending_Balance a) rows ->
  closing_non_increasing rows.
Proof.
  intros Hsound Hle i j a b Hij Ha Hb.
  apply (adjacent_between (fun a b => Ending_Balance b <= Ending_Balance a) rows)
    with (i := i) (j := j); auto.
  - intros x. lra.
  - intros x y z Hxy Hyz. lra.
  - now apply closing_adjacent.
Qed.

Lemma conserves_rows (first : schedule_row) (rest : list schedule_row) :
  Forall row_sound (first :: rest) ->
  count (first :: rest) <= 60 ->
  Beginning_Balance first == LOAN_AMOUNT ->
  conserves_with_lump_payments LOAN_AMOUNT (first :: rest).
Proof.
  intros Hsound Hc Hfirst. exists first, rest. split; [reflexivity|].
  pose proof (telescope first rest Hsound) as Ht.
  pose proof (count_nonneg (first :: rest)) as Hc0.
  apply Qabs_Qle_condition. lra.
Qed.

(** *** The first year of a schedule *)

(** The state [k] turns after the start, before the first lump payment. *)
Definition early (k : Z) (st : loop_state) : Prop :=
  emi st = standard_emi /\ cur_month st = (6 + k)%Z /\
  months_processed st = k /\
  LOAN_AMOUNT - inject_Z k * 24911 <= balance st <= LOAN_AMOUNT.

Lemma early_st0 : early 0 st0.
Proof. unfold early, st0. cbn. repeat split; discriminate. Qed.

Lemma early_full (k : Z) (st : loop_state) :
  (0 <= k <= 5)%Z -> early k st ->
  Py.ltb (balance st) (emi st) = false /\ 0 < balance st /\
  (months_processed st < months)%Z.
Proof.
  intros Hk (Hemi & _ & Hm & Hlo & Hhi).
  pose proof standard_emi_bounds as [_ He].
  assert (Hk' : inject_Z k <= 5).
  { change 5 with (inject_Z 5). rewrite <- Zle_Qle. lia. }
  assert (HP : LOAN_AMOUNT == 1200000) by reflexivity.
  split; [|split].
  - apply PyFacts.ltb_ge. rewrite Hemi. lra.
  - lra.
  - rewrite Hm. unfold months, LOAN_YEARS. lia.
Qed.

Lemma early_step (extra : Q) (k : Z) (st : loop_state) :
  (0 <= k < 5)%Z -> early k st ->
  early (k + 1) (snd (schedule_step monthly_rate extra st)).
Proof.
  intros Hk Hearly.
  destruct (early_full k st ltac:(lia) Hearly) as (Hfull & Hpos & _).
  destruct Hearly as (Hemi & Hmonth & Hm & Hlo & Hhi).
  rewrite (step_full extra st Hfull). unfold early.
  cbn [snd emi cur_month months_processed balance].
  assert (Hcarry : forall e, carry extra (cur_month st) e = e).
  { intros e. unfold carry. rewrite Hmonth.
    assert (H : ((6 + k + 1) mod 12 =? 0)%Z = false).
    { apply Z.eqb_neq. rewrite Z.mod_small; lia. }
    now rewrite H. }
  rewrite Hcarry, Hemi, Hmonth, Hm.
  split; [reflexivity|]. split; [lia|]. split; [reflexivity|].
  pose proof standard_emi_bounds as [He1 He2].
  assert (Hr : balance st * monthly_rate == balance st * (3 # 400)).
  { now rewrite monthly_rate_value. }
  assert (HP : LOAN_AMOUNT == 1200000) by reflexivity.
  rewrite RoundFacts.inject_Z_succ. lra.
Qed.

Lemma early_prefix (extra : Q) (n : nat) :
  forall (k : Z) (st : loop_state) (fuel : nat),
    early k st -> (0 <= k)%Z -> (k + Z.of_nat n <= 5)%Z ->
    exists pre st',
      List.length pre = n /\
      schedule_loop (n + fuel) monthly_rate extra months st
      = pre ++ schedule_loop fuel monthly_rate extra months st' /\
      early (k + Z.of_nat n) st'.
Proof.
  induction n as [|n IH]; intros k st fuel Hearly Hk Hn.
  - exists [], st. rewrite Z.add_0_r. auto.
  - destruct (early_full k st ltac:(lia) Hearly) as (_ & Hpos & Hm).
    pose proof (early_step extra k st ltac:(lia) Hearly) as Hnext.
    destruct (IH (k + 1)%Z _ fuel Hnext ltac:(lia) ltac:(lia))
      as (pre & st' & Hlen & Hloop & Hearly').
    exists (fst (schedule_step monthly_rate extra st) :: pre), st'.
    split; [simpl; now rewrite Hlen|]. split.
    + change (S n + fuel)%nat with (S (n + fuel)).
      rewrite (loop_unroll extra _ st Hpos Hm), Hloop. reflexivity.
    + replace (k + Z.of_nat (S n))%Z with (k + 1 + Z.of_nat n)%Z by lia.
      exact Hearly'.
Qed.

(** A turn of the loop that pays the full instalment. *)
Lemma unroll_full (extra : Q) (fuel : nat) (st : loop_state) :
  0 < balance st -> (months_processed st < months)%Z ->
  Py.ltb (balance st) (emi st) = false ->
  exists row st',
    schedule_loop (S fuel) monthly_rate extra months st
    = row :: schedule_loop fuel monthly_rate extra months st' /\
    Beginning_Balance row = Py.round2 (balance st) /\
    Ending_Balance row
    = Py.round2 (balance st - (emi st - balance st * monthly_rate)) /\
    balance st'
    = carry extra (cur_month st) (balance st - (emi st - balance st * monthly_rate)) /\
    emi st' = emi st /\
    months_processed st' = (months_processed st + 1)%Z.
Proof.
  intros Hpos Hm Hfull.
  rewrite (loop_unroll extra fuel st Hpos Hm), (step_full extra st Hfull).
  do 2 eexists. split; [reflexivity|]. cbn. auto.
Qed.

(** With an extra annual payment of 10000, the seventh row opens 10000
    below the closing balance of the sixth, up to rounding. *)
Lemma sixth_and_seventh (fuel : nat) (st5 : loop_state) :
  early 5 st5 ->
  exists r6 r7 rest,
    schedule_loop (S (S fuel)) monthly_rate 10000 months st5 = r6 :: r7 :: rest /\
    Beginning_Balance r7 <= Ending_Balance r6 - 9999.
Proof.
  intros Hearly.
  destruct (early_full 5 st5 ltac:(lia) Hearly) as (Hfull & Hpos & Hm).
  destruct Hearly as (Hemi & Hmonth & Hmp & Hlo & Hhi).
  destruct (unroll_full 10000 (S fuel) st5 Hpos Hm Hfull)
    as (r6 & st6 & Hloop & _ & Hend & Hbal & Hemi6 & Hmp6).
  pose proof standard_emi_bounds as [He1 He2].
  assert (Hr : balance st5 * monthly_rate == balance st5 * (3 # 400)).
  { now rewrite monthly_rate_value. }
  assert (HP : LOAN_AMOUNT == 1200000) by reflexivity.
  change (inject_Z 5) with 5 in Hlo.
  set (e := balance st5 - (emi st5 - balance st5 * monthly_rate)) in *.
  assert (He : 1000000 <= e) by (unfold e; rewrite Hemi; lra).
  assert (Hmin : Qmin e 10000 == 10000) by (apply Q.min_r; lra).
  assert (Hcarry : carry 10000 (cur_month st5) e = e - Qmin e 10000).
  { unfold carry. rewrite Hmonth.
    assert (H0 : Py.ltb 0 e = true) by (apply PyFacts.ltb_lt; lra).
    rewrite H0. reflexivity. }
  rewrite Hcarry in Hbal.
  assert (Hpos6 : 0 < balance st6) by (rewrite Hbal; lra).
  assert (Hm6 : (months_processed st6 < months)%Z).
  { rewrite Hmp6, Hmp. reflexivity. }
  assert (Hfull6 : Py.ltb (balance st6) (emi st6) = false).
  { apply PyFacts.ltb_ge. rewrite Hbal, Hemi6, Hemi. lra. }
  destruct (unroll_full 10000 fuel st6 Hpos6 Hm6 Hfull6)
    as (r7 & st7 & Hloop7 & Hbeg7 & _).
  exists r6, r7, (schedule_loop fuel monthly_rate 10000 months st7).
  split; [now rewrite Hloop, Hloop7|].
  rewrite Hbeg7, Hend, Hbal.
  pose proof (RoundFacts.round2_error e) as H1.
  pose proof (RoundFacts.round2_error (e - Qmin e 10000)) as H2.
  lra.
Qed.

Lemma first_lump_payment :
  exists rows r6 r7,
    generate_repayment_schedule LOAN_AMOUNT INTEREST_RATE LOAN_YEARS 10000
    = Some rows /\
    nth_error rows 5 = Some r6 /\ nth_error rows 6 = Some r7 /\
    Beginning_Balance r7 <= Ending_Balance r6 - 9999.
Proof.
  rewrite engine_schedule.
  change (Z.to_nat months) with (5 + S (S 53))%nat.
  destruct (early_prefix 10000 5 0 st0 (S (S 53)) early_st0 ltac:(lia) ltac:(lia))
    as (pre & st5 & Hlen & Hloop & Hearly).
  rewrite Hloop.
  destruct (sixth_and_seventh 53 st5 Hearly) as (r6 & r7 & rest & Hrows & Hgap).
  rewrite Hrows.
  exists (pre ++ r6 :: r7 :: rest), r6, r7.
  split; [reflexivity|]. split; [|split; [|exact Hgap]].
  - rewrite nth_error_app2 by lia. rewrite Hlen. reflexivity.
  - rewrite nth_error_app2 by lia. rewrite Hlen. reflexivity.
Qed.

Lemma lump_payments_cover (rows : list schedule_row) (i : nat)
    (a b : schedule_row) :
  adjacent (fun a b => Beginning_Balance b <= Ending_Balance a) rows ->
  nth_error rows i = Some a -> nth_error rows (S i) = Some b ->
  Ending_Balance a - Beginning_Balance b <= lump_payments rows.
Proof.
  revert i. induction rows as [|x [|y rows] IH]; intros i Hadj Ha Hb.
  - destruct i; discriminate.
  - destruct i as [|[|i]]; discriminate.
  - destruct Hadj as [Hxy Hrest].
    pose proof (lump_payments_nonneg _ Hrest) as Hnn.
    change (lump_payments (x :: y :: rows))
      with ((Ending_Balance x - Beginning_Balance y) + lump_payments (y :: rows)).
    destruct i as [|i].
    + simpl in Ha, Hb. injection Ha as <-. injection Hb as <-. lra.
    + specialize (IH i Hrest Ha Hb). lra.
Qed.

(** C3, as stated, fails on the optimized schedule: with an extra annual
    payment of 10000 the opening balance of the seventh row is not the
    closing balance of the sixth, and the principal components with the
    final closing balance miss the loan by more than one unit. *)
Lemma C3_counterexample :
  exists rows,
    generate_repayment_schedule LOAN_AMOUNT INTEREST_RATE LOAN_YEARS 10000
    = Some rows /\
    ~ opening_is_previous_closing rows /\
    ~ conserves LOAN_AMOUNT rows.
Proof.
  destruct first_lump_payment as (rows & r6 & r7 & Hgen & H6 & H7 & Hgap).
  exists rows. split; [exact Hgen|]. split.
  - intros Hchain. specialize (Hchain 5%nat r6 r7 H6 H7). lra.
  - intros (first & rest & Hrows & Habs).
    destruct (engine_schedule_rows 10000)
      as (first' & rest' & Hgen' & Hsound & Hle & _ & Hc & Hfirst).
    rewrite Hgen in Hgen'. injection Hgen' as Hrows'.
    rewrite Hrows in Hrows'. injection Hrows' as <- <-.
    rewrite Hrows in H6, H7, Habs.
    pose proof (lump_payments_cover _ 5 r6 r7 Hle H6 H7) as Hcover.
    pose proof (telescope first rest Hsound) as Ht.
    apply Qabs_Qle_condition in Habs.
    assert (HP : LOAN_AMOUNT == 1200000) by reflexivity.
    lra.
Qed.

(** C3, amended. The standard schedule has every opening balance equal to
    the previous closing balance, a non-increasing closing balance, and
    principal components that, with the final closing balance, add up to
    the loan within one unit.  An optimized schedule with a positive extra
    annual payment has a non-increasing closing balance too; each opening
    balance is at most the previous closing balance; and the principal
    components, the falls from a closing balance to the next opening balance
    (the lump payments) and the final closing balance add up to the loan
    within one unit. *)
Theorem C3_schedule_invariants :
  (exists rows,
      generate_repayment_schedule LOAN_AMOUNT INTEREST_RATE LOAN_YEARS 0
      = Some rows /\
      opening_is_previous_closing rows /\
      closing_non_increasing rows /\
      conserves LOAN_AMOUNT rows) /\
  (forall extra,
      0 < extra ->
      exists rows,
        generate_repayment_schedule LOAN_AMOUNT INTEREST_RATE LOAN_YEARS extra
        = Some rows /\
        opening_at_most_previous_closing rows /\
        closing_non_increasing rows /\
        conserves_with_lump_payments LOAN_AMOUNT rows).
Proof.
  split.
  - destruct (engine_schedule_rows 0)
      as (first & rest & Hgen & Hsound & Hle & Heq & Hc & Hfirst).
    specialize (Heq eq_refl).
    exists (first :: rest). split; [exact Hgen|].
    split; [|split].
    + intros i a b Ha Hb.
      rewrite (adjacent_nth _ _ Heq i a b Ha Hb). reflexivity.
    + now apply closing_non_increasing_rows.
    + destruct (conserves_rows first rest Hsound Hc Hfirst)
        as (first' & rest' & [= <- <-] & Habs).
      exists first, rest. split; [reflexivity|].
      pose proof (lump_payments_zero _ Heq) as Hzero.
      apply Qabs_Qle_condition in Habs. apply Qabs_Qle_condition.
      rewrite Hzero in Habs. lra.
  - intros extra _.
    destruct (engine_schedule_rows extra)
      as (first & rest & Hgen & Hsound & Hle & _ & Hc & Hfirst).
    exists (first :: rest). split; [exact Hgen|].
    split; [|split].
    + intros i a b Ha Hb. exact (adjacent_nth _ _ Hle i a b Ha Hb).
    + now apply closing_non_increasing_rows.
    + now apply conserves_rows.
Qed.

(** The amended theorem at an extra annual payment of 10000. *)
Lemma C3_witness :
  0 < 10000 /\
  exists rows,
    generate_repayment_schedule LOAN_AMOUNT INTEREST_RATE LOAN_YEARS 10000
    = Some rows /\
    closing_non_increasing rows.
Proof.
  assert (H : 0 < 10000) by reflexivity.
  split; [exact H|].
  destruct (proj2 C3_schedule_invariants 10000 H) as (rows & Hgen & _ & Hmono & _).
  exists rows. split; [exact Hgen | exact Hmono].
Defined.

End ScheduleFacts.

(** ** The monthly thresholds and the pipeline ([backend/loan.py]) *)

Module PipelineFacts.
Import Loan.

(** The instalment read from the first row of the standard schedule. *)
Lemma first_row_emi (extra : Q) :
  exists first rest,
    generate_repayment_schedule LOAN_AMOUNT INTEREST_RATE LOAN_YEARS extra
    = Some (first :: rest) /\
    Py.round2 (EMI first) == 24910.03.
Proof.
  rewrite ScheduleFacts.engine_schedule.
  change (Z.to_nat ScheduleFacts.months) with (S 59).
  rewrite ScheduleFacts.loop_unroll; [|reflexivity|reflexivity].
  assert (Hfull : Py.ltb (balance ScheduleFacts.st0) (emi ScheduleFacts.st0) = false).
  { vm_compute. reflexivity. }
  rewrite (ScheduleFacts.step_full extra _ Hfull). cbn [fst snd].
  do 2 eexists. split; [reflexivity|].
  cbn [EMI ScheduleFacts.st0 emi]. vm_compute. reflexivity.
Qed.

(** A month with a salary of 50000 and a food purchase of 2000. *)
Definition march (day : Z) : timestamp := mk_timestamp 2025 3 day 0.

Definition salary_row : row :=
  mk_row (march 5) "salary" 50000 "Salary - March 2025" "received" (2025, 3)%Z.

Definition food_row : row :=
  mk_row (march 10) "food" 2000 "Weekly groceries" "sent" (2025, 3)%Z.

Definition salary_month : list row := [salary_row; food_row].

(** The thresholds in the words of the specification: what is left of the
    salary after the instalment, times the adjusted percentage. *)
Definition spec_threshold (salary monthly_emi : Q) (lifestyle cat : string) : Q :=
  Qmax (salary - monthly_emi) 0 * Py.get0 cat (lifestyle_adjustments lifestyle).

(** The thresholds of a month, as the code computes them for every salary:
    the instalment is subtracted once by the caller, rounded, and once more
    by [dynamic_threshold_adjuster], unrounded. *)
Lemma month_thresholds_value (monthly_emi : Q) (lifestyle : string)
    (group : list row) :
  month_thresholds monthly_emi lifestyle group
  = Some (map (fun '(cat, perc) =>
                 (cat,
                  Qmax 0
                    (Py.round2
                       (Qmax (Qmax (month_salary group - monthly_emi) 0
                              - ScheduleFacts.standard_emi) 0 * perc))))
            (filter (fun '(cat, _) => negb (String.eqb cat "salary"))
               (lifestyle_adjustments lifestyle))).
Proof.
  unfold month_thresholds, dynamic_threshold_adjuster.
  fold ScheduleFacts.monthly_rate. fold ScheduleFacts.months.
  rewrite ScheduleFacts.emi_formula_standard. reflexivity.
Qed.

(** C5, on the code. The salary of the month is the sum of the received
    rows that mention salary or income, here 50000, and the lifestyle table
    gives food 9% for a family without children and 12% (10% + 2%) for a
    bachelor living alone.  The thresholds, however, are not
    max(salary - EMI, 0) times the percentage: the instalment is subtracted
    a second time inside [dynamic_threshold_adjuster], so that the food
    threshold of this month is 16.19 where the claim gives 2258.10, and the
    food purchase of 2000 is flagged with a non-essential amount of
    1983.81. *)
Theorem C5_thresholds_subtract_emi_twice :
  month_salary salary_month == 50000 /\
  infer_lifestyle salary_month = "Unmarried_but_Living_with_family"%string /\
  Py.get0 "food" (lifestyle_adjustments "Unmarried_but_Living_with_family") == 0.09 /\
  Py.get0 "food" (lifestyle_adjustments "Bachelor_Living_Alone") == 0.12 /\
  Py.get0 "entertainment" (lifestyle_adjustments "Bachelor_Living_Alone") == 0.06 /\
  spec_threshold 50000 24910.03 "Unmarried_but_Living_with_family" "food"
  == 2258.0973 /\
  exists thresholds,
    month_thresholds 24910.03 "Unmarried_but_Living_with_family" salary_month
    = Some thresholds /\
    Py.get0 "food" thresholds == 16.19 /\
    map (fun s => (necessary s, Qred (non_essential_amount s)))
      (calculate_not_necessary_spending salary_month thresholds)
    = [(true, 0); (false, 1983.81)].
Proof.
  split; [reflexivity|]. split; [reflexivity|].
  split; [reflexivity|]. split; [reflexivity|]. split; [reflexivity|].
  split; [vm_compute; reflexivity|].
  destruct (month_thresholds 24910.03 "Unmarried_but_Living_with_family"
              salary_month) as [thresholds|] eqn:E.
  - exists thresholds. split; [reflexivity|].
    vm_compute in E. injection E as <-.
    split; vm_compute; reflexivity.
  - vm_compute in E. discriminate.
Qed.

Section Pipeline.

Variable to_datetime : string -> option timestamp.
Variable get_best_match : string -> list string -> option string * Q.

Abbreviation core := (_run_loan_optimization_core to_datetime get_best_match).
Abbreviation pipeline := (loan_optimization_pipeline to_datetime get_best_match).

(** The core on a frame that date parsing empties. *)
Lemma core_empty_after_parsing (df : list raw_row) :
  parse_rows to_datetime df = [] ->
  exists r,
    core df = Some r /\
    categorized_transactions r = [] /\ monthly_summary r = [] /\
    lifestyle r = "Unmarried_but_Living_with_family"%string /\
    monthly_emi r == 24910.03.
Proof.
  intros Hparse. unfold _run_loan_optimization_core. rewrite Hparse.
  destruct (first_row_emi 0) as (first & rest & Hgen & Hemi).
  destruct (first_row_emi 0.0) as (first' & rest' & Hgen' & _).
  rewrite Hgen. cbn [groupby_month fold_left process_months List.concat].
  rewrite Hgen'. eexists. split; [reflexivity|]. cbn. auto.
Qed.

(** The instalment reported by the core is that of the standard schedule. *)
Lemma core_monthly_emi (df : list raw_row) (r : results) :
  core df = Some r -> monthly_emi r == 24910.03.
Proof.
  unfold _run_loan_optimization_core.
  destruct (first_row_emi 0) as (first & rest & Hgen & Hemi).
  set (standard := generate_repayment_schedule LOAN_AMOUNT INTEREST_RATE
                     LOAN_YEARS 0) in *.
  rewrite Hgen.
  destruct (process_months _ _ _ _) as [[final_results summaries]|];
    [|discriminate].
  match goal with
  | |- context [generate_repayment_schedule ?a ?b ?c ?d] =>
      set (optimized := generate_repayment_schedule a b c d)
  end.
  destruct optimized as [rows|]; [|discriminate].
  intros [= <-]. exact Hemi.
Qed.

Lemma build_frame_nonempty (txns : list Txn.t) (df : list raw_row) :
  txns <> [] -> build_frame txns = Some df -> df <> [].
Proof.
  destruct txns as [|txn txns]; [congruence|]. intros _. simpl.
  destruct (frame_row txn); [|discriminate].
  destruct (build_frame txns); [|discriminate].
  intros [= <-]. discriminate.
Qed.

(** A record without a creation date: its [transaction_date] is the empty
    text, which no date parser accepts. *)
Definition undated : Txn.t :=
  Txn.mk (Txn.Amount 500) (Some "Cinema"%string) (Some "sent"%string)
    (Some "entertainment"%string) None.

End Pipeline.

(** C9, as stated, fails: for the batch of one record without a creation
    date, every row is dropped by date parsing, and the engine returns a
    successful result, not an error. *)
Lemma C9_counterexample :
  build_frame [undated]
  = Some [mk_raw_row "" "entertainment" 500 "Cinema" "sent"] /\
  (forall to_datetime get_best_match,
      to_datetime ""%string = None ->
      parse_rows to_datetime [mk_raw_row "" "entertainment" 500 "Cinema" "sent"]
      = [] /\
      exists r,
        loan_optimization_pipeline to_datetime get_best_match [undated]
        = Success r).
Proof.
  split; [reflexivity|].
  intros to_datetime get_best_match Hnat.
  assert (Hparse : parse_rows to_datetime
                     [mk_raw_row "" "entertainment" 500 "Cinema" "sent"] = []).
  { unfold parse_rows. cbn [flat_map raw_transaction_date]. now rewrite Hnat. }
  split; [exact Hparse|].
  destruct (core_empty_after_parsing to_datetime get_best_match _ Hparse)
    as (r & Hcore & _).
  exists r. unfold loan_optimization_pipeline.
  cbn [build_frame frame_row undated Txn.amount Txn.created_at Txn.category
       Txn.description Txn.type Txn.get_or].
  now rewrite Hcore.
Qed.

(** C9, amended. For an empty transaction list the engine returns the
    error result "No transaction data provided", and a batch with an amount
    that is not a number gives the error result of a caught exception; but
    for a non-empty batch whose rows are all dropped by date parsing the
    engine returns a successful result, with no categorized transaction, an
    empty monthly summary and the default lifestyle. *)
Theorem C9_pipeline_outcomes
    (to_datetime : string -> option timestamp)
    (get_best_match : string -> list string -> option string * Q)
    (txns : list Txn.t) :
  (txns = [] ->
   loan_optimization_pipeline to_datetime get_best_match txns
   = Failure NoTransactionData) /\
  (txns <> [] -> build_frame txns = None ->
   loan_optimization_pipeline to_datetime get_best_match txns
   = Failure ErrorOccurred) /\
  (txns <> [] ->
   forall df, build_frame txns = Some df -> parse_rows to_datetime df = [] ->
   exists r,
     loan_optimization_pipeline to_datetime get_best_match txns = Success r /\
     categorized_transactions r = [] /\ monthly_summary r = [] /\
     lifestyle r = "Unmarried_but_Living_with_family"%string).
Proof.
  split; [|split].
  - intros ->. reflexivity.
  - intros Hne Hframe. unfold loan_optimization_pipeline.
    destruct txns; [congruence|]. now rewrite Hframe.
  - intros Hne df Hframe Hparse.
    destruct (core_empty_after_parsing to_datetime get_best_match df Hparse)
      as (r & Hcore & Hcat & Hsum & Hlife & _).
    exists r. split; [|auto].
    pose proof (build_frame_nonempty txns df Hne Hframe) as Hdf.
    unfold loan_optimization_pipeline.
    destruct txns; [congruence|]. rewrite Hframe.
    destruct df; [congruence|]. now rewrite Hcore.
Qed.

(** The amended theorem on the empty batch and on the undated record, with
    a parser that accepts no text. *)
Lemma C9_witness :
  loan_optimization_pipeline (fun _ => None) (fun _ _ => (None, 0)) []
  = Failure NoTransactionData /\
  exists r,
    loan_optimization_pipeline (fun _ => None) (fun _ _ => (None, 0)) [undated]
    = Success r /\ categorized_transactions r = [].
Proof.
  split.
  - apply (C9_pipeline_outcomes (fun _ => None) (fun _ _ => (None, 0)) []).
    reflexivity.
  - destruct (C9_pipeline_outcomes (fun _ => None) (fun _ _ => (None, 0)) [undated])
      as (_ & _ & H).
    destruct (H ltac:(discriminate) _ eq_refl eq_refl) as (r & Hr & Hcat & _).
    exists r. split; [exact Hr | exact Hcat].
Defined.

End PipelineFacts.

(** ** More on the slab tax and the liability ([backend/book3.py]) *)

Module LiabilityFacts.
Import Book3 Book3Facts.

(** No rate of the slabs is above [top]. *)
Definition rates_at_most (top : Q) (slabs : list (limit * Q)) : Prop :=
  Forall (fun s => snd s <= top) slabs.

(** Between two incomes the slab tax grows at most at the top rate. *)
Lemma slab_tax_marginal (top : Q) (slabs : list (limit * Q)) (prev x y : Q) :
  ascending prev slabs -> rates_at_most top slabs -> 0 <= top ->
  x <= y ->
  slab_tax y slabs prev - slab_tax x slabs prev <= top * (y - x).
Proof.
  intros Hasc Hrates Htop. revert prev x Hasc.
  induction Hrates as [|[[l|] rate] rest Hrate Hrates IH];
    intros prev x Hasc Hxy; simpl in *.
  - assert (0 <= top * (y - x)) by (apply Qmult_le_0_compat; lra). lra.
  - destruct Hasc as (Hpl & Hr0 & Hrest).
    assert (Hstep : forall u v, 0 <= u <= v -> u * rate <= top * v).
    { intros u v Huv. rewrite (Qmult_comm top v).
      apply Qmult_le_compat_nonneg; lra. }
    destruct (Py.leb y prev) eqn:Ey.
    + apply PyFacts.leb_le in Ey.
      destruct (Py.leb x prev) eqn:Ex; [|apply PyFacts.leb_gt in Ex; lra].
      assert (0 <= top * (y - x)) by (apply Qmult_le_0_compat; lra). lra.
    + apply PyFacts.leb_gt in Ey.
      destruct (Py.leb x prev) eqn:Ex.
      * apply PyFacts.leb_le in Ex.
        destruct (Py.leb y l) eqn:Eyl.
        -- apply PyFacts.leb_le in Eyl.
           pose proof (Hstep (Qmin (y - prev) (l - prev)) (y - x)) as H.
           destruct (Q.min_spec (y - prev) (l - prev)) as [[? Hm]|[? Hm]];
             rewrite Hm in *; lra.
        -- apply PyFacts.leb_gt in Eyl.
           specialize (IH l l Hrest ltac:(lra)).
           assert (H0 : slab_tax l rest l == 0).
           { destruct rest as [|[[l'|] r'] rest']; simpl; auto; try reflexivity;
               assert (E : Py.leb l l = true) by (apply PyFacts.leb_le; lra);
               now rewrite E. }
           pose proof (Hstep (Qmin (y - prev) (l - prev)) (l - x)) as H.
           assert (Hm : Qmin (y - prev) (l - prev) == l - prev)
             by (apply Q.min_r; lra).
           rewrite Hm in *.
           assert (Hd : top * (y - x) == top * (l - x) + top * (y - l)) by ring.
           lra.
      * apply PyFacts.leb_gt in Ex.
        pose proof (Hstep (Qmin (y - prev) (l - prev) - Qmin (x - prev) (l - prev))) as H.
        assert (Hsplit : Qmin (y - prev) (l - prev) * rate
                         - Qmin (x - prev) (l - prev) * rate
                         == (Qmin (y - prev) (l - prev)
                             - Qmin (x - prev) (l - prev)) * rate) by ring.
        destruct (Py.leb x l) eqn:Exl.
        -- apply PyFacts.leb_le in Exl.
           assert (Hmx : Qmin (x - prev) (l - prev) == x - prev)
             by (apply Q.min_l; lra).
           destruct (Py.leb y l) eqn:Eyl.
           ++ apply PyFacts.leb_le in Eyl.
              assert (Hmy : Qmin (y - prev) (l - prev) == y - prev)
                by (apply Q.min_l; lra).
              specialize (H (y - x)). rewrite Hmx, Hmy in *. lra.
           ++ apply PyFacts.leb_gt in Eyl.
              assert (Hmy : Qmin (y - prev) (l - prev) == l - prev)
                by (apply Q.min_r; lra).
              specialize (H (l - x)). rewrite Hmx, Hmy in *.
              specialize (IH l l Hrest ltac:(lra)).
              assert (H0 : slab_tax l rest l == 0).
              { destruct rest as [|[[l'|] r'] rest']; simpl; auto; try reflexivity;
                  assert (E : Py.leb l l = true) by (apply PyFacts.leb_le; lra);
                  now rewrite E. }
              assert (Hd : top * (y - x) == top * (l - x) + top * (y - l)) by ring.
              lra.
        -- apply PyFacts.leb_gt in Exl.
           destruct (Py.leb y l) eqn:Eyl; [apply PyFacts.leb_le in Eyl; lra|].
           assert (Hmx : Qmin (x - prev) (l - prev) == l - prev)
             by (apply Q.min_r; lra).
           assert (Hmy : Qmin (y - prev) (l - prev) == l - prev)
             by (apply Q.min_r; lra).
           specialize (IH l x Hrest Hxy). rewrite Hmx, Hmy. lra.
  - assert (Hstep : forall u v, 0 <= u <= v -> u * rate <= top * v).
    { intros u v Huv. rewrite (Qmult_comm top v).
      apply Qmult_le_compat_nonneg; lra. }
    destruct (Py.leb y prev) eqn:Ey.
    + apply PyFacts.leb_le in Ey.
      destruct (Py.leb x prev) eqn:Ex; [|apply PyFacts.leb_gt in Ex; lra].
      assert (0 <= top * (y - x)) by (apply Qmult_le_0_compat; lra). lra.
    + apply PyFacts.leb_gt in Ey.
      destruct (Py.leb x prev) eqn:Ex.
      * apply PyFacts.leb_le in Ex.
        pose proof (Hstep (y - prev) (y - x)) as H. lra.
      * apply PyFacts.leb_gt in Ex.
        pose proof (Hstep (y - x) (y - x)) as H.
        assert (Hd : (y - prev) * rate - (x - prev) * rate == (y - x) * rate)
          by ring.
        lra.
Qed.

Lemma NEW_REGIME_SLABS_rates : rates_at_most 0.30 NEW_REGIME_SLABS.
Proof. repeat constructor; simpl; discriminate. Qed.

Lemma tax_marginal (u v : Q) :
  u <= v ->
  fst (calculate_tax_slab v NEW_REGIME_SLABS)
  - fst (calculate_tax_slab u NEW_REGIME_SLABS) <= 0.30 * (v - u).
Proof.
  intros Huv. unfold calculate_tax_slab. rewrite !tax_slab_loop_fst.
  pose proof (slab_tax_marginal 0.30 _ 0 u v NEW_REGIME_SLABS_ascending
                NEW_REGIME_SLABS_rates ltac:(discriminate) Huv). lra.
Qed.

Lemma tax_nonneg (x : Q) : 0 <= fst (calculate_tax_slab x NEW_REGIME_SLABS).
Proof.
  unfold calculate_tax_slab. rewrite tax_slab_loop_fst.
  pose proof (slab_tax_nonneg x _ _ NEW_REGIME_SLABS_ascending). lra.
Qed.

Lemma tax_upper (y : Q) :
  fst (calculate_tax_slab y NEW_REGIME_SLABS) <= 0.30 * Qmax 0 (y - 400000).
Proof.
  assert (Hlow : fst (calculate_tax_slab 400000 NEW_REGIME_SLABS) == 0)
    by reflexivity.
  destruct (Qlt_le_dec 400000 y) as [Hy|Hy].
  - rewrite Q.max_r by lra.
    pose proof (tax_marginal 400000 y ltac:(lra)). lra.
  - rewrite Q.max_l by lra.
    pose proof (calculate_tax_slab_monotone y 400000 Hy). lra.
Qed.

(** X1. Between two taxable incomes [x <= y] the slab tax of the head-wise
    mode does not fall and rises by at most 30% of the difference; the tax
    is never negative and at most 30% of the income above 400,000. *)
Theorem slab_tax_marginal_rate (x y : Q) :
  x <= y ->
  0 <= fst (calculate_tax_slab y NEW_REGIME_SLABS)
       - fst (calculate_tax_slab x NEW_REGIME_SLABS)
  <= 0.30 * (y - x) /\
  0 <= fst (calculate_tax_slab y NEW_REGIME_SLABS)
  <= 0.30 * Qmax 0 (y - 400000).
Proof.
  intros Hxy.
  pose proof (calculate_tax_slab_monotone x y Hxy) as Hmono.
  split; [split; [lra | now apply tax_marginal]|].
  split; [apply tax_nonneg | apply tax_upper].
Qed.

Lemma slab_tax_marginal_rate_witness :
  0 <= fst (calculate_tax_slab 1500000 NEW_REGIME_SLABS)
       - fst (calculate_tax_slab 900000 NEW_REGIME_SLABS)
  <= 0.30 * (1500000 - 900000).
Proof.
  apply (slab_tax_marginal_rate 900000 1500000). discriminate.
Defined.

End LiabilityFacts.

Module BreakdownFacts.
Import Book3 Book3Facts.

Definition sum_tax (bd : list slab_entry) : Q := Py.sum (map tax_amount bd).
Definition sum_taxable (bd : list slab_entry) : Q :=
  Py.sum (map taxable_amount bd).

(** What every line of the breakdown of [income] satisfies. *)
Definition entry_ok (income : Q) (e : slab_entry) : Prop :=
  0 < taxable_amount e /\
  tax_amount e == taxable_amount e * slab_rate e /\
  range_to e - range_from e == taxable_amount e /\
  range_to e <= income.

(** The slabs reach every income: the last limit is [float('inf')]. *)
Fixpoint unbounded (slabs : list (limit * Q)) : Prop :=
  match slabs with
  | [] => False
  | (Finite _, _) :: rest => unbounded rest
  | (Infinity, _) :: _ => True
  end.

Lemma sum_tax_app (bd : list slab_entry) (e : slab_entry) :
  sum_tax (bd ++ [e]) == sum_tax bd + tax_amount e.
Proof.
  unfold sum_tax. rewrite map_app, PyFacts.sum_app. simpl.
  rewrite PyFacts.sum_cons, PyFacts.sum_nil. lra.
Qed.

Lemma sum_taxable_app (bd : list slab_entry) (e : slab_entry) :
  sum_taxable (bd ++ [e]) == sum_taxable bd + taxable_amount e.
Proof.
  unfold sum_taxable. rewrite map_app, PyFacts.sum_app. simpl.
  rewrite PyFacts.sum_cons, PyFacts.sum_nil. lra.
Qed.

Lemma loop_breakdown (income : Q) (slabs : list (limit * Q)) (tax prev : Q)
    (bd : list slab_entry) :
  ascending prev slabs ->
  Forall (entry_ok income) bd ->
  let r := tax_slab_loop income slabs tax (Finite prev) bd in
  Forall (entry_ok income) (snd r) /\
  sum_tax (snd r) - sum_tax bd == fst r - tax /\
  (unbounded slabs ->
   sum_taxable (snd r) - sum_taxable bd == Qmax 0 (income - prev)).
Proof.
  revert tax prev bd.
  induction slabs as [|[[l|] rate] rest IH]; intros tax prev bd Hasc Hbd; simpl.
  - split; [exact Hbd|]. split; [lra|]. intros [].
  - destruct Hasc as (Hpl & Hrate & Hrest).
    destruct (Py.leb income prev) eqn:Ep.
    + apply PyFacts.leb_le in Ep. simpl.
      split; [exact Hbd|]. split; [lra|]. intros _.
      rewrite Q.max_l by lra. lra.
    + apply PyFacts.leb_gt in Ep.
      set (taxable := Qmin (income - prev) (l - prev)).
      assert (Htaxable : 0 <= taxable) by (apply Q.min_glb; lra).
      assert (Hrange : Qmin l income - prev == taxable).
      { unfold taxable.
        destruct (Q.min_spec l income) as [[? Hm]|[? Hm]]; rewrite Hm.
        - rewrite Q.min_r by lra. lra.
        - rewrite Q.min_l by lra. lra. }
      assert (Hend : Qmin l income <= income) by apply Q.le_min_r.
      set (bd' := if Py.ltb 0 taxable
                  then bd ++ [mk_slab_entry prev (Qmin l income) rate taxable
                                (taxable * rate)]
                  else bd).
      assert (Hbd' : Forall (entry_ok income) bd').
      { unfold bd'. destruct (Py.ltb 0 taxable) eqn:Et; [|exact Hbd].
        apply PyFacts.ltb_lt in Et.
        apply Forall_app. split; [exact Hbd|].
        constructor; [|constructor].
        unfold entry_ok. simpl. repeat split; try lra. }
      assert (Hsum : sum_tax bd' == sum_tax bd + taxable * rate).
      { unfold bd'. destruct (Py.ltb 0 taxable) eqn:Et.
        - rewrite sum_tax_app. simpl. lra.
        - apply PyFacts.ltb_ge in Et.
          assert (Hz : taxable == 0) by lra. rewrite Hz. lra. }
      assert (Hsumt : sum_taxable bd' == sum_taxable bd + taxable).
      { unfold bd'. destruct (Py.ltb 0 taxable) eqn:Et.
        - rewrite sum_taxable_app. simpl. lra.
        - apply PyFacts.ltb_ge in Et. lra. }
      destruct (Py.leb income l) eqn:El.
      * apply PyFacts.leb_le in El. simpl.
        split; [exact Hbd'|]. split; [lra|]. intros _.
        rewrite Q.max_r by lra. rewrite Hsumt. unfold taxable.
        rewrite Q.min_l by lra. lra.
      * apply PyFacts.leb_gt in El.
        destruct (IH (tax + taxable * rate) l bd' Hrest Hbd')
          as (Hok & Htax & Htaxable').
        split; [exact Hok|]. split; [lra|]. intros Hunb.
        specialize (Htaxable' Hunb).
        rewrite Q.max_r in * by lra.
        assert (Hm : taxable == l - prev) by (apply Q.min_r; lra).
        lra.
  - simpl in Hasc.
    destruct (Py.leb income prev) eqn:Ep.
    + apply PyFacts.leb_le in Ep. simpl.
      split; [exact Hbd|]. split; [lra|]. intros _.
      rewrite Q.max_l by lra. lra.
    + apply PyFacts.leb_gt in Ep. simpl.
      destruct (Py.ltb 0 (income - prev)) eqn:Et;
        [|apply PyFacts.ltb_ge in Et; lra].
      split; [|split].
      * apply Forall_app. split; [exact Hbd|].
        constructor; [|constructor].
        unfold entry_ok. simpl. repeat split; lra.
      * rewrite sum_tax_app. simpl. lra.
      * intros _. rewrite sum_taxable_app. simpl.
        rewrite Q.max_r by lra. lra.
Qed.

(** X2. The slab breakdown of an income accounts for the whole computation:
    its tax amounts add up to the tax, its taxable amounts add up to the
    income (to 0 for an income that is not positive, whose breakdown is
    empty), and every line has a positive taxable amount equal to the width
    of its range, a tax amount equal to that amount times the line's rate,
    and a range that ends at or below the income. *)
Theorem slab_breakdown_accounts (income : Q) :
  let r := calculate_tax_slab income NEW_REGIME_SLABS in
  sum_tax (snd r) == fst r /\
  sum_taxable (snd r) == Qmax 0 income /\
  Forall (entry_ok income) (snd r) /\
  (income <= 0 -> snd r = []).
Proof.
  intros r.
  destruct (loop_breakdown income NEW_REGIME_SLABS 0.0 0 []
              NEW_REGIME_SLABS_ascending (Forall_nil _))
    as (Hok & Htax & Htaxable).
  fold (calculate_tax_slab income NEW_REGIME_SLABS) in Hok, Htax, Htaxable.
  fold r in Hok, Htax, Htaxable.
  specialize (Htaxable I).
  assert (Hz : sum_tax [] == 0) by reflexivity.
  assert (Hz' : sum_taxable [] == 0) by reflexivity.
  split; [lra|]. split.
  - assert (Hm : Qmax 0 (income - 0) == Qmax 0 income).
    { destruct (Qlt_le_dec 0 income).
      - rewrite !Q.max_r by lra. lra.
      - rewrite !Q.max_l by lra. lra. }
    lra.
  - split; [exact Hok|].
    intros Hle. apply PyFacts.leb_le in Hle.
    unfold r, calculate_tax_slab. simpl. rewrite Hle. reflexivity.
Qed.

End BreakdownFacts.

Module RebateFacts.
Import Book3 Book3Facts LiabilityFacts.

(** The liability as a function of the total taxable income. *)
Definition liability_of (total : Q) : Q :=
  let tax := fst (calculate_tax_slab total NEW_REGIME_SLABS) in
  let rebate := if Py.leb total TAX_REBATE_LIMIT
                then Qmin TAX_REBATE_AMOUNT tax else 0 in
  (tax - rebate) + (tax - rebate) * 0.04.

Lemma total_tax_liability_eq (income_heads : list (string * Q)) :
  total_tax_liability (calculate_tax_liability_enhanced income_heads)
  = liability_of
      (total_taxable_income (calculate_head_wise_taxable_income income_heads)).
Proof.
  unfold calculate_tax_liability_enhanced, liability_of.
  destruct (calculate_tax_slab _ NEW_REGIME_SLABS). reflexivity.
Qed.

Lemma tax_at_rebate_limit :
  fst (calculate_tax_slab 1200000 NEW_REGIME_SLABS) == 60000.
Proof. reflexivity. Qed.

Lemma liability_below (total : Q) :
  total <= 1200000 -> liability_of total == 0.
Proof.
  intros H. unfold liability_of, TAX_REBATE_LIMIT, TAX_REBATE_AMOUNT.
  pose proof (calculate_tax_slab_monotone _ _ H) as Hm.
  rewrite tax_at_rebate_limit in Hm.
  apply PyFacts.leb_le in H. rewrite H.
  rewrite Q.min_r by lra. lra.
Qed.

Lemma tax_above_limit (total : Q) :
  1200000 < total ->
  60000 <= fst (calculate_tax_slab total NEW_REGIME_SLABS).
Proof.
  intros H.
  assert (H' : 1200000 <= total) by lra.
  pose proof (calculate_tax_slab_monotone _ _ H') as Hm.
  rewrite tax_at_rebate_limit in Hm. exact Hm.
Qed.

Lemma liability_above (total : Q) :
  1200000 < total ->
  liability_of total == 1.04 * fst (calculate_tax_slab total NEW_REGIME_SLABS).
Proof.
  intros H. unfold liability_of, TAX_REBATE_LIMIT.
  apply PyFacts.leb_gt in H. rewrite H. lra.
Qed.

(** X3. The head-wise liability is zero exactly when the total taxable
    income is at most 1,200,000; above that limit no rebate is left, the
    liability is 1.04 times the slab tax and so at least 62,400.  There is
    no marginal relief: for a total taxable income up to 62,400 above the
    limit the liability is at least the income above the limit, so what is
    left after tax is not more than at the limit itself. *)
Theorem liability_zero_up_to_rebate_limit (income_heads : list (string * Q)) :
  let r := calculate_tax_liability_enhanced income_heads in
  let total := result_total_taxable_income r in
  (total_tax_liability r == 0 <-> total <= 1200000) /\
  (1200000 < total ->
   tax_rebate r == 0 /\
   total_tax_liability r == 1.04 * tax_before_rebate r /\
   62400 <= total_tax_liability r) /\
  (1200000 < total <= 1262400 ->
   total - total_tax_liability r <= 1200000).
Proof.
  intros r total.
  assert (Htotal : total
            = total_taxable_income (calculate_head_wise_taxable_income income_heads))
    by apply result_total_taxable_income_eq.
  assert (Hliab : total_tax_liability r = liability_of total).
  { unfold r. rewrite total_tax_liability_eq, Htotal. reflexivity. }
  assert (Htax : tax_before_rebate r
                 = fst (calculate_tax_slab total NEW_REGIME_SLABS)).
  { unfold r. rewrite tax_before_rebate_eq, Htotal. reflexivity. }
  assert (Habove : 1200000 < total ->
            total_tax_liability r == 1.04 * tax_before_rebate r /\
            62400 <= total_tax_liability r).
  { intros H. rewrite Hliab, Htax, (liability_above _ H).
    pose proof (tax_above_limit _ H). split; lra. }
  split; [|split].
  - split.
    + intros Hz. destruct (Qlt_le_dec 1200000 total) as [H|H]; [|exact H].
      destruct (Habove H). lra.
    + intros H. rewrite Hliab. now apply liability_below.
  - intros H. split; [|exact (Habove H)].
    unfold r, total, calculate_tax_liability_enhanced in *.
    destruct (calculate_tax_slab _ NEW_REGIME_SLABS). simpl in *.
    apply PyFacts.leb_gt in H. unfold TAX_REBATE_LIMIT. rewrite H. reflexivity.
  - intros [H1 H2]. destruct (Habove H1). lra.
Qed.

End RebateFacts.

Module MonotoneFacts.
Import Book3 Book3Facts LiabilityFacts RebateFacts.

(** Two income-heads mappings with the same heads in the same order, each
    gross income of the first at most the one of the second. *)
Definition pointwise_le (a b : list (string * Q)) : Prop :=
  Forall2 (fun x y => fst x = fst y /\ snd x <= snd y) a b.

Lemma spec_contribution_bounds (head : string) (gross : Q) :
  0 <= spec_contribution (head, gross) <= Qmax 0 gross.
Proof.
  unfold spec_contribution, spec_deduction.
  destruct (String.eqb head "capital_gains").
  { split; [lra|apply Q.le_max_l]. }
  destruct (Py.leb gross 0) eqn:Eg.
  { split; [lra|apply Q.le_max_l]. }
  apply PyFacts.leb_gt in Eg.
  rewrite (Q.max_r 0 gross) by lra.
  destruct (String.eqb head "salary").
  { destruct (Q.min_spec 75000 gross) as [[? Hm]|[? Hm]]; rewrite Hm;
      destruct (Q.max_spec 0 (gross - 75000)) as [[? Hx]|[? Hx]];
      destruct (Q.max_spec 0 (gross - gross)) as [[? Hy]|[? Hy]];
      try rewrite Hx; try rewrite Hy; lra. }
  destruct (String.eqb head "house_property").
  { destruct (Q.max_spec 0 (gross - gross * 0.30)) as [[? Hx]|[? Hx]];
      rewrite Hx; lra. }
  rewrite Q.max_r by lra. lra.
Qed.

Lemma spec_contribution_monotone (head : string) (x y : Q) :
  x <= y -> spec_contribution (head, x) <= spec_contribution (head, y).
Proof.
  intros Hxy.
  pose proof (spec_contribution_bounds head y) as [Hy0 _].
  unfold spec_contribution, spec_deduction in *.
  destruct (String.eqb head "capital_gains"); [lra|].
  destruct (Py.leb x 0) eqn:Ex; [exact Hy0|].
  apply PyFacts.leb_gt in Ex.
  destruct (Py.leb y 0) eqn:Ey; [apply PyFacts.leb_le in Ey; lra|].
  destruct (String.eqb head "salary").
  { destruct (Q.min_spec 75000 x) as [[? Hm]|[? Hm]]; rewrite Hm;
      destruct (Q.min_spec 75000 y) as [[? Hn]|[? Hn]]; rewrite Hn;
      apply Q.max_le_compat_l; lra. }
  destruct (String.eqb head "house_property").
  { apply Q.max_le_compat_l. lra. }
  apply Q.max_le_compat_l. lra.
Qed.

Lemma sum_contributions_monotone (a b : list (string * Q)) :
  pointwise_le a b ->
  Py.sum (map spec_contribution a) <= Py.sum (map spec_contribution b).
Proof.
  induction 1 as [|[h x] [h' y] a b [Hh Hxy] _ IH]; cbn [map].
  - lra.
  - simpl in Hh, Hxy. subst h'. rewrite !PyFacts.sum_cons.
    pose proof (spec_contribution_monotone h x y Hxy). lra.
Qed.

Lemma total_taxable_eq (income_heads : list (string * Q)) :
  total_taxable_income (calculate_head_wise_taxable_income income_heads)
  == Py.sum (map spec_contribution income_heads).
Proof.
  unfold calculate_head_wise_taxable_income.
  rewrite head_wise_fold_total. simpl. lra.
Qed.

Lemma liability_of_nonneg (x : Q) : 0 <= liability_of x.
Proof.
  destruct (Qlt_le_dec 1200000 x) as [H|H].
  - rewrite (liability_above _ H). pose proof (tax_nonneg x). lra.
  - rewrite (liability_below _ H). lra.
Qed.

Lemma liability_of_monotone (x y : Q) :
  x <= y -> liability_of x <= liability_of y.
Proof.
  intros Hxy. destruct (Qlt_le_dec 1200000 x) as [H|H].
  - rewrite (liability_above _ H), (liability_above y) by lra.
    pose proof (calculate_tax_slab_monotone _ _ Hxy). lra.
  - rewrite (liability_below _ H). apply liability_of_nonneg.
Qed.

(** X4. Raising the gross income of any head never lowers the total taxable
    income nor the total tax liability of the head-wise computation: both
    are monotone in every head's gross income. *)
Theorem liability_monotone_in_gross_income (a b : list (string * Q)) :
  pointwise_le a b ->
  result_total_taxable_income (calculate_tax_liability_enhanced a)
  <= result_total_taxable_income (calculate_tax_liability_enhanced b) /\
  total_tax_liability (calculate_tax_liability_enhanced a)
  <= total_tax_liability (calculate_tax_liability_enhanced b).
Proof.
  intros Hab.
  assert (Htot : total_taxable_income (calculate_head_wise_taxable_income a)
                 <= total_taxable_income (calculate_head_wise_taxable_income b)).
  { rewrite !total_taxable_eq. now apply sum_contributions_monotone. }
  rewrite !result_total_taxable_income_eq, !total_tax_liability_eq.
  split; [exact Htot|]. now apply liability_of_monotone.
Qed.

Lemma liability_monotone_in_gross_income_witness :
  pointwise_le [("salary"%string, 1300000); ("house_property"%string, 0)]
               [("salary"%string, 1300000); ("house_property"%string, 120000)] /\
  total_tax_liability
    (calculate_tax_liability_enhanced
       [("salary"%string, 1300000); ("house_property"%string, 0)])
  <= total_tax_liability
       (calculate_tax_liability_enhanced
          [("salary"%string, 1300000); ("house_property"%string, 120000)]).
Proof.
  assert (H : pointwise_le
                [("salary"%string, 1300000); ("house_property"%string, 0)]
                [("salary"%string, 1300000); ("house_property"%string, 120000)]).
  { repeat constructor; simpl; discriminate. }
  split; [exact H|].
  exact (proj2 (liability_monotone_in_gross_income _ _ H)).
Defined.

(** X5. For every income-heads mapping the total taxable income lies
    between 0 and the sum of the positive gross incomes, the liability is
    between 0 and 31.2% of the taxable income above 400,000, and when no
    gross income is negative and their sum is positive the effective tax
    rate is between 0 and 31.2 percent. *)
Theorem taxable_income_and_rate_bounds (income_heads : list (string * Q)) :
  let r := calculate_tax_liability_enhanced income_heads in
  0 <= result_total_taxable_income r
    <= Py.sum (map (fun item => Qmax 0 (snd item)) income_heads) /\
  0 <= total_tax_liability r
    <= 0.312 * Qmax 0 (result_total_taxable_income r - 400000) /\
  (Forall (fun item => 0 <= snd item) income_heads ->
   0 < total_gross_income r ->
   0 <= effective_tax_rate r <= 31.2).
Proof.
  intros r.
  assert (Htot : result_total_taxable_income r
                 == Py.sum (map spec_contribution income_heads)).
  { unfold r. rewrite result_total_taxable_income_eq. apply total_taxable_eq. }
  assert (Hsum : 0 <= Py.sum (map spec_contribution income_heads)
                   <= Py.sum (map (fun item => Qmax 0 (snd item)) income_heads)).
  { clear. induction income_heads as [|[h g] rest IH]; cbn [map].
    - rewrite !PyFacts.sum_nil. lra.
    - rewrite !PyFacts.sum_cons. cbn [snd].
      pose proof (spec_contribution_bounds h g). lra. }
  assert (Hliab : total_tax_liability r
                  = liability_of (result_total_taxable_income r)).
  { unfold r. rewrite total_tax_liability_eq, result_total_taxable_income_eq.
    reflexivity. }
  set (total := result_total_taxable_income r) in *.
  assert (Hbound : 0 <= total_tax_liability r <= 0.312 * Qmax 0 (total - 400000)).
  { rewrite Hliab. split; [apply liability_of_nonneg|].
    pose proof (tax_upper total) as Hup.
    destruct (Qlt_le_dec 1200000 total) as [H|H].
    - rewrite (liability_above _ H). lra.
    - rewrite (liability_below _ H).
      pose proof (Q.le_max_l 0 (total - 400000)). lra. }
  split; [lra|]. split; [exact Hbound|].
  intros Hnonneg Hgross.
  assert (Hvalues : Py.sum (map (fun item => Qmax 0 (snd item)) income_heads)
                    == total_gross_income r).
  { assert (Hg : total_gross_income r = Py.sum (Py.values income_heads)).
    { unfold r, calculate_tax_liability_enhanced.
      destruct (calculate_tax_slab _ NEW_REGIME_SLABS). reflexivity. }
    rewrite Hg. clear - Hnonneg. unfold Py.values.
    induction Hnonneg as [|[h g] rest Hg _ IH]; cbn [map].
    - reflexivity.
    - rewrite !PyFacts.sum_cons. cbn [snd] in *.
      rewrite Q.max_r by exact Hg. lra. }
  assert (Hrate : effective_tax_rate r
                  = total_tax_liability r / total_gross_income r * 100).
  { unfold r, calculate_tax_liability_enhanced in *.
    destruct (calculate_tax_slab _ NEW_REGIME_SLABS). cbn in *.
    apply PyFacts.ltb_lt in Hgross. rewrite Hgross. reflexivity. }
  rewrite Hrate.
  set (g := total_gross_income r) in *.
  set (t := total_tax_liability r) in *.
  assert (Hmax : Qmax 0 (total - 400000) <= g).
  { destruct (Q.max_spec 0 (total - 400000)) as [[? Hm]|[? Hm]]; rewrite Hm; lra. }
  assert (Hq : 0 <= t / g <= 0.312).
  { split.
    - apply Qle_shift_div_l; [exact Hgross|lra].
    - apply Qle_shift_div_r; [exact Hgross|lra]. }
  lra.
Qed.

End MonotoneFacts.

(** ** The income analysis by heads ([backend/book3.py]) *)

Module HeadAnalysisFacts.
Import Book3 Book3Facts.

Section Analysis.

Variable re_search : string -> string -> bool.

Abbreviation step := (analyze_income_step re_search).
Abbreviation analyze := (analyze_income_by_heads re_search).

(** The head a received record is classified under. *)
Definition head_of (txn : Txn.t) : string :=
  classify_transaction_by_section14 re_search
    (Txn.get_or (Txn.description txn) "") (NewFacts.amount_of txn) "received".

(** A record that is counted as income: amount, description and date are
    there and the type is [received]. *)
Definition income_record (txn : Txn.t) : bool :=
  match Txn.amount txn, Txn.description txn, Txn.created_at txn with
  | Txn.Amount _, Some _, Some _ => String.eqb (NewFacts.type_of txn) "received"
  | _, _, _ => false
  end.

Definition credited_to (head : string) (txn : Txn.t) : bool :=
  income_record txn && String.eqb (head_of txn) head.

Definition expense_record (txn : Txn.t) : bool :=
  NewFacts.classified txn
  && Py.mem (NewFacts.type_of txn) ["sent"; "expense"]%string.

(** A record whose amount is added to [tds_deducted]. *)
Definition tds_record (txn : Txn.t) : bool :=
  NewFacts.classified txn
  && (Py.contains "tds" (NewFacts.desc_lower_of txn)
      || Py.contains "tax deducted" (NewFacts.desc_lower_of txn))
  && (negb (String.eqb (NewFacts.type_of txn) "received")
      || match Txn.created_at txn with Some _ => true | None => false end).

Definition entry_of (txn : Txn.t) : head_entry :=
  mk_head_entry (Txn.get_or (Txn.created_at txn) "")
    (Txn.get_or (Txn.description txn) "") (NewFacts.amount_of txn).

Definition amounts (keep : Txn.t -> bool) (txns : list Txn.t) : Q :=
  Py.sum (map NewFacts.amount_of (filter keep txns)).

Lemma classify_heads_in table desc head :
  classify_heads re_search table desc = Some head -> In head (Py.keys table).
Proof.
  induction table as [|[h [kw pats]] rest IH]; simpl; [discriminate|].
  destruct (Py.any_in kw desc); [intros [= ->]; now left|].
  destruct (existsb _ pats); [intros [= ->]; now left|].
  intros H. right. now apply IH.
Qed.

Lemma head_of_in_HEADS (txn : Txn.t) : In (head_of txn) HEADS.
Proof.
  unfold head_of, classify_transaction_by_section14.
  destruct (classify_heads _ _ _) eqn:E.
  - apply classify_heads_in in E. exact E.
  - simpl. tauto.
Qed.

Lemma get_of_key {V : Type} (k : string) (d : list (string * V)) :
  In k (Py.keys d) -> exists v, Py.get k d = Some v.
Proof.
  intros Hin. destruct (Py.get k d) eqn:G; [eauto|].
  apply PyFacts.get_none_not_in in G. contradiction.
Qed.

Lemma keys_set_present {V : Type} (k : string) (v : V) (d : list (string * V)) :
  In k (Py.keys d) -> Py.keys (Py.set k v d) = Py.keys d.
Proof.
  intros Hin. rewrite PyFacts.keys_set. unfold Py.has.
  destruct (get_of_key k d Hin) as [v' ->]. reflexivity.
Qed.

Lemma keys_add_present (k : string) (x : Q) (d : list (string * Q)) :
  In k (Py.keys d) -> Py.keys (Py.add k x d) = Py.keys d.
Proof.
  intros Hin. unfold Py.add. destruct (Py.get k d); now apply keys_set_present.
Qed.

Lemma track_tds_fields desc amount st :
  income_heads (track_tds desc amount st) = income_heads st /\
  head_totals (track_tds desc amount st) = head_totals st /\
  total_expenses (track_tds desc amount st) = total_expenses st /\
  tds_deducted (track_tds desc amount st)
  = if Py.contains "tds" (Py.lower desc)
       || Py.contains "tax deducted" (Py.lower desc)
    then tds_deducted st + amount else tds_deducted st.
Proof. unfold track_tds. destruct (_ || _); simpl; auto. Qed.

(** The state after one record, field by field. *)
Lemma step_fields (st : head_analysis) (txn : Txn.t) :
  Py.keys (income_heads st) = HEADS ->
  head_totals (step st txn)
  = (if income_record txn
     then Py.add (head_of txn) (NewFacts.amount_of txn) (head_totals st)
     else head_totals st) /\
  income_heads (step st txn)
  = (if income_record txn
     then Py.set (head_of txn)
            (match Py.get (head_of txn) (income_heads st) with
             | Some entries => entries | None => []
             end ++ [entry_of txn])
            (income_heads st)
     else income_heads st) /\
  total_expenses (step st txn)
  = (if expense_record txn then total_expenses st + NewFacts.amount_of txn
     else total_expenses st) /\
  tds_deducted (step st txn)
  = (if tds_record txn then tds_deducted st + NewFacts.amount_of txn
     else tds_deducted st).
Proof.
  intros Hkeys.
  pose proof (head_of_in_HEADS txn) as Hhead. rewrite <- Hkeys in Hhead.
  destruct (get_of_key _ _ Hhead) as [entries Hget].
  unfold analyze_income_step, income_record, expense_record, tds_record,
    entry_of, head_of, NewFacts.classified, NewFacts.amount_of,
    NewFacts.type_of, NewFacts.desc_lower_of in *.
  destruct txn as [[| |amount] [desc|] ty cat created]; cbn [Txn.amount
    Txn.description Txn.type Txn.category Txn.created_at Txn.get_or] in *;
    try (repeat split; reflexivity).
  destruct (String.eqb (Txn.get_or ty "") "received") eqn:Ety.
  - assert (Hmem : Py.mem (Txn.get_or ty "") ["sent"; "expense"]%string = false).
      { apply String.eqb_eq in Ety. rewrite Ety. reflexivity. }
      rewrite Hmem, Hget. cbn [negb orb andb].
      apply String.eqb_eq in Ety. rewrite Ety in *. rewrite Hget.
      destruct created as [created|].
      * destruct (track_tds_fields desc amount
          {| income_heads :=
               Py.set
                 (classify_transaction_by_section14 re_search desc amount "received")
                 (entries ++ [mk_head_entry created desc amount])
                 (income_heads st);
             head_totals :=
               Py.add
                 (classify_transaction_by_section14 re_search desc amount "received")
                 amount (head_totals st);
             total_expenses := total_expenses st;
             tds_deducted := tds_deducted st |}) as (H1 & H2 & H3 & H4).
        rewrite H1, H2, H3, H4. cbn.
        rewrite andb_true_r. repeat split; reflexivity.
      * rewrite andb_false_r. repeat split; reflexivity.
  - cbn [negb orb andb]. rewrite andb_true_r.
    assert (Hinc : match created with Some _ => false | None => false end = false)
      by (destruct created; reflexivity).
    rewrite Hinc.
      destruct (Py.mem (Txn.get_or ty "") ["sent"; "expense"]%string).
      * destruct (track_tds_fields desc amount
          {| income_heads := income_heads st;
             head_totals := head_totals st;
             total_expenses := total_expenses st + amount;
             tds_deducted := tds_deducted st |}) as (H1 & H2 & H3 & H4).
        rewrite H1, H2, H3, H4. cbn. repeat split; reflexivity.
      * destruct (track_tds_fields desc amount st) as (H1 & H2 & H3 & H4).
        rewrite H1, H2, H3, H4. repeat split; reflexivity.
Qed.

Lemma amounts_cons keep txn txns :
  amounts keep (txn :: txns)
  == (if keep txn then NewFacts.amount_of txn else 0) + amounts keep txns.
Proof.
  unfold amounts. cbn [filter]. destruct (keep txn); cbn [map].
  - apply PyFacts.sum_cons.
  - lra.
Qed.

Lemma amounts_nil keep : amounts keep [] == 0.
Proof. reflexivity. Qed.

Lemma step_keys (st : head_analysis) (txn : Txn.t) :
  Py.keys (income_heads st) = HEADS -> Py.keys (head_totals st) = HEADS ->
  Py.keys (income_heads (step st txn)) = HEADS /\
  Py.keys (head_totals (step st txn)) = HEADS.
Proof.
  intros Hk Ht. destruct (step_fields st txn Hk) as (H1 & H2 & _).
  rewrite H1, H2. pose proof (head_of_in_HEADS txn) as Hin.
  destruct (income_record txn); [|tauto]. split.
  - rewrite keys_set_present; [exact Hk | now rewrite Hk].
  - rewrite keys_add_present; [exact Ht | now rewrite Ht].
Qed.

(** The state after the loop, from any state with the five heads. *)
Lemma fold_fields (txns : list Txn.t) (st : head_analysis) :
  Py.keys (income_heads st) = HEADS -> Py.keys (head_totals st) = HEADS ->
  let st' := fold_left step txns st in
  (Py.keys (income_heads st') = HEADS /\ Py.keys (head_totals st') = HEADS) /\
  (forall head,
      Py.get0 head (head_totals st')
      == Py.get0 head (head_totals st) + amounts (credited_to head) txns) /\
  (forall head entries,
      Py.get head (income_heads st) = Some entries ->
      Py.get head (income_heads st')
      = Some (entries ++ map entry_of (filter (credited_to head) txns))) /\
  Py.sum (Py.values (head_totals st'))
  == Py.sum (Py.values (head_totals st)) + amounts income_record txns /\
  total_expenses st' == total_expenses st + amounts expense_record txns /\
  tds_deducted st' == tds_deducted st + amounts tds_record txns.
Proof.
  revert st. induction txns as [|txn txns IH]; intros st Hk Ht; cbn [fold_left].
  - cbn zeta. split; [tauto|].
    split; [intros; rewrite amounts_nil; lra|].
    split; [intros head entries ->; cbn [filter map]; now rewrite app_nil_r|].
    rewrite !amounts_nil. repeat split; lra.
  - destruct (step_keys st txn Hk Ht) as [Hk' Ht'].
    destruct (IH (step st txn) Hk' Ht') as (Hkeys & Htot & Hent & Hsum & Hexp & Htds).
    destruct (step_fields st txn Hk) as (F1 & F2 & F3 & F4).
    cbn zeta. split; [exact Hkeys|]. split; [|split; [|split; [|split]]].
    + intros head. rewrite Htot, F1, amounts_cons.
      change (credited_to head txn)
        with (income_record txn && String.eqb (head_of txn) head).
      destruct (income_record txn); cbn [andb].
      * rewrite NewFacts.get0_add, (String.eqb_sym head). lra.
      * lra.
    + intros head entries Hget. cbn [filter].
      change (credited_to head txn)
        with (income_record txn && String.eqb (head_of txn) head).
      destruct (income_record txn) eqn:Einc; cbn [andb].
      * destruct (String.eqb (head_of txn) head) eqn:Eh.
        -- apply String.eqb_eq in Eh.
           rewrite (Hent head (entries ++ [entry_of txn])).
           ++ cbn [map]. now rewrite <- app_assoc.
           ++ rewrite F2, Eh, Hget. apply PyFacts.get_set_same.
        -- apply String.eqb_neq in Eh.
           apply Hent. rewrite F2.
           rewrite PyFacts.get_set_other by congruence. exact Hget.
      * apply Hent. rewrite F2. exact Hget.
    + rewrite Hsum, F1, amounts_cons.
      destruct (income_record txn); [rewrite NewFacts.sum_values_add|]; lra.
    + rewrite Hexp, F3, amounts_cons. destruct (expense_record txn); lra.
    + rewrite Htds, F4, amounts_cons. destruct (tds_record txn); lra.
Qed.

(** X6. The income analysis keeps exactly the five heads.  Each head's total
    is the sum of the amounts of the income records (received, with amount,
    description and date) classified under it, and its entry list holds
    those records in batch order; the head totals add up to the sum of all
    income records, the expenses to the sum of the sent and expense
    records, and the TDS to the sum of the records that mention it. *)
Theorem analyze_income_by_heads_accounts (transactions : list Txn.t) :
  let a := analyze transactions in
  Py.keys (income_heads a) = HEADS /\
  Py.keys (head_totals a) = HEADS /\
  (forall head,
      Py.get0 head (head_totals a) == amounts (credited_to head) transactions) /\
  (forall head,
      In head HEADS ->
      Py.get head (income_heads a)
      = Some (map entry_of (filter (credited_to head) transactions))) /\
  Py.sum (Py.values (head_totals a)) == amounts income_record transactions /\
  total_expenses a == amounts expense_record transactions /\
  tds_deducted a == amounts tds_record transactions.
Proof.
  intros a.
  destruct (fold_fields transactions initial_head_analysis eq_refl eq_refl)
    as ((Hk & Ht) & Htot & Hent & Hsum & Hexp & Htds).
  fold (analyze transactions) in Hk, Ht, Htot, Hent, Hsum, Hexp, Htds.
  fold a in Hk, Ht, Htot, Hent, Hsum, Hexp, Htds.
  split; [exact Hk|]. split; [exact Ht|]. split; [|split; [|split; [|split]]].
  - intros head. rewrite Htot.
    assert (Hz : Py.get0 head (head_totals initial_head_analysis) == 0).
    { unfold Py.get0. cbn.
      repeat (destruct (String.eqb head _); [reflexivity|]). reflexivity. }
    lra.
  - intros head Hin. apply (Hent head []).
    cbn in Hin. decompose [or] Hin; subst; try reflexivity. contradiction.
  - rewrite Hsum. assert (Hz : Py.sum (Py.values (head_totals initial_head_analysis)) == 0)
      by reflexivity. lra.
  - rewrite Hexp. cbn. lra.
  - rewrite Htds. cbn. lra.
Qed.

(** The head totals are those of the income records alone. *)
Lemma head_totals_filter (txns : list Txn.t) (st : head_analysis) :
  Py.keys (income_heads st) = HEADS -> Py.keys (head_totals st) = HEADS ->
  forall st2,
    Py.keys (income_heads st2) = HEADS -> Py.keys (head_totals st2) = HEADS ->
    head_totals st2 = head_totals st ->
    head_totals (fold_left step (filter income_record txns) st2)
    = head_totals (fold_left step txns st).
Proof.
  revert st. induction txns as [|txn txns IH];
    intros st Hk Ht st2 Hk2 Ht2 Heq; cbn [fold_left filter].
  - exact Heq.
  - destruct (step_keys st txn Hk Ht) as [Hk' Ht'].
    destruct (step_fields st txn Hk) as (F1 & _).
    destruct (income_record txn) eqn:Einc.
    + cbn [fold_left].
      destruct (step_keys st2 txn Hk2 Ht2) as [Hk2' Ht2'].
      destruct (step_fields st2 txn Hk2) as (G1 & _).
      apply (IH _ Hk' Ht' _ Hk2' Ht2').
      rewrite F1, G1, Einc, Heq. reflexivity.
    + apply (IH _ Hk' Ht' _ Hk2 Ht2). rewrite F1, Heq. reflexivity.
Qed.

(** X7. The tax report computed from an analysis depends on the income
    records only: expenses, records without amount, description or date and
    records of other types never change it.  Its total gross income is the
    sum of the income records, and the head totals have unique keys. *)
Theorem tax_from_analysis_uses_income_records (transactions : list Txn.t) :
  let heads := head_totals (analyze transactions) in
  calculate_tax_liability_enhanced heads
  = calculate_tax_liability_enhanced
      (head_totals (analyze (filter income_record transactions))) /\
  total_gross_income (calculate_tax_liability_enhanced heads)
  == amounts income_record transactions /\
  NoDup (Py.keys heads).
Proof.
  intros heads.
  destruct (fold_fields transactions initial_head_analysis eq_refl eq_refl)
    as ((Hk & Ht) & _ & _ & Hsum & _).
  fold (analyze transactions) in Hk, Ht, Hsum. fold heads in Ht, Hsum.
  split; [|split].
  - f_equal. unfold heads, analyze_income_by_heads. symmetry.
    now apply (head_totals_filter transactions initial_head_analysis).
  - assert (Hg : total_gross_income (calculate_tax_liability_enhanced heads)
                 = Py.sum (Py.values heads)).
    { unfold calculate_tax_liability_enhanced.
      destruct (calculate_tax_slab _ NEW_REGIME_SLABS). reflexivity. }
    rewrite Hg, Hsum.
    assert (Hz : Py.sum (Py.values (head_totals initial_head_analysis)) == 0)
      by reflexivity. lra.
  - rewrite Ht. unfold HEADS.
    repeat (constructor; [cbn; intuition discriminate|]). constructor.
Qed.

End Analysis.
End HeadAnalysisFacts.

(** ** More on the flat regime comparison ([backend/book1.py]) *)

Module RegimeFacts.
Import Book1 Book1Facts.

(** The new-regime tax as progressive slabs of 300,000. *)
Definition spec_new_regime_slabs (taxable : Q) : Q :=
  0.05 * band taxable 300000 600000
  + 0.10 * band taxable 600000 900000
  + 0.15 * band taxable 900000 1200000
  + 0.20 * band taxable 1200000 1500000
  + 0.30 * Qmax 0 (taxable - 1500000).

Lemma Qmin_cases (x y : Q) :
  (x <= y /\ Qmin x y = x) \/ (y < x /\ Qmin x y = y).
Proof.
  unfold Qmin, GenericMinMax.gmin.
  destruct (Qcompare_spec x y) as [H|H|H].
  - left. split; [lra|reflexivity].
  - left. split; [lra|reflexivity].
  - right. split; [lra|reflexivity].
Qed.

(** Decide the tests of the loop from the hypotheses on the income, and
    split on the ones they leave open. *)
Ltac decide_tests :=
  repeat (cbv beta iota zeta;
          match goal with
          | |- context [Qmin ?a ?b] =>
              let H := fresh in
              destruct (Qmin_cases a b) as [[? H]|[? H]];
              [ first [ exfalso; lra | rewrite H; clear H ]
              | first [ exfalso; lra | rewrite H; clear H ] ]
          | |- context [Py.leb ?a ?b] =>
              let H := fresh in
              first
                [ assert (H : Py.leb a b = true) by (apply PyFacts.leb_le; lra);
                  rewrite H; clear H
                | assert (H : Py.leb a b = false) by (apply PyFacts.leb_gt; lra);
                  rewrite H; clear H
                | destruct (Py.leb a b) eqn:H;
                  [apply PyFacts.leb_le in H | apply PyFacts.leb_gt in H] ]
          | |- context [Py.ltb ?a ?b] =>
              let H := fresh in
              first
                [ assert (H : Py.ltb a b = true) by (apply PyFacts.ltb_lt; lra);
                  rewrite H; clear H
                | assert (H : Py.ltb a b = false) by (apply PyFacts.ltb_ge; lra);
                  rewrite H; clear H
                | destruct (Py.ltb a b) eqn:H;
                  [apply PyFacts.ltb_lt in H | apply PyFacts.ltb_ge in H] ]
          end);
  cbv beta iota zeta.

Lemma new_regime_closed_form (taxable : Q) :
  calculate_new_regime_tax taxable == spec_new_regime_slabs taxable.
Proof.
  unfold calculate_new_regime_tax, new_regime_slabs, new_regime_loop,
    spec_new_regime_slabs, band.
  destruct (Qlt_le_dec taxable 0) as [H0|H0].
  { decide_tests. case_minmax; lra. }
  destruct (Qlt_le_dec 300000 taxable) as [H1|H1].
  2:{ decide_tests; case_minmax; lra. }
  destruct (Qlt_le_dec 600000 taxable) as [H2|H2].
  2:{ decide_tests; case_minmax; lra. }
  destruct (Qlt_le_dec 900000 taxable) as [H3|H3].
  2:{ decide_tests; case_minmax; lra. }
  destruct (Qlt_le_dec 1200000 taxable) as [H4|H4].
  2:{ decide_tests; case_minmax; lra. }
  destruct (Qlt_le_dec 1500000 taxable) as [H5|H5].
  2:{ decide_tests; case_minmax; lra. }
  decide_tests; case_minmax; lra.
Qed.

Lemma Qmax_cases (x y : Q) :
  (x < y /\ Qmax x y = y) \/ (y <= x /\ Qmax x y = x).
Proof.
  unfold Qmax, GenericMinMax.gmax.
  destruct (Qcompare_spec x y) as [H|H|H].
  - right. split; [lra|reflexivity].
  - left. split; [lra|reflexivity].
  - right. split; [lra|reflexivity].
Qed.

Ltac decide_max :=
  repeat match goal with
         | |- context [Qmax ?a ?b] =>
             let H := fresh in
             destruct (Qmax_cases a b) as [[? H]|[? H]];
             [ first [ exfalso; lra | rewrite H; clear H ]
             | first [ exfalso; lra | rewrite H; clear H ] ]
         end.

(** X8. The new-regime tax of the flat comparison is the progressive slab
    tax: nothing up to 300,000, then 5%, 10%, 15% and 20% on the next four
    bands of 300,000 and 30% above 1,500,000.  In particular it is 0 up to
    300,000 and 150,000 plus 30% of the excess from 1,500,000 on. *)
Theorem new_regime_progressive_slabs (taxable : Q) :
  calculate_new_regime_tax taxable == spec_new_regime_slabs taxable /\
  (taxable <= 300000 -> calculate_new_regime_tax taxable == 0) /\
  (1500000 <= taxable ->
   calculate_new_regime_tax taxable == 150000 + 0.30 * (taxable - 1500000)).
Proof.
  split; [apply new_regime_closed_form|]. split.
  - intros H. rewrite new_regime_closed_form.
    unfold spec_new_regime_slabs, band. decide_tests; decide_max; lra.
  - intros H. rewrite new_regime_closed_form.
    unfold spec_new_regime_slabs, band. decide_tests; decide_max; lra.
Qed.

(** Above 700,000 the old regime is the dearer one. *)
Lemma new_regime_below_old (taxable : Q) :
  700000 < taxable ->
  calculate_new_regime_tax taxable < calculate_old_regime_tax taxable.
Proof.
  intros H7.
  rewrite new_regime_closed_form, old_regime_follows_slabs.
  unfold spec_new_regime_slabs, spec_old_regime_slabs, band.
  destruct (Qlt_le_dec 900000 taxable) as [H1|H1].
  2:{ decide_tests; decide_max; lra. }
  destruct (Qlt_le_dec 1000000 taxable) as [H2|H2].
  2:{ decide_tests; decide_max; lra. }
  destruct (Qlt_le_dec 1200000 taxable) as [H3|H3].
  2:{ decide_tests; decide_max; lra. }
  destruct (Qlt_le_dec 1500000 taxable) as [H4|H4].
  2:{ decide_tests; decide_max; lra. }
  decide_tests; decide_max; lra.
Qed.

Lemma new_regime_nonneg (taxable : Q) : 0 <= calculate_new_regime_tax taxable.
Proof.
  destruct (Qlt_le_dec taxable 0) as [H|H].
  - rewrite new_regime_closed_form.
    unfold spec_new_regime_slabs, band. decide_tests; decide_max; lra.
  - assert (H0 : calculate_new_regime_tax 0 == 0) by reflexivity.
    pose proof (new_regime_monotone 0 taxable H). lra.
Qed.

(** X9. The flat comparison selects the old regime exactly when the taxable
    income is at most 700,000, and then its estimate is 0 whatever the
    new-regime tax is; above 700,000 the new-regime tax is strictly smaller
    than the old-regime tax, the new regime is selected and the estimate is
    the new-regime tax.  The reported final estimate differs from the
    estimate by at most half a paisa. *)
Theorem regime_selection_threshold (a : analysis) :
  let s := calculate_full_year_tax_optimized a in
  (selected_regime s = Old <-> taxable_income s <= 700000) /\
  (taxable_income s <= 700000 ->
   tax_old s == 0 /\ estimated_tax s == 0 /\ final_estimated_tax s == 0) /\
  (700000 < taxable_income s ->
   selected_regime s = New /\ tax_new s < tax_old s /\
   estimated_tax s == calculate_new_regime_tax (taxable_income s)) /\
  Qabs (final_estimated_tax s - estimated_tax s) <= 1 # 200.
Proof.
  intros s. unfold s, calculate_full_year_tax_optimized.
  cbn [selected_regime taxable_income tax_old tax_new estimated_tax
       final_estimated_tax].
  set (taxable := Qmax 0 _).
  pose proof (new_regime_nonneg taxable) as Hnn.
  assert (Hlow : taxable <= 700000 ->
            (if Py.leb (if Py.leb taxable 700000 then 0
                        else calculate_old_regime_tax taxable)
                  (calculate_new_regime_tax taxable)
             then Old else New) = Old /\
            Qmin (if Py.leb taxable 700000 then 0
                  else calculate_old_regime_tax taxable)
              (calculate_new_regime_tax taxable) == 0).
  { intros H. apply PyFacts.leb_le in H. rewrite H.
    apply PyFacts.leb_le in Hnn. rewrite Hnn.
    split; [reflexivity|]. apply Q.min_l. now apply PyFacts.leb_le. }
  assert (Hhigh : 700000 < taxable ->
            (if Py.leb (if Py.leb taxable 700000 then 0
                        else calculate_old_regime_tax taxable)
                  (calculate_new_regime_tax taxable)
             then Old else New) = New /\
            Qmin (if Py.leb taxable 700000 then 0
                  else calculate_old_regime_tax taxable)
              (calculate_new_regime_tax taxable)
            == calculate_new_regime_tax taxable).
  { intros H. pose proof (new_regime_below_old taxable H) as Hlt.
    apply PyFacts.leb_gt in H. rewrite H.
    pose proof Hlt as Hlt'. apply PyFacts.leb_gt in Hlt'. rewrite Hlt'.
    split; [reflexivity|]. apply Q.min_r. lra. }
  split; [|split; [|split]].
  - split.
    + intros Hold. destruct (Qlt_le_dec 700000 taxable) as [H|H]; [|exact H].
      destruct (Hhigh H) as [Hnew _]. congruence.
    + intros H. exact (proj1 (Hlow H)).
  - intros H. destruct (Hlow H) as [_ Hmin].
    split; [|split; [exact Hmin|]].
    + apply PyFacts.leb_le in H. rewrite H. reflexivity.
    + assert (Hr0 : Py.round2 0 == 0) by reflexivity.
      apply Qle_antisym.
      * apply Qle_trans with (Py.round2 0);
          [apply RoundFacts.round2_monotone; lra | lra].
      * apply Qle_trans with (Py.round2 0);
          [lra | apply RoundFacts.round2_monotone; lra].
  - intros H. destruct (Hhigh H) as [Hnew Hmin].
    split; [exact Hnew|]. split; [|exact Hmin].
    pose proof (new_regime_below_old taxable H) as Hlt.
    apply PyFacts.leb_gt in H. rewrite H. exact Hlt.
  - apply Qabs_Qle_condition.
    pose proof (RoundFacts.round2_error
                  (Qmin (if Py.leb taxable 700000 then 0
                         else calculate_old_regime_tax taxable)
                     (calculate_new_regime_tax taxable))).
    lra.
Qed.

End RegimeFacts.

(** ** The standard schedule in closed form ([backend/loan.py]) *)

Module AmortizationFacts.
Import Loan ScheduleFacts.

(** The balance at which the interest of a month equals the instalment. *)
Definition alpha : Q := standard_emi / monthly_rate.

(** What is missing from [alpha] after [k] instalments. *)
Definition gap (k : nat) : Q := alpha / (403 # 400) ^ Z.of_nat (60 - k).

Lemma standard_emi_alpha : standard_emi == (3 # 400) * alpha.
Proof. vm_compute. reflexivity. Qed.

Lemma alpha_positive : 0 < alpha.
Proof. vm_compute. reflexivity. Qed.

Lemma gap_start : LOAN_AMOUNT == alpha - gap 0.
Proof. vm_compute. reflexivity. Qed.

Lemma gap_end : gap 60 == alpha.
Proof. vm_compute. reflexivity. Qed.

Lemma gap_step (k : nat) : (k < 60)%nat -> gap (S k) == (403 # 400) * gap k.
Proof.
  intros Hk. unfold gap.
  replace (Z.of_nat (60 - k)) with (Z.of_nat (60 - S k) + 1)%Z by lia.
  rewrite Qpower_plus by discriminate.
  assert (Hpos : 0 < (403 # 400) ^ Z.of_nat (60 - S k)).
  { apply Qpower_0_lt. reflexivity. }
  change ((403 # 400) ^ 1) with (403 # 400).
  field; repeat split; try discriminate; lra.
Qed.

Lemma gap_positive (k : nat) : 0 < gap k.
Proof.
  unfold gap.
  assert (Hpos : 0 < (403 # 400) ^ Z.of_nat (60 - k)).
  { apply Qpower_0_lt. reflexivity. }
  apply Qlt_shift_div_l; [exact Hpos|]. pose proof alpha_positive. lra.
Qed.

Lemma gap_monotone (k : nat) : (k < 60)%nat -> gap k <= gap (S k).
Proof.
  intros Hk. rewrite (gap_step k Hk). pose proof (gap_positive k). lra.
Qed.

Lemma gap_le (k j : nat) : (k <= j <= 60)%nat -> gap k <= gap j.
Proof.
  induction j as [|j IH]; intros H.
  - assert (k = 0)%nat by lia. subst. lra.
  - destruct (Nat.eq_dec k (S j)) as [->|Hne]; [lra|].
    pose proof (gap_monotone j ltac:(lia)). specialize (IH ltac:(lia)). lra.
Qed.

Lemma gap_at_most_58 (k : nat) : (k <= 58)%nat -> gap k <= gap 58.
Proof. intros Hk. apply gap_le. lia. Qed.

Lemma gap_at_least_0 (k : nat) : (k <= 60)%nat -> gap 0 <= gap k.
Proof. intros Hk. apply gap_le. lia. Qed.

Lemma gap_at_most_alpha (k : nat) : (k <= 60)%nat -> gap k <= alpha.
Proof. intros Hk. rewrite <- gap_end. apply gap_le. lia. Qed.

Lemma round2_compat (x y : Q) : x == y -> Py.round2 x == Py.round2 y.
Proof.
  intros H. apply Qle_antisym; apply RoundFacts.round2_monotone; lra.
Qed.

(** The state after [k] instalments of the schedule without extra payment. *)
Definition at_turn (k : nat) (st : loop_state) : Prop :=
  balance st == alpha - gap k /\ emi st = standard_emi /\
  months_processed st = Z.of_nat k.

Abbreviation step := (schedule_step monthly_rate 0).

(** What a row of the standard schedule shows. *)
Definition regular_row (r : schedule_row) : Prop :=
  EMI r == Py.round2 standard_emi /\ 0 < Principal r /\ 0 <= Interest r /\
  Qabs (Principal r + Interest r - EMI r) <= 3 # 200.

Lemma step_opening (st : loop_state) :
  Beginning_Balance (fst (step st)) = Py.round2 (balance st).
Proof.
  destruct (Py.ltb (balance st) (emi st)) eqn:E.
  - now rewrite (step_last 0 st E).
  - now rewrite (step_full 0 st E).
Qed.

Lemma alpha_bounds : 3000000 < alpha < 4000000.
Proof. split; vm_compute; reflexivity. Qed.

Lemma full_turn (k : nat) (st : loop_state) :
  (k <= 58)%nat -> at_turn k st ->
  0 < balance st /\ (months_processed st < months)%Z /\
  regular_row (fst (step st)) /\ at_turn (S k) (snd (step st)).
Proof.
  intros Hk (Hb & He & Hm).
  pose proof (gap_at_most_58 k Hk) as H58.
  pose proof (gap_step 58 ltac:(lia)) as H59.
  pose proof (gap_step 59 ltac:(lia)) as H60.
  pose proof gap_end as Hend.
  pose proof (gap_step k ltac:(lia)) as Hnext.
  pose proof (gap_positive k) as Hpos.
  pose proof (gap_at_least_0 k ltac:(lia)) as Hlow.
  pose proof gap_start as Hstart.
  assert (HP : LOAN_AMOUNT == 1200000) by reflexivity.
  pose proof standard_emi_alpha as Halpha.
  pose proof alpha_bounds as [Ha1 Ha2].
  assert (Hr : balance st * monthly_rate == balance st * (3 # 400)).
  { now rewrite monthly_rate_value. }
  assert (Hfull : Py.ltb (balance st) (emi st) = false).
  { apply PyFacts.ltb_ge. rewrite He. lra. }
  rewrite (step_full 0 st Hfull).
  cbn [fst snd EMI Principal Interest balance emi months_processed].
  split; [lra|]. split; [rewrite Hm; unfold months, LOAN_YEARS; lia|].
  split; [|split; [|split]].
  - unfold regular_row. cbn [EMI Principal Interest].
    pose proof (RoundFacts.round2_error (emi st - balance st * monthly_rate)).
    pose proof (RoundFacts.round2_error (balance st * monthly_rate)).
    pose proof (RoundFacts.round2_error (emi st)).
    rewrite He in *.
    assert (Hi : 0 <= Py.round2 (balance st * monthly_rate)).
    { apply Qle_trans with (Py.round2 0); [discriminate|].
      apply RoundFacts.round2_monotone; lra. }
    split; [reflexivity|]. split; [lra|]. split; [exact Hi|].
    apply Qabs_Qle_condition. lra.
  - cbn [balance]. rewrite carry_without_extra by reflexivity. rewrite He. lra.
  - cbn [emi]. exact He.
  - cbn [months_processed]. rewrite Hm. lia.
Qed.

Lemma last_turn (st : loop_state) :
  at_turn 59 st ->
  0 < balance st /\ (months_processed st < months)%Z /\
  regular_row (fst (step st)) /\ Ending_Balance (fst (step st)) == 0.
Proof.
  intros (Hb & He & Hm).
  pose proof (gap_step 59 ltac:(lia)) as H60.
  pose proof gap_end as Hend.
  pose proof standard_emi_alpha as Halpha.
  pose proof alpha_bounds as [Ha1 Ha2].
  assert (Hr : balance st * monthly_rate == balance st * (3 # 400)).
  { now rewrite monthly_rate_value. }
  assert (Hlast : Py.ltb (balance st) (emi st) = true).
  { apply PyFacts.ltb_lt. rewrite He. lra. }
  rewrite (step_last 0 st Hlast).
  cbn [fst snd EMI Principal Interest Ending_Balance].
  split; [lra|]. split; [rewrite Hm; unfold months, LOAN_YEARS; lia|].
  split.
  - unfold regular_row. cbn [EMI Principal Interest].
    pose proof (RoundFacts.round2_error (balance st)).
    pose proof (RoundFacts.round2_error (balance st * monthly_rate)).
    pose proof (RoundFacts.round2_error (balance st + balance st * monthly_rate)).
    assert (Hi : 0 <= Py.round2 (balance st * monthly_rate)).
    { apply Qle_trans with (Py.round2 0); [discriminate|].
      apply RoundFacts.round2_monotone; lra. }
    split; [apply round2_compat; lra|]. split; [lra|]. split; [exact Hi|].
    apply Qabs_Qle_condition. lra.
  - assert (Hz : Py.round2 0 == 0) by reflexivity.
    rewrite <- Hz. apply round2_compat. lra.
Qed.

Lemma standard_rows (n : nat) (st : loop_state) :
  (n <= 59)%nat -> at_turn (59 - n) st ->
  exists first rest,
    schedule_loop (S n) monthly_rate 0 months st = first :: rest /\
    List.length rest = n /\
    Beginning_Balance first = Py.round2 (balance st) /\
    Forall regular_row (first :: rest) /\
    Ending_Balance (last (first :: rest) first) == 0.
Proof.
  revert st. induction n as [|n IH]; intros st Hn Hat.
  - destruct (last_turn st Hat) as (Hpos & Hm & Hrow & Hend).
    rewrite (loop_unroll 0 0 st Hpos Hm). cbn [schedule_loop].
    do 2 eexists. split; [reflexivity|]. split; [reflexivity|].
    split; [apply step_opening|].
    split; [constructor; [exact Hrow|constructor]|]. exact Hend.
  - destruct (full_turn (59 - S n) st ltac:(lia) Hat) as (Hpos & Hm & Hrow & Hnext).
    replace (S (59 - S n)) with (59 - n)%nat in Hnext by lia.
    destruct (IH _ ltac:(lia) Hnext)
      as (first & rest & Hrows & Hlen & _ & Hall & Hend).
    rewrite (loop_unroll 0 (S n) st Hpos Hm), Hrows.
    do 2 eexists. split; [reflexivity|].
    split; [simpl; now rewrite Hlen|].
    split; [apply step_opening|].
    split; [constructor; [exact Hrow|exact Hall]|].
    change (Ending_Balance (last (first :: rest) (fst (step st))) == 0).
    rewrite (last_cons_default rest first _ first). exact Hend.
Qed.

(** X10. The schedule of the engine without extra payment has exactly 60
    rows.  Every row shows the same instalment, 24910.03, a positive
    principal component, and principal and interest that add up to the
    instalment within the rounding of the three columns; the first row opens
    at the loan amount and the last row closes at 0. *)
Theorem standard_schedule_repays_in_60_rows :
  exists first rest,
    generate_repayment_schedule LOAN_AMOUNT INTEREST_RATE LOAN_YEARS 0
    = Some (first :: rest) /\
    List.length (first :: rest) = 60%nat /\
    Forall (fun r => EMI r == 24910.03 /\ 0 < Principal r /\
                     0 <= Interest r /\
                     Qabs (Principal r + Interest r - EMI r) <= 3 # 200)
      (first :: rest) /\
    Beginning_Balance first == LOAN_AMOUNT /\
    Ending_Balance (last (first :: rest) first) == 0.
Proof.
  assert (Hat : at_turn (59 - 59) st0).
  { unfold at_turn, st0. cbn [balance emi months_processed Nat.sub].
    split; [apply gap_start|]. split; reflexivity. }
  destruct (standard_rows 59 st0 (le_n _) Hat)
    as (first & rest & Hrows & Hlen & Hopen & Hall & Hend).
  assert (Hemi : Py.round2 standard_emi == 24910.03) by (vm_compute; reflexivity).
  exists first, rest. split; [|split; [|split; [|split]]].
  - rewrite engine_schedule. f_equal. exact Hrows.
  - simpl. now rewrite Hlen.
  - eapply Forall_impl; [|exact Hall].
    intros r (H1 & H2 & H3 & H4).
    split; [exact (Qeq_trans _ _ _ H1 Hemi)|]. split; [exact H2|].
    split; [exact H3 | exact H4].
  - rewrite Hopen. vm_compute. reflexivity.
  - exact Hend.
Qed.

(** *** Extra payments against the standard schedule *)

(** A row of a schedule with extra payments against the row of the same
    month of the standard schedule. *)
Definition row_le (o s : schedule_row) : Prop :=
  Year o = Year s /\ Month o = Month s /\
  Beginning_Balance o <= Beginning_Balance s /\
  Interest o <= Interest s /\ 0 <= Interest s.

(** [opt] is not longer than [std] and row by row below it. *)
Fixpoint dominated (opt std : list schedule_row) : Prop :=
  match opt, std with
  | [], _ => True
  | o :: opt', s :: std' => row_le o s /\ dominated opt' std'
  | _ :: _, [] => False
  end.

(** The state of a schedule with extra payments against the state of the
    standard schedule at the same turn. *)
Definition below (so ss : loop_state) : Prop :=
  months_processed so = months_processed ss /\
  cur_month so = cur_month ss /\ year so = year ss /\
  0 <= balance so <= balance ss /\
  (0 < balance so -> emi so = standard_emi).

Lemma step_row_le (extra : Q) (so ss : loop_state) :
  below so ss ->
  row_le (fst (schedule_step monthly_rate extra so)) (fst (step ss)).
Proof.
  intros (Hm & Hc & Hy & [Hb0 Hb] & _).
  assert (Hr : balance so * monthly_rate <= balance ss * monthly_rate).
  { rewrite !monthly_rate_value. lra. }
  assert (Hr0 : 0 <= balance ss * monthly_rate).
  { rewrite monthly_rate_value. lra. }
  assert (Hz : Py.round2 0 == 0) by reflexivity.
  pose proof (RoundFacts.round2_monotone _ _ Hb).
  pose proof (RoundFacts.round2_monotone _ _ Hr).
  pose proof (RoundFacts.round2_monotone _ _ Hr0).
  destruct (Py.ltb (balance so) (emi so)) eqn:Eo;
    [rewrite (step_last extra so Eo) | rewrite (step_full extra so Eo)];
    (destruct (Py.ltb (balance ss) (emi ss)) eqn:Es;
     [rewrite (step_last 0 ss Es) | rewrite (step_full 0 ss Es)]);
    unfold row_le; cbn [fst Year Month Beginning_Balance Interest];
    rewrite Hc, Hy; repeat split; try reflexivity; lra.
Qed.

Lemma step_below (extra : Q) (k : nat) (so ss : loop_state) :
  (k <= 58)%nat -> at_turn k ss -> below so ss -> 0 < balance so ->
  below (snd (schedule_step monthly_rate extra so)) (snd (step ss)).
Proof.
  intros Hk Hat (Hm & Hc & Hy & [Hb0 Hb] & He) Hpos.
  specialize (He Hpos).
  destruct (full_turn k ss Hk Hat) as (_ & _ & _ & (Hb' & He' & Hm')).
  destruct Hat as (Hbs & Hes & Hms).
  pose proof (gap_step k ltac:(lia)) as Hnext.
  pose proof (gap_at_most_alpha (S k) ltac:(lia)) as Htop.
  pose proof standard_emi_alpha as Halpha.
  pose proof standard_emi_bounds as [Hemi _].
  assert (Hfull : Py.ltb (balance ss) (emi ss) = false).
  { apply PyFacts.ltb_ge.
    pose proof (gap_at_most_58 k Hk). pose proof (gap_step 58 ltac:(lia)).
    pose proof (gap_step 59 ltac:(lia)). pose proof gap_end.
    pose proof alpha_bounds as [? ?]. rewrite Hes. lra. }
  rewrite (step_full 0 ss Hfull) in *.
  cbn [snd balance emi year cur_month months_processed] in *.
  assert (Hro : balance so * monthly_rate == balance so * (3 # 400)).
  { now rewrite monthly_rate_value. }
  assert (Hrs : balance ss * monthly_rate == balance ss * (3 # 400)).
  { now rewrite monthly_rate_value. }
  rewrite carry_without_extra in * by reflexivity.
  destruct (Py.ltb (balance so) (emi so)) eqn:Eo.
  - rewrite (step_last extra so Eo). unfold below.
    cbn [snd balance emi year cur_month months_processed].
    assert (Hzero : 0 <= balance so - balance so) by lra.
    pose proof (carry_bounds extra (cur_month so) _ Hzero) as Hcarry.
    split; [now rewrite Hm|]. split; [now rewrite Hc|].
    split; [now rewrite Hc, Hy|]. split; [split; lra|].
    intros Habs. lra.
  - rewrite (step_full extra so Eo). unfold below.
    cbn [snd balance emi year cur_month months_processed].
    apply PyFacts.ltb_ge in Eo. rewrite He in *.
    assert (Hend : 0 <= balance so - (standard_emi - balance so * monthly_rate))
      by lra.
    pose proof (carry_bounds extra (cur_month so) _ Hend) as Hcarry.
    split; [now rewrite Hm|]. split; [now rewrite Hc|].
    split; [now rewrite Hc, Hy|]. split; [split; lra|].
    intros _. reflexivity.
Qed.

Lemma compare_loops (extra : Q) (n : nat) (so ss : loop_state) :
  (n <= 59)%nat -> at_turn (59 - n) ss -> below so ss ->
  dominated (schedule_loop (S n) monthly_rate extra months so)
    (schedule_loop (S n) monthly_rate 0 months ss).
Proof.
  revert so ss. induction n as [|n IH]; intros so ss Hn Hat Hbelow.
  - destruct (Qlt_le_dec 0 (balance so)) as [Hpos|Hnon].
    + destruct (last_turn ss Hat) as (Hpos' & Hm' & _).
      pose proof Hbelow as (Hm & _).
      rewrite (loop_unroll extra 0 so Hpos) by (rewrite Hm; exact Hm').
      rewrite (loop_unroll 0 0 ss Hpos' Hm').
      cbn [schedule_loop dominated].
      split; [now apply step_row_le | exact I].
    + apply PyFacts.ltb_ge in Hnon. cbn [schedule_loop].
      rewrite Hnon. exact I.
  - destruct (Qlt_le_dec 0 (balance so)) as [Hpos|Hnon].
    + destruct (full_turn (59 - S n) ss ltac:(lia) Hat) as (Hpos' & Hm' & _ & Hnext).
      pose proof Hbelow as (Hm & _).
      rewrite (loop_unroll extra (S n) so Hpos) by (rewrite Hm; exact Hm').
      rewrite (loop_unroll 0 (S n) ss Hpos' Hm').
      cbn [dominated].
      split; [now apply step_row_le|].
      replace (S (59 - S n)) with (59 - n)%nat in Hnext by lia.
      apply IH; [lia | exact Hnext |].
      apply (step_below extra (59 - S n)); [lia | exact Hat | exact Hbelow | exact Hpos].
    + apply PyFacts.ltb_ge in Hnon. cbn [schedule_loop].
      rewrite Hnon. exact I.
Qed.

Lemma dominated_length (opt std : list schedule_row) :
  dominated opt std -> (List.length opt <= List.length std)%nat.
Proof.
  revert std. induction opt as [|o opt IH]; intros [|s std]; simpl;
    try lia; try tauto.
  intros [_ H]. specialize (IH std H). lia.
Qed.

Lemma dominated_interest (opt std : list schedule_row) :
  dominated opt std ->
  Forall (fun s => 0 <= Interest s) std ->
  Py.sum (map Interest opt) <= Py.sum (map Interest std).
Proof.
  revert std. induction opt as [|o opt IH]; intros std Hdom Hnon.
  - cbn [map]. rewrite PyFacts.sum_nil.
    clear Hdom. induction Hnon as [|s std Hs _ IH]; cbn [map].
    + rewrite PyFacts.sum_nil. lra.
    + rewrite PyFacts.sum_cons. lra.
  - destruct std as [|s std]; [destruct Hdom|].
    destruct Hdom as [(_ & _ & _ & Hi & _) Hdom].
    inversion Hnon as [|? ? _ Hnon']; subst.
    cbn [map]. rewrite !PyFacts.sum_cons.
    specialize (IH std Hdom Hnon'). lra.
Qed.

Lemma dominated_nth (opt std : list schedule_row) :
  dominated opt std ->
  forall i o, nth_error opt i = Some o ->
              exists s, nth_error std i = Some s /\ row_le o s.
Proof.
  revert std. induction opt as [|o' opt IH]; intros std Hdom i o Hi.
  - destruct i; discriminate.
  - destruct std as [|s' std]; [destruct Hdom|]. destruct Hdom as [Hrow Hdom].
    destruct i as [|i]; cbn [nth_error] in *.
    + injection Hi as <-. exists s'. split; [reflexivity | exact Hrow].
    + exact (IH std Hdom i o Hi).
Qed.

(** X11. Whatever the extra annual payment, the schedule of the engine is not
    longer than the standard one, which has 60 rows; each of its rows carries
    the month and year of the standard row at the same position and has an
    opening balance and an interest component that are at most those of
    that row; so the interest components add up to at most those of the
    standard schedule. *)
Theorem extra_payments_never_cost (extra : Q) :
  exists opt std,
    generate_repayment_schedule LOAN_AMOUNT INTEREST_RATE LOAN_YEARS extra
    = Some opt /\
    generate_repayment_schedule LOAN_AMOUNT INTEREST_RATE LOAN_YEARS 0
    = Some std /\
    (List.length opt <= List.length std)%nat /\
    List.length std = 60%nat /\
    (forall i o,
        nth_error opt i = Some o ->
        exists s,
          nth_error std i = Some s /\
          Year o = Year s /\ Month o = Month s /\
          Beginning_Balance o <= Beginning_Balance s /\
          Interest o <= Interest s) /\
    Py.sum (map Interest opt) <= Py.sum (map Interest std).
Proof.
  assert (Hat : at_turn (59 - 59) st0).
  { unfold at_turn, st0. cbn [balance emi months_processed Nat.sub].
    split; [apply gap_start|]. split; reflexivity. }
  assert (Hbelow : below st0 st0).
  { unfold below, st0. cbn [balance emi months_processed cur_month year].
    split; [reflexivity|]. split; [reflexivity|]. split; [reflexivity|].
    split; [split; [discriminate | apply Qle_refl]|]. intros _. reflexivity. }
  pose proof (compare_loops extra 59 st0 st0 (le_n _) Hat Hbelow) as Hdom.
  destruct (standard_rows 59 st0 (le_n _) Hat)
    as (first & rest & Hrows & Hlen & _ & Hall & _).
  set (opt := schedule_loop 60 monthly_rate extra months st0) in *.
  rewrite Hrows in Hdom.
  exists opt, (first :: rest).
  split; [rewrite engine_schedule; reflexivity|].
  split; [rewrite engine_schedule; f_equal; exact Hrows|].
  split; [exact (dominated_length _ _ Hdom)|].
  split; [cbn [List.length]; f_equal; exact Hlen|].
  split.
  - intros i o Hi.
    destruct (dominated_nth _ _ Hdom i o Hi) as (s & Hs & Hy & Hmo & Hb & Hint & _).
    exists s. split; [exact Hs|]. split; [exact Hy|]. split; [exact Hmo|].
    split; [exact Hb | exact Hint].
  - apply dominated_interest; [exact Hdom|].
    eapply Forall_impl; [|exact Hall]. intros r (_ & _ & H & _). exact H.
Qed.

End AmortizationFacts.

(** ** What the detector flags, category by category ([backend/loan.py]) *)

Module ExcessFacts.
Import Loan SpendingFacts.

(** The category the detector reads from a row. *)
Definition norm (r : row) : string := Py.lower (Py.strip (category r)).

Definition in_cat (cat : string) (r : row) : bool := String.eqb (norm r) cat.

(** What the rows of a category spend, and what the detector flags as
    non-essential in the rows of a category. *)
Definition spent_in (cat : string) (rows : list row) : Q :=
  Py.sum (map amount (filter (in_cat cat) rows)).

Definition flagged_in (cat : string) (out : list spend_row) : Q :=
  Py.sum (map non_essential_amount (filter (fun s => in_cat cat (base s)) out)).

Lemma spent_in_cons cat r rows :
  spent_in cat (r :: rows)
  == (if in_cat cat r then amount r else 0) + spent_in cat rows.
Proof.
  unfold spent_in. cbn [filter]. destruct (in_cat cat r); cbn [map].
  - apply PyFacts.sum_cons.
  - lra.
Qed.

Lemma flagged_in_snoc cat out s :
  flagged_in cat (out ++ [s])
  == flagged_in cat out
     + (if in_cat cat (base s) then non_essential_amount s else 0).
Proof.
  unfold flagged_in. rewrite filter_app, map_app, PyFacts.sum_app.
  cbn [filter]. destruct (in_cat cat (base s)); cbn [map].
  - rewrite PyFacts.sum_cons, PyFacts.sum_nil. lra.
  - rewrite PyFacts.sum_nil. lra.
Qed.

Lemma spent_in_perm cat rows rows' :
  Permutation rows rows' -> spent_in cat rows == spent_in cat rows'.
Proof.
  induction 1 as [|r l l' _ IH|r r' l|l l' l'' _ IH1 _ IH2].
  - reflexivity.
  - rewrite !spent_in_cons, IH. reflexivity.
  - rewrite !spent_in_cons. lra.
  - now rewrite IH1.
Qed.

Lemma spent_in_nonneg cat rows :
  Forall (fun r => 0 <= amount r) rows -> 0 <= spent_in cat rows.
Proof.
  induction 1 as [|r rows Hr _ IH].
  - unfold spent_in. cbn. lra.
  - rewrite spent_in_cons. destruct (in_cat cat r); lra.
Qed.

Section Category.

Variable thresholds : list (string * Q).
Variable cat : string.
Variable threshold : Q.
Hypothesis cat_threshold : Py.get cat thresholds = Some threshold.

(** The cumulative total of the category and what was flagged in it, after
    rows of the category that spent [spent] in all. *)
Definition settled (spent : Q) (acc : list (string * Q) * list spend_row) : Prop :=
  Py.get0 cat (fst acc) == Qmin spent threshold /\
  flagged_in cat (snd acc) == Qmax 0 (spent - threshold).

Lemma spending_step_settled (spent : Q) (acc : list (string * Q) * list spend_row)
    (r : row) :
  0 <= spent -> 0 <= amount r -> settled spent acc ->
  settled (spent + (if in_cat cat r then amount r else 0))
    (spending_step thresholds acc r).
Proof.
  intros Hspent Hamount [Hcur Hflag]. destruct acc as [cumulative out].
  cbn [fst snd] in *. unfold settled, spending_step. fold (norm r).
  unfold in_cat. destruct (String.eqb (norm r) cat) eqn:E.
  - apply String.eqb_eq in E. rewrite E, cat_threshold.
    destruct (Py.leb (Py.get0 cat cumulative + amount r) threshold) eqn:Hle;
      cbn [fst snd]; rewrite flagged_in_snoc, get0_set, String.eqb_refl;
      cbn [base non_essential_amount]; unfold in_cat; rewrite E, String.eqb_refl.
    + apply PyFacts.leb_le in Hle.
      destruct (Q.min_spec spent threshold) as [[? Hm]|[? Hm]];
        rewrite Hm in Hcur;
        destruct (Q.max_spec 0 (spent - threshold)) as [[? Hx]|[? Hx]];
        rewrite Hx in Hflag;
        destruct (Q.min_spec (spent + amount r) threshold) as [[? Hm']|[? Hm']];
        rewrite Hm';
        destruct (Q.max_spec 0 (spent + amount r - threshold)) as [[? Hx']|[? Hx']];
        rewrite Hx'; split; lra.
    + apply PyFacts.leb_gt in Hle.
      destruct (Q.min_spec spent threshold) as [[? Hm]|[? Hm]];
        rewrite Hm in Hcur;
        destruct (Q.max_spec 0 (spent - threshold)) as [[? Hx]|[? Hx]];
        rewrite Hx in Hflag;
        destruct (Q.min_spec (spent + amount r) threshold) as [[? Hm']|[? Hm']];
        rewrite Hm';
        destruct (Q.max_spec 0 (spent + amount r - threshold)) as [[? Hx']|[? Hx']];
        rewrite Hx';
        destruct (Q.max_spec (threshold - Py.get0 cat cumulative) 0) as [[? Ha]|[? Ha]];
        rewrite Ha; split; lra.
  - assert (Hne : cat <> norm r).
    { intros ->. rewrite String.eqb_refl in E. discriminate. }
    assert (Hflag' : forall s, base s = r ->
              flagged_in cat (out ++ [s]) == Qmax 0 (spent + 0 - threshold)).
    { intros s Hs. rewrite flagged_in_snoc, Hs. unfold in_cat. rewrite E.
      assert (Hz : spent + 0 - threshold == spent - threshold) by lra.
      rewrite Hz, Hflag. lra. }
    assert (Hcur' : Py.get0 cat cumulative == Qmin (spent + 0) threshold).
    { assert (Hz : spent + 0 == spent) by lra. now rewrite Hz. }
    destruct (Py.get (norm r) thresholds) as [t|].
    + destruct (Py.leb (Py.get0 (norm r) cumulative + amount r) t);
        cbn [fst snd]; rewrite get0_set;
        (destruct (String.eqb cat (norm r)) eqn:E';
         [apply String.eqb_eq in E'; contradiction|]);
        (split; [exact Hcur' | now apply Hflag']).
    + cbn [fst snd]. split; [exact Hcur' | now apply Hflag'].
Qed.

Lemma spending_fold_settled (rows : list row) (spent : Q)
    (acc : list (string * Q) * list spend_row) :
  0 <= spent -> Forall (fun r => 0 <= amount r) rows -> settled spent acc ->
  settled (spent + spent_in cat rows)
    (fold_left (spending_step thresholds) rows acc).
Proof.
  revert spent acc.
  induction rows as [|r rows IH]; intros spent acc Hspent Hrows Hacc;
    cbn [fold_left].
  - destruct Hacc as [H1 H2]. unfold settled, spent_in. cbn [filter map].
    assert (Hz : spent + Py.sum [] == spent) by (rewrite PyFacts.sum_nil; lra).
    rewrite Hz. split; assumption.
  - inversion Hrows as [|? ? Hr Hrows']; subst.
    pose proof (spending_step_settled spent acc r Hspent Hr Hacc) as Hstep.
    assert (Hspent' : 0 <= spent + (if in_cat cat r then amount r else 0)).
    { destruct (in_cat cat r); lra. }
    pose proof (IH _ _ Hspent' Hrows' Hstep) as [H1 H2].
    assert (Hz : spent + spent_in cat (r :: rows)
                 == spent + (if in_cat cat r then amount r else 0)
                    + spent_in cat rows).
    { rewrite spent_in_cons. lra. }
    unfold settled. rewrite Hz. split; assumption.
Qed.

End Category.

(** Rows of a category without threshold are never flagged. *)
Lemma spending_fold_unlisted (thresholds : list (string * Q)) (cat : string)
    (rows : list row) (acc : list (string * Q) * list spend_row) :
  Py.get cat thresholds = None ->
  flagged_in cat (snd acc) == 0 ->
  flagged_in cat (snd (fold_left (spending_step thresholds) rows acc)) == 0.
Proof.
  intros Hnone. revert acc.
  induction rows as [|r rows IH]; intros [cumulative out] Hacc; cbn [fold_left].
  - exact Hacc.
  - apply IH. cbn [snd] in Hacc. unfold spending_step. fold (norm r).
    destruct (Py.get (norm r) thresholds) as [t|] eqn:G.
    + assert (E : in_cat cat r = false).
      { unfold in_cat. apply String.eqb_neq. intros H. congruence. }
      destruct (Py.leb _ t); cbn [snd]; rewrite flagged_in_snoc;
        cbn [base]; rewrite E; lra.
    + cbn [snd]. rewrite flagged_in_snoc. cbn [base non_essential_amount].
      destruct (in_cat cat r); lra.
Qed.

(** X12. For a month's rows with non-negative amounts and a category with a
    non-negative threshold, what the detector flags as non-essential in the
    category is exactly the excess of the category's spending over its
    threshold (nothing when the spending stays within it), whatever the
    dates of the rows, and the cumulative total it ends with is the smaller
    of the spending and the threshold.  In a category without threshold
    nothing is ever flagged. *)
Theorem non_essential_is_excess (thresholds : list (string * Q)) (df : list row)
    (cat : string) (threshold : Q) :
  Py.get cat thresholds = Some threshold -> 0 <= threshold ->
  (forall r, In r df -> 0 <= amount r) ->
  flagged_in cat (calculate_not_necessary_spending df thresholds)
  == Qmax 0 (spent_in cat df - threshold) /\
  Py.get0 cat (fst (spending_loop thresholds df))
  == Qmin (spent_in cat df) threshold /\
  (forall other,
      Py.get other thresholds = None ->
      flagged_in other (calculate_not_necessary_spending df thresholds) == 0).
Proof.
  intros Hget Hthr Hamounts.
  assert (Hsorted : Forall (fun r => 0 <= amount r) (sort_by_date df)).
  { apply Forall_forall. intros r Hr. apply Hamounts.
    eapply Permutation_in;
      [apply Permutation_sym, sort_by_date_perm | exact Hr]. }
  assert (Hstart : settled cat threshold 0 (initial_cumulative thresholds, [])).
  { unfold settled. cbn [fst snd]. split.
    - rewrite initial_cumulative_zero. symmetry. apply Q.min_l. exact Hthr.
    - unfold flagged_in. cbn [filter map]. rewrite PyFacts.sum_nil.
      symmetry. apply Q.max_l. lra. }
  pose proof (spending_fold_settled thresholds cat threshold Hget
                (sort_by_date df) 0 _ (Qle_refl 0) Hsorted Hstart) as [Hcur Hflag].
  assert (Hperm : spent_in cat (sort_by_date df) == spent_in cat df).
  { symmetry. apply spent_in_perm, sort_by_date_perm. }
  assert (Hz : 0 + spent_in cat (sort_by_date df) == spent_in cat df)
    by (rewrite Hperm; lra).
  rewrite Hz in Hcur, Hflag.
  split; [exact Hflag|]. split; [exact Hcur|].
  intros other Hnone. apply spending_fold_unlisted; [exact Hnone | reflexivity].
Qed.

(** The theorem on the sample month: 130 spent on food against 100. *)
Lemma non_essential_is_excess_witness :
  flagged_in "food"
    (calculate_not_necessary_spending sample_month sample_thresholds)
  == Qmax 0 (spent_in "food" sample_month - 100).
Proof.
  apply (non_essential_is_excess sample_thresholds sample_month "food" 100).
  - reflexivity.
  - discriminate.
  - intros r [<-|[<-|[]]]; discriminate.
Defined.

End ExcessFacts.

(** ** Lifestyle and thresholds ([backend/loan.py]) *)

Module ThresholdFacts.
Import Loan ScheduleFacts.

(** The categories that get a threshold, in the order of the base table. *)
Definition budget_categories : list string :=
  [ "food"; "entertainment"; "shopping"; "travel"; "health"; "festival";
    "emergency"; "investment"; "gifts"; "utilities" ]%string.

Definition LIFESTYLES : list string :=
  [ "Unmarried_but_Living_with_family"; "Bachelor_Living_Alone";
    "Married_Living_with_family_with_children" ]%string.

(** The percentages applied to what is left of the salary. *)
Definition percentages (lifestyle : string) : list (string * Q) :=
  filter (fun '(cat, _) => negb (String.eqb cat "salary"))
    (lifestyle_adjustments lifestyle).

Definition threshold_of (remaining_amount : Q) (item : string * Q) : string * Q :=
  let '(cat, perc) := item in
  (cat, Qmax 0 (Py.round2 (remaining_amount * perc))).

Lemma dynamic_threshold_adjuster_eq (salary : Q) (lifestyle : string) :
  dynamic_threshold_adjuster salary lifestyle
  = Some (map (threshold_of (Qmax (salary - standard_emi) 0))
            (percentages lifestyle)).
Proof.
  unfold dynamic_threshold_adjuster.
  change (INTEREST_RATE / 12) with monthly_rate.
  change (LOAN_YEARS * 12)%Z with months.
  rewrite emi_formula_standard. reflexivity.
Qed.

(** A table of percentages between 0 and 1 that add up to at most 0.83,
    over the ten categories. *)
Definition sound_percentages (table : list (string * Q)) : Prop :=
  Py.keys table = budget_categories /\
  Forall (fun item => 0 <= snd item <= 1) table /\
  Py.sum (Py.values table) <= 0.83.

Lemma percentages_sound (lifestyle : string) :
  sound_percentages (percentages lifestyle).
Proof.
  unfold percentages, lifestyle_adjustments.
  destruct (String.eqb lifestyle "Unmarried_but_Living_with_family");
    [|destruct (String.eqb lifestyle "Bachelor_Living_Alone");
      [|destruct (String.eqb lifestyle "Married_Living_with_family_with_children")]];
    (split; [reflexivity|]; split;
     [repeat constructor; cbn; discriminate | vm_compute; discriminate]).
Qed.

Lemma infer_lifestyle_known (df : list row) : In (infer_lifestyle df) LIFESTYLES.
Proof.
  unfold infer_lifestyle, LIFESTYLES. destruct df as [|r df]; [cbn; tauto|].
  destruct (existsb _ _); [cbn; tauto|].
  destruct (_ && _); cbn; tauto.
Qed.

Lemma threshold_bounds (remaining p : Q) :
  0 <= remaining -> 0 <= p ->
  0 <= Qmax 0 (Py.round2 (remaining * p)) <= remaining * p + (1 # 200).
Proof.
  intros Hr Hp.
  pose proof (Qmult_le_0_compat _ _ Hr Hp) as Hrp.
  pose proof (RoundFacts.round2_error (remaining * p)) as [_ Hup].
  destruct (Q.max_spec 0 (Py.round2 (remaining * p))) as [[? Hm]|[? Hm]];
    rewrite Hm; lra.
Qed.

Lemma thresholds_sum (remaining : Q) (table : list (string * Q)) :
  0 <= remaining -> Forall (fun item => 0 <= snd item <= 1) table ->
  Py.sum (Py.values (map (threshold_of remaining) table))
  <= remaining * Py.sum (Py.values table)
     + (1 # 200) * inject_Z (Z.of_nat (List.length table)).
Proof.
  intros Hr. unfold Py.values.
  induction 1 as [|[cat p] table [Hp _] _ IH]; cbn [map List.length].
  - rewrite !PyFacts.sum_nil. change (inject_Z (Z.of_nat 0)) with 0. lra.
  - cbn [snd threshold_of] in *. rewrite !PyFacts.sum_cons.
    rewrite Nat2Z.inj_succ. unfold Z.succ. rewrite RoundFacts.inject_Z_succ.
    pose proof (threshold_bounds remaining p Hr Hp) as [_ Hb].
    assert (Hd : remaining * (p + Py.sum (map snd table))
                 == remaining * p + remaining * Py.sum (map snd table)) by ring.
    rewrite Hd. lra.
Qed.

Lemma thresholds_monotone (x y : Q) (table : list (string * Q)) :
  0 <= x <= y -> Forall (fun item => 0 <= snd item <= 1) table ->
  Forall2 (fun a b => fst a = fst b /\ snd a <= snd b)
    (map (threshold_of x) table) (map (threshold_of y) table).
Proof.
  intros [Hx Hxy]. induction 1 as [|[cat p] table [Hp _] _ IH]; cbn [map].
  - constructor.
  - constructor; [|exact IH]. cbn [threshold_of fst snd].
    split; [reflexivity|]. apply Q.max_le_compat_l.
    apply RoundFacts.round2_monotone. apply Qmult_le_compat_r; assumption.
Qed.

Lemma keys_thresholds (remaining : Q) (table : list (string * Q)) :
  Py.keys (map (threshold_of remaining) table) = Py.keys table.
Proof.
  unfold Py.keys. rewrite map_map. apply map_ext. intros [cat p]. reflexivity.
Qed.

(** X13. For every salary and every lifestyle text the threshold adjuster
    returns thresholds for the same ten categories (never for salary); no
    threshold is negative; together they stay within 83% of what the salary
    leaves after the instalment, plus 0.05 of rounding; they are all 0 when
    the salary does not exceed the instalment; and a higher salary never
    lowers a threshold. *)
Theorem thresholds_within_budget (salary : Q) (lifestyle : string) :
  exists thresholds,
    dynamic_threshold_adjuster salary lifestyle = Some thresholds /\
    Py.keys thresholds = budget_categories /\
    Forall (fun item => 0 <= snd item) thresholds /\
    Py.sum (Py.values thresholds)
    <= 0.83 * Qmax (salary - standard_emi) 0 + 0.05 /\
    (salary <= standard_emi -> Forall (fun item => snd item == 0) thresholds) /\
    (forall higher,
        salary <= higher ->
        exists thresholds',
          dynamic_threshold_adjuster higher lifestyle = Some thresholds' /\
          Forall2 (fun a b => fst a = fst b /\ snd a <= snd b)
            thresholds thresholds').
Proof.
  destruct (percentages_sound lifestyle) as (Hkeys & Hperc & Hsum).
  set (remaining := Qmax (salary - standard_emi) 0).
  assert (Hrem : 0 <= remaining) by apply Q.le_max_r.
  exists (map (threshold_of remaining) (percentages lifestyle)).
  split; [apply dynamic_threshold_adjuster_eq|].
  split; [now rewrite keys_thresholds|].
  split; [|split; [|split]].
  - clear Hkeys Hsum. induction Hperc as [|[cat p] table _ _ IH]; cbn [map].
    + constructor.
    + constructor; [|exact IH]. cbn [threshold_of snd]. apply Q.le_max_l.
  - pose proof (thresholds_sum remaining _ Hrem Hperc) as Hb.
    assert (Hlen : List.length (percentages lifestyle) = 10%nat).
    { change 10%nat with (List.length budget_categories).
      rewrite <- Hkeys. unfold Py.keys. now rewrite length_map. }
    rewrite Hlen in Hb.
    assert (Hprod : 0 <= remaining * (0.83 - Py.sum (Py.values (percentages lifestyle)))).
    { apply Qmult_le_0_compat; lra. }
    assert (Hd : remaining * (0.83 - Py.sum (Py.values (percentages lifestyle)))
                 == 0.83 * remaining
                    - remaining * Py.sum (Py.values (percentages lifestyle)))
      by ring.
    assert (Hten : (1 # 200) * inject_Z (Z.of_nat 10) == 0.05) by reflexivity.
    lra.
  - intros Hle.
    assert (Hzero : remaining == 0) by (apply Q.max_r; lra).
    clear Hkeys Hsum. induction Hperc as [|[cat p] table _ _ IH]; cbn [map].
    + constructor.
    + constructor; [|exact IH]. cbn [threshold_of snd].
      assert (Hz : Py.round2 (remaining * p) == 0).
      { assert (H0 : remaining * p == 0) by (rewrite Hzero; ring).
        apply Qle_antisym.
        - apply Qle_trans with (Py.round2 0);
            [apply RoundFacts.round2_monotone; lra | discriminate].
        - apply Qle_trans with (Py.round2 0);
            [discriminate | apply RoundFacts.round2_monotone; lra]. }
      rewrite Hz. reflexivity.
  - intros higher Hhigher.
    exists (map (threshold_of (Qmax (higher - standard_emi) 0))
              (percentages lifestyle)).
    split; [apply dynamic_threshold_adjuster_eq|].
    apply thresholds_monotone; [|exact Hperc].
    split; [exact Hrem|]. apply Q.max_le_compat_r. lra.
Qed.

(** *** The lifestyle read from the categories *)

Definition mentions (word : string) (r : row) : bool :=
  Py.contains word (Py.lower (category r)).

Definition studies (r : row) : bool :=
  mentions "school" r || mentions "education" r.

Lemma existsb_categories (test : string -> bool) (df : list row) :
  existsb test (map (fun r => Py.lower (category r)) df) = true <->
  exists r, In r df /\ test (Py.lower (category r)) = true.
Proof.
  rewrite existsb_exists. split.
  - intros (c & Hc & Ht). apply in_map_iff in Hc.
    destruct Hc as (r & <- & Hr). eauto.
  - intros (r & Hr & Ht). exists (Py.lower (category r)).
    split; [|exact Ht]. apply in_map_iff. eauto.
Qed.

Lemma infer_lifestyle_cases (df : list row) :
  ((exists r, In r df /\ studies r = true) ->
   infer_lifestyle df = "Married_Living_with_family_with_children"%string) /\
  (~ (exists r, In r df /\ studies r = true) ->
   (exists r, In r df /\ mentions "rent" r = true) ->
   (exists r, In r df /\ mentions "food" r = true) ->
   infer_lifestyle df = "Bachelor_Living_Alone"%string) /\
  (~ (exists r, In r df /\ studies r = true) ->
   ~ ((exists r, In r df /\ mentions "rent" r = true) /\
      (exists r, In r df /\ mentions "food" r = true)) ->
   infer_lifestyle df = "Unmarried_but_Living_with_family"%string).
Proof.
  unfold infer_lifestyle.
  pose proof (existsb_categories
                (fun c => Py.contains "school" c || Py.contains "education" c) df)
    as Hs.
  pose proof (existsb_categories (Py.contains "rent") df) as Hr.
  pose proof (existsb_categories (Py.contains "food") df) as Hf.
  fold (studies) in Hs. unfold studies, mentions in *.
  destruct df as [|r0 df].
  - split; [intros (r & [] & _)|]. split; [intros _ (r & [] & _)|]. reflexivity.
  - set (rows := r0 :: df) in *.
    destruct (existsb _ (map _ rows)) eqn:Es.
    + assert (H : exists r, In r rows /\
                 Py.contains "school" (Py.lower (category r))
                 || Py.contains "education" (Py.lower (category r)) = true)
        by (apply Hs; reflexivity).
      split; [reflexivity|]. split; intros Hn; contradiction.
    + assert (Hno : ~ exists r, In r rows /\
                 Py.contains "school" (Py.lower (category r))
                 || Py.contains "education" (Py.lower (category r)) = true).
      { intros H. apply Hs in H. discriminate. }
      split; [intros H; contradiction|].
      destruct (existsb (Py.contains "rent") (map _ rows)) eqn:Er;
        destruct (existsb (Py.contains "food") (map _ rows)) eqn:Ef;
        cbn [andb].
      * split; [reflexivity|]. intros _ Hn. exfalso. apply Hn.
        split; [apply Hr | apply Hf]; reflexivity.
      * split; [|reflexivity]. intros _ _ H. apply Hf in H. discriminate.
      * split; [|reflexivity]. intros _ H. apply Hr in H. discriminate.
      * split; [|reflexivity]. intros _ H. apply Hr in H. discriminate.
Qed.

(** X18. The lifestyle is always one of the three labels and depends only
    on which rows are in the frame, not on their order.  A category that
    mentions school or education gives the label of a family with
    children, whatever else is there; otherwise a category that mentions
    rent together with one that mentions food gives the label of a
    bachelor; every other frame, the empty one too, gives the label of
    living with the family. *)
Theorem infer_lifestyle_by_categories (df df' : list row) :
  In (infer_lifestyle df) LIFESTYLES /\
  (Permutation df df' -> infer_lifestyle df = infer_lifestyle df') /\
  ((exists r, In r df /\ studies r = true) ->
   infer_lifestyle df = "Married_Living_with_family_with_children"%string) /\
  (~ (exists r, In r df /\ studies r = true) ->
   (exists r, In r df /\ mentions "rent" r = true) ->
   (exists r, In r df /\ mentions "food" r = true) ->
   infer_lifestyle df = "Bachelor_Living_Alone"%string) /\
  (~ (exists r, In r df /\ studies r = true) ->
   ~ ((exists r, In r df /\ mentions "rent" r = true) /\
      (exists r, In r df /\ mentions "food" r = true)) ->
   infer_lifestyle df = "Unmarried_but_Living_with_family"%string).
Proof.
  split; [apply infer_lifestyle_known|].
  split; [|apply infer_lifestyle_cases].
  intros Hperm.
  assert (Hex : forall test : row -> bool,
             (exists r, In r df /\ test r = true) <->
             (exists r, In r df' /\ test r = true)).
  { intros test. split; intros (r & Hr & Ht); exists r; split; try exact Ht.
    - eapply Permutation_in; [exact Hperm | exact Hr].
    - eapply Permutation_in; [apply Permutation_sym; exact Hperm | exact Hr]. }
  destruct (infer_lifestyle_cases df) as (A1 & A2 & A3).
  destruct (infer_lifestyle_cases df') as (B1 & B2 & B3).
  assert (Hdec : forall test : row -> bool,
             (exists r, In r df /\ test r = true) \/
             ~ (exists r, In r df /\ test r = true)).
  { intros test. destruct (existsb test df) eqn:E.
    - left. apply existsb_exists in E. exact E.
    - right. intros H. apply existsb_exists in H. congruence. }
  destruct (Hdec studies) as [Hs|Hs].
  - rewrite (A1 Hs). symmetry. apply B1. now apply Hex.
  - assert (Hs' : ~ exists r, In r df' /\ studies r = true)
      by (intros H; apply Hs; now apply Hex).
    destruct (Hdec (mentions "rent")) as [Hr|Hr];
      destruct (Hdec (mentions "food")) as [Hf|Hf].
    + rewrite (A2 Hs Hr Hf). symmetry. apply B2; [exact Hs'| |]; now apply Hex.
    + rewrite A3; [|exact Hs|tauto]. symmetry. apply B3; [exact Hs'|].
      intros [_ H]. apply Hf. now apply Hex.
    + rewrite A3; [|exact Hs|tauto]. symmetry. apply B3; [exact Hs'|].
      intros [H _]. apply Hr. now apply Hex.
    + rewrite A3; [|exact Hs|tauto]. symmetry. apply B3; [exact Hs'|].
      intros [H _]. apply Hr. now apply Hex.
Qed.

End ThresholdFacts.

(** ** Schedules for any loan ([backend/loan.py]) *)

Module ScheduleShapeFacts.
Import Loan.

(** The calendar columns follow the month counter, which starts at 6. *)
Definition dated (st : loop_state) : Prop :=
  (0 <= cur_month st)%Z /\ year st = (2025 + cur_month st / 12)%Z.

Lemma schedule_step_row (mi extra : Q) (st : loop_state) :
  Year (fst (schedule_step mi extra st)) = year st /\
  Month (fst (schedule_step mi extra st))
  = nth (Z.to_nat (cur_month st mod 12)) month_names ""%string.
Proof.
  unfold schedule_step.
  destruct (Py.ltb (balance st) (emi st)); cbn [fst Year Month]; auto.
Qed.

Lemma schedule_step_state (mi extra : Q) (st : loop_state) :
  cur_month (snd (schedule_step mi extra st)) = (cur_month st + 1)%Z /\
  months_processed (snd (schedule_step mi extra st))
  = (months_processed st + 1)%Z /\
  year (snd (schedule_step mi extra st))
  = (if ((cur_month st + 1) mod 12 =? 0)%Z then year st + 1 else year st)%Z.
Proof.
  unfold schedule_step.
  destruct (Py.ltb (balance st) (emi st));
    cbn [snd cur_month months_processed year]; auto.
Qed.

Lemma next_year (m : Z) :
  (0 <= m)%Z ->
  ((m + 1) / 12 = m / 12 + (if (m + 1) mod 12 =? 0 then 1 else 0))%Z.
Proof.
  intros Hm.
  pose proof (Z.div_mod m 12 ltac:(lia)) as E1.
  pose proof (Z.mod_pos_bound m 12 ltac:(lia)) as B1.
  pose proof (Z.div_mod (m + 1) 12 ltac:(lia)) as E2.
  pose proof (Z.mod_pos_bound (m + 1) 12 ltac:(lia)) as B2.
  destruct ((m + 1) mod 12 =? 0)%Z eqn:E.
  - apply Z.eqb_eq in E. lia.
  - apply Z.eqb_neq in E. lia.
Qed.

Lemma schedule_step_dated (mi extra : Q) (st : loop_state) :
  dated st -> dated (snd (schedule_step mi extra st)).
Proof.
  intros [Hm Hy]. destruct (schedule_step_state mi extra st) as (Hc & _ & Hyear).
  unfold dated. rewrite Hc, Hyear, Hy, (next_year _ Hm).
  split; [lia|]. destruct ((cur_month st + 1) mod 12 =? 0)%Z; lia.
Qed.

Lemma schedule_loop_labels (fuel : nat) (mi extra : Q) (n_months : Z)
    (st : loop_state) :
  dated st ->
  forall i r,
    nth_error (schedule_loop fuel mi extra n_months st) i = Some r ->
    Month r
    = nth (Z.to_nat ((cur_month st + Z.of_nat i) mod 12)) month_names ""%string /\
    Year r = (2025 + (cur_month st + Z.of_nat i) / 12)%Z.
Proof.
  revert st. induction fuel as [|fuel IH]; intros st Hd i r Hi;
    cbn [schedule_loop] in Hi.
  - destruct i; discriminate.
  - destruct (Py.ltb 0 (balance st) && (months_processed st <? n_months)%Z);
      [|destruct i; discriminate].
    pose proof (schedule_step_row mi extra st) as [Hy Hmo].
    pose proof (schedule_step_state mi extra st) as (Hc & _).
    pose proof (schedule_step_dated mi extra st Hd) as Hd'.
    destruct (schedule_step mi extra st) as [row st']. cbn [fst snd] in *.
    destruct i as [|i]; cbn [nth_error] in Hi.
    + injection Hi as <-. rewrite Z.add_0_r.
      destruct Hd as [_ Hyear]. split; [exact Hmo | congruence].
    + destruct (IH st' Hd' i r Hi) as [H1 H2].
      rewrite Hc in H1, H2.
      replace (cur_month st + Z.of_nat (S i))%Z
        with (cur_month st + 1 + Z.of_nat i)%Z by lia.
      split; assumption.
Qed.

(** X14. In every schedule, whatever the loan, the rate, the duration and
    the extra payment, the rows are dated month after month without a gap:
    the row at position [i] (from 0) carries the month name at index
    (6 + i) mod 12 and the year 2025 + (6 + i) / 12, so that the first row
    is dated Jul 2025 and the seventh Jan 2026. *)
Theorem schedule_rows_dated (loan_amount interest_rate : Q) (years : Z)
    (extra_annual_payment : Q) (rows : list schedule_row) :
  generate_repayment_schedule loan_amount interest_rate years
    extra_annual_payment = Some rows ->
  (forall i r,
      nth_error rows i = Some r ->
      Month r = nth (Z.to_nat ((6 + Z.of_nat i) mod 12)) month_names ""%string /\
      Year r = (2025 + (6 + Z.of_nat i) / 12)%Z) /\
  (forall r, nth_error rows 0 = Some r -> Month r = "Jul"%string /\ Year r = 2025%Z) /\
  (forall r, nth_error rows 6 = Some r -> Month r = "Jan"%string /\ Year r = 2026%Z).
Proof.
  unfold generate_repayment_schedule.
  destruct (emi_formula _ _ _) as [emi|]; [|discriminate].
  intros [= <-].
  assert (Hd : dated (mk_loop_state loan_amount emi 2025 6 0)).
  { unfold dated. cbn. split; [lia | reflexivity]. }
  pose proof (schedule_loop_labels (Z.to_nat (years * 12)) (interest_rate / 12)
                extra_annual_payment (years * 12)%Z _ Hd) as H.
  cbn [cur_month] in H.
  split; [exact H|]. split; intros r Hr.
  - exact (H 0%nat r Hr).
  - exact (H 6%nat r Hr).
Qed.

Lemma schedule_rows_dated_witness :
  exists rows r,
    generate_repayment_schedule 1200 0 1 0 = Some rows /\
    nth_error rows 11 = Some r /\
    Month r = "Jun"%string /\ Year r = 2026%Z.
Proof.
  assert (Hgen : exists rows r,
             generate_repayment_schedule 1200 0 1 0 = Some rows /\
             nth_error rows 11 = Some r).
  { eexists. eexists. split; [vm_compute; reflexivity | reflexivity]. }
  destruct Hgen as (rows & r & Hgen & Hr).
  exists rows, r. split; [exact Hgen|]. split; [exact Hr|].
  exact (proj1 (schedule_rows_dated 1200 0 1 0 rows Hgen) 11%nat r Hr).
Defined.

(** *** Edge cases and the bound of the loop *)

Lemma schedule_loop_length (fuel : nat) (mi extra : Q) (n_months : Z)
    (st : loop_state) :
  (List.length (schedule_loop fuel mi extra n_months st) <= fuel)%nat.
Proof.
  revert st. induction fuel as [|fuel IH]; intros st; cbn [schedule_loop].
  - apply Nat.le_refl.
  - destruct (_ && _); [|cbn; lia].
    destruct (schedule_step mi extra st) as [row st'].
    cbn [List.length]. specialize (IH st'). lia.
Qed.

(** Once the loop has run for the months that remain it has stopped by
    itself: more turns change nothing. *)
Lemma schedule_loop_enough (fuel more : nat) (mi extra : Q) (n_months : Z)
    (st : loop_state) :
  (n_months - months_processed st <= Z.of_nat fuel)%Z ->
  schedule_loop (fuel + more) mi extra n_months st
  = schedule_loop fuel mi extra n_months st.
Proof.
  revert st. induction fuel as [|fuel IH]; intros st Hfuel.
  - cbn [Nat.add schedule_loop]. destruct more as [|more]; [reflexivity|].
    cbn [schedule_loop].
    assert (E : (months_processed st <? n_months)%Z = false)
      by (apply Z.ltb_ge; lia).
    rewrite E, andb_false_r. reflexivity.
  - cbn [Nat.add schedule_loop].
    destruct (_ && _); [|reflexivity].
    pose proof (schedule_step_state mi extra st) as (_ & Hm & _).
    destruct (schedule_step mi extra st) as [row st']. cbn [snd] in Hm.
    f_equal. apply IH. rewrite Hm. lia.
Qed.

(** X15. For a duration that is not negative, a schedule is computed unless
    the monthly rate is non-zero and (1 + monthly rate) to the number of
    months equals 1, the division by zero; this is the case of a duration of
    0 years at a non-zero rate.  A computed schedule has at most 12 rows per
    year; it is empty when the loan amount is not positive or the duration
    is not positive; and the loop has stopped by itself after 12 turns per
    year: further turns would add no row. *)
Theorem schedule_edge_cases (loan_amount interest_rate : Q) (years : Z)
    (extra_annual_payment : Q) :
  let schedule :=
    generate_repayment_schedule loan_amount interest_rate years
      extra_annual_payment in
  ((0 <= years)%Z ->
   (schedule = None <->
    ~ interest_rate / 12 == 0 /\
    (1 + interest_rate / 12) ^ (years * 12) - 1 == 0)) /\
  (years = 0%Z -> ~ interest_rate / 12 == 0 -> schedule = None) /\
  (forall rows,
      schedule = Some rows ->
      (List.length rows <= Z.to_nat (years * 12))%nat /\
      (loan_amount <= 0 -> rows = []) /\
      (years <= 0 -> rows = [])%Z /\
      (forall emi more,
          emi_formula loan_amount (interest_rate / 12) (years * 12) = Some emi ->
          schedule_loop (Z.to_nat (years * 12) + more) (interest_rate / 12)
            extra_annual_payment (years * 12)
            (mk_loop_state loan_amount emi 2025 6 0)
          = rows)).
Proof.
  intros schedule.
  assert (Hnone : schedule = None <->
            ~ interest_rate / 12 == 0 /\
            (1 + interest_rate / 12) ^ (years * 12) - 1 == 0).
  { unfold schedule, generate_repayment_schedule, emi_formula.
    destruct (Qeq_bool (interest_rate / 12) 0) eqn:E1.
    - apply Qeq_bool_iff in E1. split; [discriminate|]. intros [H _]. contradiction.
    - apply Qeq_bool_neq in E1.
      destruct (Qeq_bool ((1 + interest_rate / 12) ^ (years * 12) - 1) 0) eqn:E2.
      + apply Qeq_bool_iff in E2. split; [intros _; split; assumption | reflexivity].
      + apply Qeq_bool_neq in E2. split; [discriminate|]. intros [_ H]. contradiction. }
  split; [intros _; exact Hnone|]. split.
  - intros -> Hrate. apply Hnone. split; [exact Hrate|].
    change (0 * 12)%Z with 0%Z. cbn [Qpower]. reflexivity.
  - intros rows Hrows. unfold schedule, generate_repayment_schedule in Hrows.
    destruct (emi_formula _ _ _) as [emi|] eqn:Hemi; [|discriminate].
    injection Hrows as <-.
    split; [apply schedule_loop_length|]. split; [|split].
    + intros Hloan. destruct (Z.to_nat (years * 12)) as [|fuel]; [reflexivity|].
      cbn [schedule_loop balance].
      apply PyFacts.ltb_ge in Hloan. rewrite Hloan. reflexivity.
    + intros Hyears. replace (Z.to_nat (years * 12)) with 0%nat by lia.
      reflexivity.
    + intros emi' more [= <-]. apply schedule_loop_enough.
      cbn [months_processed]. lia.
Qed.

End ScheduleShapeFacts.

(** ** The pipeline as a whole ([backend/loan.py]) *)

Module OutcomeFacts.
Import Loan ScheduleFacts.

(** The amounts that [float(...)] converts. *)
Definition convertible (txn : Txn.t) : Prop := Txn.amount txn <> Txn.AmountInvalid.

Lemma frame_row_some (txn : Txn.t) :
  (exists r, frame_row txn = Some r) <-> convertible txn.
Proof.
  unfold frame_row, convertible. destruct (Txn.amount txn); split;
    try (intros _; eexists; reflexivity); try discriminate;
    try (intros [r H]; discriminate); intros H; congruence.
Qed.

Lemma build_frame_some (txns : list Txn.t) :
  (exists df, build_frame txns = Some df) <-> Forall convertible txns.
Proof.
  induction txns as [|txn txns IH]; cbn [build_frame].
  - split; [constructor | intros _; eexists; reflexivity].
  - split.
    + intros [df H]. destruct (frame_row txn) as [r|] eqn:Hr; [|discriminate].
      destruct (build_frame txns) as [rows|]; [|discriminate].
      constructor.
      * apply frame_row_some. eauto.
      * apply IH. eauto.
    + intros H. inversion H as [|? ? H1 H2]; subst.
      apply frame_row_some in H1. destruct H1 as [r ->].
      apply IH in H2. destruct H2 as [rows ->]. eexists. reflexivity.
Qed.

Lemma build_frame_length (txns : list Txn.t) (df : list raw_row) :
  build_frame txns = Some df -> List.length df = List.length txns.
Proof.
  revert df. induction txns as [|txn txns IH]; intros df; cbn [build_frame].
  - intros [= <-]. reflexivity.
  - destruct (frame_row txn); [|discriminate].
    destruct (build_frame txns) as [rows|]; [|discriminate].
    intros [= <-]. cbn [List.length]. f_equal. now apply IH.
Qed.

Section Pipeline.

Variable to_datetime : string -> option timestamp.
Variable get_best_match : string -> list string -> option string * Q.

Abbreviation core := (_run_loan_optimization_core to_datetime get_best_match).
Abbreviation pipeline := (loan_optimization_pipeline to_datetime get_best_match).

Lemma process_month_total (monthly_emi : Q) (lifestyle : string) (p : period)
    (group : list row) :
  exists rows summary,
    process_month get_best_match monthly_emi lifestyle p group
    = Some (rows, summary).
Proof.
  unfold process_month.
  rewrite ThresholdFacts.dynamic_threshold_adjuster_eq.
  do 2 eexists. reflexivity.
Qed.

Lemma process_months_total (monthly_emi : Q) (lifestyle : string)
    (groups : list (period * list row)) :
  exists final_results summaries,
    process_months get_best_match monthly_emi lifestyle groups
    = Some (final_results, summaries) /\
    List.length summaries = List.length groups.
Proof.
  induction groups as [|[p group] groups IH]; cbn [process_months].
  - do 2 eexists. split; reflexivity.
  - destruct (process_month_total monthly_emi lifestyle p group)
      as (rows & summary & ->).
    destruct IH as (final_results & summaries & -> & Hlen).
    do 2 eexists. split; [reflexivity|]. cbn [List.length]. now rewrite Hlen.
Qed.

(** The core returns a result for every frame. *)
Lemma core_total (df : list raw_row) :
  exists r,
    core df = Some r /\
    lifestyle r = infer_lifestyle (parse_rows to_datetime df) /\
    monthly_emi r == 24910.03 /\
    generate_repayment_schedule LOAN_AMOUNT INTEREST_RATE LOAN_YEARS 0
    = Some (normal_schedule r) /\
    List.length (monthly_summary r)
    = List.length (groupby_month (parse_rows to_datetime df)).
Proof.
  unfold _run_loan_optimization_core.
  destruct (PipelineFacts.first_row_emi 0) as (first & rest & Hgen & Hemi).
  set (standard := generate_repayment_schedule LOAN_AMOUNT INTEREST_RATE
                     LOAN_YEARS 0) in *.
  rewrite Hgen.
  destruct (process_months_total (Py.round2 (EMI first))
              (infer_lifestyle (parse_rows to_datetime df))
              (groupby_month (parse_rows to_datetime df)))
    as (final_results & summaries & Hmonths & Hlen).
  rewrite Hmonths.
  match goal with
  | |- context [generate_repayment_schedule ?a ?b ?c ?d] =>
      set (optimized := generate_repayment_schedule a b c d)
  end.
  assert (Hopt : exists rows, optimized = Some rows).
  { unfold optimized. rewrite engine_schedule. eexists. reflexivity. }
  destruct Hopt as [rows Hopt]. rewrite Hopt.
  eexists. split; [reflexivity|].
  cbn [lifestyle monthly_emi normal_schedule monthly_summary].
  split; [reflexivity|]. split; [exact Hemi|]. split; [reflexivity | exact Hlen].
Qed.

(** X16. Up to the formatting of the result as text, which is left out of
    the model, the pipeline returns a successful result exactly for the
    non-empty batches in which every amount that is present converts to a
    number: the core itself never fails.  An empty batch gives the
    missing-data error, an amount that does not convert the error of a
    caught exception, and the error "Unable to process transaction data" is
    never returned.  A successful result reports the instalment 24910.03,
    the standard schedule, and a lifestyle inferred from the rows with a
    readable date. *)
Theorem pipeline_outcome_by_amounts (transactions : list Txn.t) :
  ((exists r, pipeline transactions = Success r) <->
   transactions <> [] /\ Forall convertible transactions) /\
  (pipeline transactions = Failure NoTransactionData <-> transactions = []) /\
  (pipeline transactions = Failure ErrorOccurred <->
   transactions <> [] /\ ~ Forall convertible transactions) /\
  pipeline transactions <> Failure UnableToProcess /\
  (forall r,
      pipeline transactions = Success r ->
      monthly_emi r == 24910.03 /\
      generate_repayment_schedule LOAN_AMOUNT INTEREST_RATE LOAN_YEARS 0
      = Some (normal_schedule r) /\
      exists df,
        build_frame transactions = Some df /\
        List.length df = List.length transactions /\
        lifestyle r = infer_lifestyle (parse_rows to_datetime df)).
Proof.
  destruct transactions as [|txn txns].
  - cbn [loan_optimization_pipeline].
    split; [split; [intros [r H]; discriminate | intros [H _]; congruence]|].
    split; [split; reflexivity|].
    split; [split; [discriminate | intros [H _]; congruence]|].
    split; [discriminate|]. intros r H. discriminate.
  - set (batch := txn :: txns).
    assert (Hne : batch <> []) by discriminate.
    destruct (build_frame batch) as [df|] eqn:Hframe.
    + assert (Hconv : Forall convertible batch).
      { apply build_frame_some. eauto. }
      pose proof (PipelineFacts.build_frame_nonempty batch df Hne Hframe) as Hdf.
      pose proof (build_frame_length batch df Hframe) as Hlen.
      destruct (core_total df) as (r & Hcore & Hlife & Hemi & Hstd & _).
      assert (Hrun : pipeline batch = Success r).
      { unfold loan_optimization_pipeline, batch. fold batch. rewrite Hframe.
        destruct df as [|row df]; [congruence|]. rewrite Hcore. reflexivity. }
      rewrite Hrun.
      split; [split; [intros _; split; assumption | intros _; exists r; reflexivity]|].
      split; [split; [discriminate | intros H; congruence]|].
      split; [split; [discriminate | intros [_ H]; contradiction]|].
      split; [discriminate|].
      intros r' [= <-]. split; [exact Hemi|]. split; [exact Hstd|].
      exists df. split; [reflexivity|]. split; [exact Hlen | exact Hlife].
    + assert (Hconv : ~ Forall convertible batch).
      { intros H. apply build_frame_some in H. destruct H as [df H]. congruence. }
      assert (Hrun : pipeline batch = Failure ErrorOccurred).
      { unfold loan_optimization_pipeline, batch. fold batch. rewrite Hframe.
        reflexivity. }
      rewrite Hrun.
      split; [split; [intros [r H]; discriminate | intros [_ H]; contradiction]|].
      split; [split; [discriminate | intros H; congruence]|].
      split; [split; [intros _; split; assumption | reflexivity]|].
      split; [discriminate|]. intros r H. discriminate.
Qed.

(** *** What the core keeps of the frame *)

Lemma spending_fold_base (thresholds : list (string * Q)) (rows : list row)
    (acc : list (string * Q) * list spend_row) :
  map base (snd (fold_left (spending_step thresholds) rows acc))
  = map base (snd acc) ++ rows.
Proof.
  revert acc. induction rows as [|r rows IH]; intros [cumulative out];
    cbn [fold_left].
  - cbn [snd]. now rewrite app_nil_r.
  - rewrite IH. unfold spending_step.
    destruct (Py.get _ thresholds) as [t|];
      [destruct (Py.leb _ t)|]; cbn [snd];
      rewrite map_app; cbn [map base]; now rewrite <- app_assoc.
Qed.

Lemma spending_base (group : list row) (thresholds : list (string * Q)) :
  map base (calculate_not_necessary_spending group thresholds)
  = sort_by_date group.
Proof.
  unfold calculate_not_necessary_spending, spending_loop.
  now rewrite spending_fold_base.
Qed.

Definition flagged (rows : list final_row) : Q :=
  Py.sum (map (fun f => non_essential_amount (spend f)) rows).

Definition rows_of (rows : list final_row) : list row :=
  map (fun f => base (spend f)) rows.

Lemma process_month_keeps (monthly_emi : Q) (lifestyle : string) (p : period)
    (group : list row) (rows : list final_row) (summary : summary_row) :
  process_month get_best_match monthly_emi lifestyle p group
  = Some (rows, summary) ->
  rows_of rows = sort_by_date group /\
  Summary_Month summary = p /\
  Unnecessary_Spending summary = flagged rows.
Proof.
  unfold process_month.
  destruct (dynamic_threshold_adjuster _ _) as [thresholds|]; [|discriminate].
  intros [= <- <-]. cbn [Summary_Month Unnecessary_Spending].
  split; [|split; reflexivity].
  unfold rows_of. rewrite map_map. cbn [flag_row spend].
  rewrite <- (spending_base group thresholds). reflexivity.
Qed.

Lemma flagged_app (a b : list final_row) : flagged (a ++ b) == flagged a + flagged b.
Proof. unfold flagged. now rewrite map_app, PyFacts.sum_app. Qed.

Lemma process_months_keep (monthly_emi : Q) (lifestyle : string)
    (groups : list (period * list row)) (final_results : list (list final_row))
    (summaries : list summary_row) :
  process_months get_best_match monthly_emi lifestyle groups
  = Some (final_results, summaries) ->
  rows_of (List.concat final_results)
  = List.concat (map (fun g => sort_by_date (snd g)) groups) /\
  map Summary_Month summaries = map fst groups /\
  Py.sum (map Unnecessary_Spending summaries)
  == flagged (List.concat final_results).
Proof.
  revert final_results summaries.
  induction groups as [|[p group] groups IH]; intros final_results summaries;
    cbn [process_months].
  - intros [= <- <-]. cbn. repeat split; reflexivity.
  - destruct (process_month _ _ _ p group) as [[rows summary]|] eqn:Hmonth;
      [|discriminate].
    destruct (process_months _ _ _ groups) as [[fr ms]|]; [|discriminate].
    intros [= <- <-].
    destruct (process_month_keeps _ _ _ _ _ _ Hmonth) as (Hrows & Hp & Hu).
    destruct (IH fr ms eq_refl) as (IH1 & IH2 & IH3).
    cbn [List.concat map fst snd]. split; [|split].
    + unfold rows_of in *. rewrite map_app, Hrows, IH1. reflexivity.
    + now rewrite Hp, IH2.
    + rewrite PyFacts.sum_cons, flagged_app, Hu, IH3. reflexivity.
Qed.

(** Months in strictly increasing order. *)
Fixpoint increasing (months : list period) : Prop :=
  match months with
  | [] => True
  | p :: rest =>
      Forall (fun q => period_compare p q = Lt) rest /\ increasing rest
  end.

Lemma period_compare_eq (p q : period) : period_compare p q = Eq -> p = q.
Proof.
  destruct p as [a b], q as [c d]. unfold period_compare. cbn [fst snd].
  destruct (a ?= c)%Z eqn:E; try discriminate.
  intros H. apply Z.compare_eq in E. apply Z.compare_eq in H. congruence.
Qed.

Lemma period_compare_lt (p q : period) :
  period_compare p q = Lt <->
  (fst p < fst q \/ (fst p = fst q /\ snd p < snd q))%Z.
Proof.
  unfold period_compare.
  destruct (fst p ?= fst q)%Z eqn:E.
  - apply Z.compare_eq in E. rewrite Z.compare_lt_iff. lia.
  - rewrite Z.compare_lt_iff in E. split; [intros _; lia | reflexivity].
  - rewrite Z.compare_gt_iff in E. split; [discriminate | lia].
Qed.

Lemma period_compare_gt (p q : period) :
  period_compare p q = Gt -> period_compare q p = Lt.
Proof.
  intros H. apply period_compare_lt. unfold period_compare in H.
  destruct (fst p ?= fst q)%Z eqn:E.
  - apply Z.compare_eq in E. rewrite Z.compare_gt_iff in H. lia.
  - discriminate.
  - rewrite Z.compare_gt_iff in E. lia.
Qed.

Lemma period_compare_trans (p q s : period) :
  period_compare p q = Lt -> period_compare q s = Lt -> period_compare p s = Lt.
Proof. rewrite !period_compare_lt. lia. Qed.

Lemma insert_group_keys (r : row) (groups : list (period * list row)) (q : period) :
  In q (map fst (insert_group r groups)) <->
  q = month r \/ In q (map fst groups).
Proof.
  induction groups as [|[p rows] groups IH]; cbn [insert_group map fst In].
  - intuition congruence.
  - destruct (period_compare (month r) p) eqn:E; cbn [map fst In].
    + apply period_compare_eq in E. intuition congruence.
    + intuition congruence.
    + rewrite IH. intuition congruence.
Qed.

Lemma insert_group_increasing (r : row) (groups : list (period * list row)) :
  increasing (map fst groups) ->
  increasing (map fst (insert_group r groups)).
Proof.
  induction groups as [|[p rows] groups IH]; cbn [insert_group map fst increasing].
  - intros _. split; [constructor | exact I].
  - intros [Hp Hrest]. destruct (period_compare (month r) p) eqn:E;
      cbn [map fst increasing].
    + split; assumption.
    + split; [|split; assumption].
      constructor; [exact E|].
      eapply Forall_impl; [|exact Hp]. intros q Hq.
      exact (period_compare_trans _ _ _ E Hq).
    + split; [|now apply IH].
      apply Forall_forall. intros q Hq. apply insert_group_keys in Hq.
      destruct Hq as [->|Hq]; [now apply period_compare_gt|].
      rewrite Forall_forall in Hp. now apply Hp.
Qed.

Lemma insert_group_perm (r : row) (groups : list (period * list row)) :
  Permutation (List.concat (map snd (insert_group r groups)))
    (r :: List.concat (map snd groups)).
Proof.
  induction groups as [|[p rows] groups IH]; cbn [insert_group map snd List.concat].
  - apply Permutation_refl.
  - destruct (period_compare (month r) p); cbn [map snd List.concat].
    + rewrite <- app_assoc. cbn [app].
      apply Permutation_sym, Permutation_middle.
    + apply Permutation_refl.
    + eapply perm_trans; [apply Permutation_app_head, IH|].
      apply Permutation_sym, Permutation_middle.
Qed.

Lemma groupby_month_facts (df : list row) :
  Permutation (List.concat (map snd (groupby_month df))) df /\
  increasing (map fst (groupby_month df)) /\
  (forall q, In q (map fst (groupby_month df)) <->
             exists r, In r df /\ month r = q).
Proof.
  unfold groupby_month.
  assert (H : forall acc,
             let groups := fold_left (fun groups r => insert_group r groups) df acc in
             Permutation (List.concat (map snd groups))
               (List.concat (map snd acc) ++ df) /\
             (increasing (map fst acc) -> increasing (map fst groups)) /\
             (forall q, In q (map fst groups) <->
                        In q (map fst acc) \/ exists r, In r df /\ month r = q)).
  { induction df as [|r df IH]; intros acc; cbn [fold_left].
    - cbn zeta. rewrite app_nil_r. split; [apply Permutation_refl|].
      split; [tauto|]. intros q. split; [tauto|].
      intros [H|(r & [] & _)]. exact H.
    - destruct (IH (insert_group r acc)) as (IH1 & IH2 & IH3).
      cbn zeta. split; [|split].
      + eapply perm_trans; [exact IH1|].
        eapply perm_trans; [apply Permutation_app_tail, insert_group_perm|].
        cbn [app]. apply Permutation_middle.
      + intros Hacc. apply IH2. now apply insert_group_increasing.
      + intros q. rewrite IH3, insert_group_keys. split.
        * intros [[->|H]|(r' & Hr' & Hq)].
          -- right. exists r. split; [now left | reflexivity].
          -- now left.
          -- right. exists r'. split; [now right | exact Hq].
        * intros [H|(r' & [->|Hr'] & Hq)].
          -- left. now right.
          -- left. left. now symmetry.
          -- right. exists r'. split; assumption. }
  destruct (H []) as (H1 & H2 & H3). cbn zeta in *. cbn [map List.concat app] in *.
  split; [exact H1|]. split; [apply H2; exact I|].
  intros q. rewrite H3. cbn [In]. tauto.
Qed.

Lemma concat_sorted_perm (groups : list (period * list row)) :
  Permutation (List.concat (map (fun g => sort_by_date (snd g)) groups))
    (List.concat (map snd groups)).
Proof.
  induction groups as [|[p rows] groups IH]; cbn [map List.concat snd].
  - apply Permutation_refl.
  - apply Permutation_app; [|exact IH].
    apply Permutation_sym, SpendingFacts.sort_by_date_perm.
Qed.

(** X17. On every frame the core returns a result in which each row with a
    readable date appears exactly once among the categorized transactions
    (rows with an unreadable date are dropped, no row is added); the monthly
    summary has one line for each month in which a row falls, in strictly
    increasing order of the months; the unnecessary spending of the
    summary lines adds up to the non-essential amounts of the categorized
    transactions; and that total is the extra annual payment of the
    optimized schedule. *)
Theorem core_keeps_dated_rows (df : list raw_row) :
  exists r,
    core df = Some r /\
    Permutation (rows_of (categorized_transactions r)) (parse_rows to_datetime df) /\
    increasing (map Summary_Month (monthly_summary r)) /\
    (forall p,
        In p (map Summary_Month (monthly_summary r)) <->
        exists row, In row (parse_rows to_datetime df) /\ month row = p) /\
    Py.sum (map Unnecessary_Spending (monthly_summary r))
    == flagged (categorized_transactions r) /\
    generate_repayment_schedule LOAN_AMOUNT INTEREST_RATE LOAN_YEARS
      (match categorized_transactions r with
       | [] => 0.0
       | _ => flagged (categorized_transactions r)
       end)
    = Some (optimized_schedule r).
Proof.
  unfold _run_loan_optimization_core.
  destruct (PipelineFacts.first_row_emi 0) as (first & rest & Hgen & Hemi).
  set (standard := generate_repayment_schedule LOAN_AMOUNT INTEREST_RATE
                     LOAN_YEARS 0) in *.
  rewrite Hgen.
  set (rows := parse_rows to_datetime df).
  destruct (process_months_total (Py.round2 (EMI first)) (infer_lifestyle rows)
              (groupby_month rows))
    as (final_results & summaries & Hmonths & _).
  rewrite Hmonths.
  destruct (process_months_keep _ _ _ _ _ Hmonths) as (Hrows & Hkeys & Hsum).
  destruct (groupby_month_facts rows) as (Hperm & Hinc & Hin).
  match goal with
  | |- context [generate_repayment_schedule ?a ?b ?c ?d] =>
      set (extra := d); set (optimized := generate_repayment_schedule a b c extra)
  end.
  assert (Hopt : exists schedule, optimized = Some schedule).
  { unfold optimized. rewrite engine_schedule. eexists. reflexivity. }
  destruct Hopt as [schedule Hopt]. rewrite Hopt.
  eexists. split; [reflexivity|].
  cbn [categorized_transactions monthly_summary optimized_schedule].
  split; [|split; [|split; [|split]]].
  - rewrite Hrows.
    eapply perm_trans; [apply concat_sorted_perm | exact Hperm].
  - rewrite Hkeys. exact Hinc.
  - intros p. rewrite Hkeys. apply Hin.
  - exact Hsum.
  - exact Hopt.
Qed.

End Pipeline.

End OutcomeFacts.

(** ** Periods, investments and avoidable expenses ([backend/new.py]) *)

Module LedgerFacts.
Import New NewFacts.

Section Aggregator.

Variable month_year_keys : string -> option (string * string).
Variable person_search : string -> option string.
Variable str_float : Q -> string.

Abbreviation analyze_step :=
  (New.analyze_step month_year_keys person_search str_float).
Abbreviation analyze :=
  (New.analyze_transactions_comprehensive month_year_keys person_search str_float).

(** The month and year keys of a record, when its date is there and parses. *)
Definition period_of (txn : Txn.t) : option (string * string) :=
  match Txn.created_at txn with
  | Some created => month_year_keys created
  | None => None
  end.

Definition dated (txn : Txn.t) : bool :=
  classified txn && match period_of txn with Some _ => true | None => false end.

Definition in_month (key : string) (txn : Txn.t) : bool :=
  classified txn
  && match period_of txn with
     | Some (month_key, _) => String.eqb key month_key
     | None => false
     end.

Definition in_year (key : string) (txn : Txn.t) : bool :=
  classified txn
  && match period_of txn with
     | Some (_, year_key) => String.eqb key year_key
     | None => false
     end.

(** The investment entry and the avoidable expense a record adds. *)
Definition invests (txn : Txn.t) : bool :=
  classified txn && Py.any_in INVESTMENT_KEYWORDS (desc_lower_of txn).

Definition investment_of (txn : Txn.t) : list investment_entry :=
  if invests txn then
    match Txn.created_at txn with
    | Some created =>
        [mk_investment_entry created (amount_of txn)
           (Txn.get_or (Txn.description txn) "")]
    | None => []
    end
  else [].

Definition avoidable (txn : Txn.t) : bool :=
  classified txn
  && Py.mem (Py.lower (resolved txn)) AVOIDABLE_CATEGORIES
  && Py.ltb 1000 (amount_of txn)
  && negb (is_type "loan_payment" txn
           && match Txn.created_at txn with Some _ => false | None => true end).

(** The accumulators these properties are about. *)
Definition ledger (st : analysis)
    : list (string * Q) * list (string * Q) * list investment_entry * list Txn.t :=
  (monthly_totals st, yearly_totals st, investment_entries st,
   avoidable_expenses st).

Lemma ledger_add_category category amount st :
  ledger (add_category category amount st) = ledger st.
Proof. reflexivity. Qed.

Lemma ledger_add_person desc_lower amount st :
  ledger (add_person person_search desc_lower amount st) = ledger st.
Proof.
  unfold add_person. destruct (Py.any_in _ _); [|reflexivity].
  destruct (person_search _); reflexivity.
Qed.

Lemma ledger_add_income_expense txn_type amount st :
  ledger (add_income_expense txn_type amount st) = ledger st.
Proof.
  unfold add_income_expense. destruct (String.eqb _ _); [reflexivity|].
  destruct (Py.mem _ _); reflexivity.
Qed.

Lemma ledger_add_reminder txn_type created amount st st' :
  add_reminder str_float txn_type created amount st = Some st' ->
  ledger st' = ledger st.
Proof.
  unfold add_reminder. destruct (String.eqb _ _).
  - destruct created; [intros [= <-]; reflexivity | discriminate].
  - intros [= <-]. reflexivity.
Qed.

Lemma resolved_investment_not_avoidable (desc_lower category : string) :
  Py.any_in INVESTMENT_KEYWORDS desc_lower = true ->
  Py.mem (Py.lower (resolve_category desc_lower category)) AVOIDABLE_CATEGORIES
  = false.
Proof.
  intros H. unfold resolve_category. rewrite H.
  destruct (Py.any_in FOOD_KEYWORDS desc_lower); reflexivity.
Qed.

Lemma resolved_food_not_avoidable (desc_lower category : string) :
  Py.any_in FOOD_KEYWORDS desc_lower = true ->
  Py.mem (Py.lower (resolve_category desc_lower category)) AVOIDABLE_CATEGORIES
  = false.
Proof.
  intros H. unfold resolve_category. rewrite H. reflexivity.
Qed.

(** What one turn of the loop does to these accumulators. *)
Lemma ledger_step (st : analysis) (txn : Txn.t) :
  ledger (analyze_step st txn)
  = if classified txn then
      (match period_of txn with
       | Some (month_key, _) => Py.add month_key (amount_of txn) (monthly_totals st)
       | None => monthly_totals st
       end,
       match period_of txn with
       | Some (_, year_key) => Py.add year_key (amount_of txn) (yearly_totals st)
       | None => yearly_totals st
       end,
       investment_entries st ++ investment_of txn,
       avoidable_expenses st ++ (if avoidable txn then [txn] else []))
    else ledger st.
Proof.
  unfold New.analyze_step, classified, period_of, investment_of, invests,
    avoidable, classified, amount_of, resolved, desc_lower_of, is_type, type_of.
  destruct (Txn.amount txn) as [| |amount]; try reflexivity.
  destruct (Txn.description txn) as [desc|]; try reflexivity.
  cbn [Txn.get_or andb].
  set (category := resolve_category _ _).
  set (txn_type := Txn.get_or (Txn.type txn) "").
  set (st1 := add_category category amount st).
  set (st2 := add_month_year _ _ _ st1).
  set (st3 := add_person _ _ _ st2).
  set (st4 := add_income_expense _ _ st3).
  assert (H2 : ledger st2
               = (match match Txn.created_at txn with
                        | Some created => month_year_keys created
                        | None => None
                        end with
                  | Some (month_key, _) => Py.add month_key amount (monthly_totals st)
                  | None => monthly_totals st
                  end,
                  match match Txn.created_at txn with
                        | Some created => month_year_keys created
                        | None => None
                        end with
                  | Some (_, year_key) => Py.add year_key amount (yearly_totals st)
                  | None => yearly_totals st
                  end,
                  investment_entries st, avoidable_expenses st)).
  { unfold st2, add_month_year.
    destruct (Txn.created_at txn) as [created|]; [|reflexivity].
    destruct (month_year_keys created) as [[m y]|]; reflexivity. }
  assert (H4 : ledger st4 = ledger st2).
  { unfold st4, st3. now rewrite ledger_add_income_expense, ledger_add_person. }
  rewrite H2 in H4. clear H2.
  assert (Hav : Py.any_in INVESTMENT_KEYWORDS (Py.lower desc) = true ->
                Py.mem (Py.lower category) AVOIDABLE_CATEGORIES = false).
  { intros H. unfold category. now apply resolved_investment_not_avoidable. }
  unfold add_reminder.
  destruct (String.eqb txn_type "loan_payment") eqn:Eloan.
  - destruct (Txn.created_at txn) as [created|] eqn:Ecreated.
    + unfold add_investment.
      destruct (Py.any_in INVESTMENT_KEYWORDS (Py.lower desc)) eqn:Einv.
      * unfold add_avoidable. rewrite (Hav eq_refl).
        cbn [andb]. unfold ledger in *. cbn.
        injection H4 as -> -> -> ->. rewrite app_nil_r. reflexivity.
      * unfold add_avoidable.
        destruct (Py.mem _ AVOIDABLE_CATEGORIES && Py.ltb 1000 amount);
          unfold ledger in *; cbn; injection H4 as -> -> -> ->;
          rewrite ?app_nil_r, ?andb_false_r; reflexivity.
    + cbn [andb negb]. rewrite H4, !andb_false_r.
      destruct (Py.any_in INVESTMENT_KEYWORDS (Py.lower desc));
        rewrite !app_nil_r; reflexivity.
  - cbn [andb negb]. rewrite andb_true_r.
    unfold add_investment.
    destruct (Py.any_in INVESTMENT_KEYWORDS (Py.lower desc)) eqn:Einv.
    + rewrite (Hav eq_refl). cbn [andb].
      destruct (Txn.created_at txn) as [created|].
      * unfold add_avoidable. rewrite (Hav eq_refl). cbn [andb].
        unfold ledger in *. cbn. injection H4 as -> -> -> ->.
        rewrite app_nil_r. reflexivity.
      * rewrite H4, !app_nil_r. reflexivity.
    + unfold add_avoidable.
      destruct (Py.mem _ AVOIDABLE_CATEGORIES && Py.ltb 1000 amount);
        unfold ledger in *; cbn; injection H4 as -> -> -> ->;
        rewrite ?app_nil_r, ?andb_false_r; reflexivity.
Qed.

Definition total (keep : Txn.t -> bool) (txns : list Txn.t) : Q :=
  Py.sum (map amount_of (filter keep txns)).

Lemma total_cons keep txn txns :
  total keep (txn :: txns)
  == (if keep txn then amount_of txn else 0) + total keep txns.
Proof.
  unfold total. cbn [filter]. destruct (keep txn); cbn [map].
  - apply PyFacts.sum_cons.
  - lra.
Qed.

Lemma total_nil keep : total keep [] == 0.
Proof. reflexivity. Qed.

Lemma total_perm keep txns txns' :
  Permutation txns txns' -> total keep txns == total keep txns'.
Proof.
  induction 1 as [|t l l' _ IH|t t' l|l l' l'' _ IH1 _ IH2].
  - reflexivity.
  - rewrite !total_cons, IH. reflexivity.
  - rewrite !total_cons. lra.
  - now rewrite IH1.
Qed.

(** The accumulators after the loop, from any state. *)
Lemma ledger_fold (txns : list Txn.t) (st : analysis) :
  let st' := fold_left analyze_step txns st in
  (forall key,
      Py.get0 key (monthly_totals st')
      == Py.get0 key (monthly_totals st) + total (in_month key) txns) /\
  (forall key,
      Py.get0 key (yearly_totals st')
      == Py.get0 key (yearly_totals st) + total (in_year key) txns) /\
  Py.sum (Py.values (monthly_totals st'))
  == Py.sum (Py.values (monthly_totals st)) + total dated txns /\
  Py.sum (Py.values (yearly_totals st'))
  == Py.sum (Py.values (yearly_totals st)) + total dated txns /\
  (NoDup (Py.keys (monthly_totals st)) -> NoDup (Py.keys (monthly_totals st'))) /\
  (NoDup (Py.keys (yearly_totals st)) -> NoDup (Py.keys (yearly_totals st'))) /\
  investment_entries st' = investment_entries st ++ flat_map investment_of txns /\
  avoidable_expenses st' = avoidable_expenses st ++ filter avoidable txns.
Proof.
  revert st. induction txns as [|txn txns IH]; intros st; cbn [fold_left].
  - cbn zeta. cbn [flat_map filter]. rewrite !app_nil_r.
    split; [intros key; rewrite total_nil; lra|].
    split; [intros key; rewrite total_nil; lra|].
    rewrite !total_nil.
    split; [lra|]. split; [lra|]. split; [tauto|]. split; [tauto|].
    split; reflexivity.
  - destruct (IH (analyze_step st txn)) as (M & Y & SM & SY & NM & NY & I & A).
    pose proof (ledger_step st txn) as Hstep. unfold ledger in Hstep.
    cbn zeta.
    assert (Hm : in_month = fun key t =>
                   classified t
                   && match period_of t with
                      | Some (month_key, _) => String.eqb key month_key
                      | None => false
                      end) by reflexivity.
    assert (Hy : in_year = fun key t =>
                   classified t
                   && match period_of t with
                      | Some (_, year_key) => String.eqb key year_key
                      | None => false
                      end) by reflexivity.
    assert (Hd : dated txn
                 = classified txn
                   && match period_of txn with Some _ => true | None => false end)
      by reflexivity.
    destruct (classified txn) eqn:Hc.
    + injection Hstep as Em Ey Ei Ea.
      split; [|split; [|split; [|split; [|split; [|split; [|split]]]]]].
      * intros key. rewrite M, Em, total_cons, Hm, Hc. cbn [andb].
        destruct (period_of txn) as [[m y]|].
        -- rewrite get0_add. lra.
        -- lra.
      * intros key. rewrite Y, Ey, total_cons, Hy, Hc. cbn [andb].
        destruct (period_of txn) as [[m y]|].
        -- rewrite get0_add. lra.
        -- lra.
      * rewrite SM, Em, total_cons, Hd. cbn [andb].
        destruct (period_of txn) as [[m y]|].
        -- rewrite sum_values_add. lra.
        -- lra.
      * rewrite SY, Ey, total_cons, Hd. cbn [andb].
        destruct (period_of txn) as [[m y]|].
        -- rewrite sum_values_add. lra.
        -- lra.
      * intros H. apply NM. rewrite Em.
        destruct (period_of txn) as [[m y]|]; [now apply NoDup_keys_add | exact H].
      * intros H. apply NY. rewrite Ey.
        destruct (period_of txn) as [[m y]|]; [now apply NoDup_keys_add | exact H].
      * rewrite I, Ei. cbn [flat_map]. now rewrite app_assoc.
      * rewrite A, Ea. cbn [filter].
        destruct (avoidable txn); [now rewrite <- app_assoc | now rewrite app_nil_r].
    + injection Hstep as Em Ey Ei Ea.
      assert (Hinv : investment_of txn = []).
      { unfold investment_of, invests. now rewrite Hc. }
      assert (Hav : avoidable txn = false).
      { unfold avoidable. now rewrite Hc. }
      split; [|split; [|split; [|split; [|split; [|split; [|split]]]]]].
      * intros key. rewrite M, Em, total_cons, Hm, Hc. cbn [andb]. lra.
      * intros key. rewrite Y, Ey, total_cons, Hy, Hc. cbn [andb]. lra.
      * rewrite SM, Em, total_cons, Hd. cbn [andb]. lra.
      * rewrite SY, Ey, total_cons, Hd. cbn [andb]. lra.
      * intros H. apply NM. now rewrite Em.
      * intros H. apply NY. now rewrite Ey.
      * rewrite I, Ei. cbn [flat_map]. now rewrite Hinv.
      * rewrite A, Ea. cbn [filter]. now rewrite Hav.
Qed.

Lemma analyze_cons (txn : Txn.t) (txns : list Txn.t) :
  analyze (txn :: txns)
  = Some {| totals := fold_left analyze_step (txn :: txns) initial;
            net_savings :=
              total_income (fold_left analyze_step (txn :: txns) initial)
              - total_expense (fold_left analyze_step (txn :: txns) initial) |}.
Proof. reflexivity. Qed.

(** X19. For a non-empty batch, the total of a month (of a year) is the sum
    of the amounts of the processed records whose date parses to that month
    (that year); the monthly totals and the yearly totals both add up to the
    sum of the processed records whose date parses, so a record without a
    readable date is in the category totals but in no period; the keys are
    unique; and the totals of a period do not depend on the order of the
    batch. *)
Theorem period_totals_account (txn : Txn.t) (txns : list Txn.t) :
  let batch := txn :: txns in
  exists r,
    analyze batch = Some r /\
    (forall key,
        Py.get0 key (monthly_totals (totals r)) == total (in_month key) batch) /\
    (forall key,
        Py.get0 key (yearly_totals (totals r)) == total (in_year key) batch) /\
    Py.sum (Py.values (monthly_totals (totals r))) == total dated batch /\
    Py.sum (Py.values (yearly_totals (totals r))) == total dated batch /\
    NoDup (Py.keys (monthly_totals (totals r))) /\
    NoDup (Py.keys (yearly_totals (totals r))) /\
    (forall batch' r',
        Permutation batch batch' -> analyze batch' = Some r' ->
        forall key,
          Py.get0 key (monthly_totals (totals r'))
          == Py.get0 key (monthly_totals (totals r)) /\
          Py.get0 key (yearly_totals (totals r'))
          == Py.get0 key (yearly_totals (totals r))).
Proof.
  cbv zeta. rewrite analyze_cons. set (batch := txn :: txns).
  eexists. split; [reflexivity|]. cbn [totals].
  destruct (ledger_fold batch initial) as (M & Y & SM & SY & NM & NY & _).
  cbn zeta in *.
  assert (Hz : forall key, Py.get0 key [] == 0) by reflexivity.
  assert (Hs : Py.sum (Py.values (@nil (string * Q))) == 0) by reflexivity.
  cbn [initial monthly_totals yearly_totals] in M, Y, SM, SY, NM, NY.
  split; [intros key; rewrite M, Hz; lra|].
  split; [intros key; rewrite Y, Hz; lra|].
  split; [rewrite SM, Hs; lra|]. split; [rewrite SY, Hs; lra|].
  split; [apply NM; constructor|]. split; [apply NY; constructor|].
  intros batch' r' Hperm Hr' key.
  destruct batch' as [|txn' txns'].
  { apply Permutation_sym, Permutation_nil in Hperm. discriminate. }
  rewrite analyze_cons in Hr'. injection Hr' as <-. cbn [totals].
  destruct (ledger_fold (txn' :: txns') initial) as (M' & Y' & _).
  cbn zeta in *. cbn [initial monthly_totals yearly_totals] in M', Y'.
  rewrite M, M', Y, Y'.
  rewrite (total_perm (in_month key) _ _ Hperm),
    (total_perm (in_year key) _ _ Hperm).
  split; reflexivity.
Qed.

(** X20. For a non-empty batch, the investment entries are, in batch order,
    the processed records that mention an investment keyword and have a
    date; the avoidable expenses are, in batch order, the records of the
    batch with an amount above 1000 whose category, as totalled, is one of
    the avoidable ones in any letter case (a loan payment without date
    excepted).  So an avoidable expense never mentions a food or an
    investment keyword, whatever category the record carries, and it is the
    record of the batch itself. *)
Theorem investments_and_avoidable_expenses (txn : Txn.t) (txns : list Txn.t) :
  let batch := txn :: txns in
  exists r,
    analyze batch = Some r /\
    investment_entries (totals r) = flat_map investment_of batch /\
    avoidable_expenses (totals r) = filter avoidable batch /\
    Forall (fun t =>
              In t batch /\ 1000 < amount_of t /\
              Py.mem (Py.lower (resolved t)) AVOIDABLE_CATEGORIES = true /\
              Py.any_in FOOD_KEYWORDS (desc_lower_of t) = false /\
              Py.any_in INVESTMENT_KEYWORDS (desc_lower_of t) = false)
      (avoidable_expenses (totals r)).
Proof.
  cbv zeta. rewrite analyze_cons. set (batch := txn :: txns).
  eexists. split; [reflexivity|]. cbn [totals].
  destruct (ledger_fold batch initial) as (_ & _ & _ & _ & _ & _ & I & A).
  cbn zeta in *. cbn [initial investment_entries avoidable_expenses app] in I, A.
  split; [exact I|]. split; [exact A|].
  rewrite A. apply Forall_forall. intros t Ht.
  apply filter_In in Ht. destruct Ht as [Hin Hav].
  unfold avoidable in Hav.
  apply andb_true_iff in Hav. destruct Hav as [Hav _].
  apply andb_true_iff in Hav. destruct Hav as [Hav Hamount].
  apply andb_true_iff in Hav. destruct Hav as [_ Hcat].
  apply PyFacts.ltb_lt in Hamount.
  split; [exact Hin|]. split; [exact Hamount|]. split; [exact Hcat|].
  unfold resolved in Hcat. split.
  - destruct (Py.any_in FOOD_KEYWORDS (desc_lower_of t)) eqn:E; [|reflexivity].
    rewrite (resolved_food_not_avoidable _ _ E) in Hcat. discriminate.
  - destruct (Py.any_in INVESTMENT_KEYWORDS (desc_lower_of t)) eqn:E; [|reflexivity].
    rewrite (resolved_investment_not_avoidable _ _ E) in Hcat. discriminate.
Qed.

End Aggregator.

End LedgerFacts.

(** ** Searches over a batch ([backend/new.py]) *)

Module SearchFacts.
Import New.

(** *** Substrings *)

Lemma append_assoc (a b c : string) : ((a ++ b) ++ c = a ++ (b ++ c))%string.
Proof. induction a as [|x a IH]; cbn; [reflexivity | now rewrite IH]. Qed.

Lemma prefix_iff (needle hay : string) :
  String.prefix needle hay = true <-> exists post, hay = (needle ++ post)%string.
Proof.
  revert hay. induction needle as [|a needle IH]; intros hay.
  - destruct hay; cbn; split; eauto.
  - destruct hay as [|b hay]; cbn.
    + split; [discriminate | intros [post H]; discriminate].
    + destruct (ascii_dec a b) as [->|Hne].
      * rewrite IH. split; intros [post H]; exists post; congruence.
      * split; [discriminate | intros [post H]; congruence].
Qed.

Lemma contains_iff (needle hay : string) :
  Py.contains needle hay = true <->
  exists pre post, hay = (pre ++ needle ++ post)%string.
Proof.
  induction hay as [|c hay IH]; cbn [Py.contains].
  - destruct (String.prefix needle "") eqn:E.
    + apply prefix_iff in E. destruct E as [post E].
      split; [intros _; exists ""%string, post; exact E | reflexivity].
    + split; [discriminate|]. intros (pre & post & H).
      destruct pre as [|x pre]; [|discriminate]. cbn in H.
      assert (String.prefix needle "" = true) by (apply prefix_iff; eauto).
      congruence.
  - destruct (String.prefix needle (String c hay)) eqn:E.
    + apply prefix_iff in E. destruct E as [post E].
      split; [intros _; exists ""%string, post; exact E | reflexivity].
    + rewrite IH. split.
      * intros (pre & post & H). exists (String c pre), post. cbn. now rewrite H.
      * intros (pre & post & H). destruct pre as [|x pre].
        -- cbn in H.
           assert (String.prefix needle (String c hay) = true)
             by (apply prefix_iff; eauto).
           congruence.
        -- cbn in H. injection H as _ H. eauto.
Qed.

Lemma contains_trans (a b c : string) :
  Py.contains a b = true -> Py.contains b c = true -> Py.contains a c = true.
Proof.
  rewrite !contains_iff. intros (p1 & q1 & ->) (p2 & q2 & ->).
  exists (p2 ++ p1)%string, (q1 ++ q2)%string.
  now rewrite !append_assoc.
Qed.

Lemma any_in_person_keywords (desc : string) :
  Py.any_in PERSON_KEYWORDS desc = Py.contains "to" desc.
Proof.
  unfold Py.any_in, PERSON_KEYWORDS. cbn [existsb].
  destruct (Py.contains "to" desc) eqn:E; [reflexivity|]. cbn [orb].
  assert (H : forall keyword,
             Py.contains "to" keyword = true -> Py.contains keyword desc = false).
  { intros keyword Hk. destruct (Py.contains keyword desc) eqn:Ek; [|reflexivity].
    rewrite (contains_trans _ _ _ Hk Ek) in E. discriminate. }
  rewrite !H by reflexivity. reflexivity.
Qed.

(** *** [find_person_transactions] *)

Definition names (person_name : string) (txn : Txn.t) : bool :=
  Py.contains (Py.lower person_name)
    (Py.lower (Txn.get_or (Txn.description txn) "")).

Definition pays (txn : Txn.t) : bool :=
  Py.contains "to" (Py.lower (Txn.get_or (Txn.description txn) "")).

Lemma collect_filter {A : Type} (keep : A -> bool) (l acc : list A) :
  fold_left (fun kept x => if keep x then kept ++ [x] else kept) l acc
  = acc ++ filter keep l.
Proof.
  revert acc. induction l as [|x l IH]; intros acc; cbn [fold_left filter].
  - now rewrite app_nil_r.
  - rewrite IH. destruct (keep x); [now rewrite <- app_assoc | reflexivity].
Qed.

Lemma find_person_filter (transactions : list Txn.t) (person_name : string) :
  find_person_transactions transactions person_name
  = filter (fun txn => names person_name txn && pays txn) transactions.
Proof.
  unfold find_person_transactions. rewrite collect_filter. cbn [app].
  apply filter_ext. intros txn. unfold mentions_person, names, pays.
  now rewrite any_in_person_keywords.
Qed.

(** X21. The search for a person keeps, in batch order, the records whose
    description, in lower case, contains the name in lower case and the
    letters "to": the other payment phrases add nothing, since each of them
    contains "to".  When the name itself contains "to" the search keeps
    every record that mentions the name.  Searching again in the result
    changes nothing, and the result for two batches put end to end is the
    two results put end to end. *)
Theorem find_person_transactions_filter (transactions more : list Txn.t)
    (person_name : string) :
  find_person_transactions transactions person_name
  = filter (fun txn => names person_name txn && pays txn) transactions /\
  (Py.contains "to" (Py.lower person_name) = true ->
   find_person_transactions transactions person_name
   = filter (names person_name) transactions) /\
  find_person_transactions
    (find_person_transactions transactions person_name) person_name
  = find_person_transactions transactions person_name /\
  find_person_transactions (transactions ++ more) person_name
  = find_person_transactions transactions person_name
    ++ find_person_transactions more person_name.
Proof.
  split; [apply find_person_filter|]. split; [|split].
  - intros Hto. rewrite find_person_filter. apply filter_ext. intros txn.
    unfold names, pays.
    destruct (Py.contains (Py.lower person_name) _) eqn:E; [|reflexivity].
    cbn [andb]. exact (contains_trans _ _ _ Hto E).
  - rewrite !find_person_filter.
    induction transactions as [|txn txns IH]; cbn [filter]; [reflexivity|].
    destruct (names person_name txn && pays txn) eqn:E; [|exact IH].
    cbn [filter]. rewrite E. now rewrite IH.
  - rewrite !find_person_filter. apply filter_app.
Qed.

(** *** [analyze_spending_by_category] *)

(** A record whose amount converts and that has a date and a description. *)
Definition readable (txn : Txn.t) : bool :=
  match amount_or_zero txn, Txn.created_at txn, Txn.description txn with
  | Some _, Some _, Some _ => true
  | _, _, _ => false
  end.

Definition amount0 (txn : Txn.t) : Q :=
  match amount_or_zero txn with Some amount => amount | None => 0 end.

Definition entry_of (txn : Txn.t) : category_entry :=
  mk_category_entry (Txn.get_or (Txn.created_at txn) "")
    (Txn.get_or (Txn.description txn) "") (amount0 txn)
    (Txn.get_or (Txn.type txn) "").

Definition is_spending (txn : Txn.t) : bool :=
  match Txn.type txn with
  | Some txn_type => Py.mem txn_type ["sent"; "expense"]%string
  | None => false
  end.

Lemma category_step_some (cl : string) (acc : list category_entry * Q)
    (txn : Txn.t) :
  category_step cl acc txn
  = if category_matches cl txn then
      if readable txn then
        Some (fst acc ++ [entry_of txn],
              if is_spending txn then snd acc + amount0 txn else snd acc)
      else None
    else Some acc.
Proof.
  destruct acc as [entries total_amount].
  unfold category_step, readable, entry_of, amount0, is_spending.
  destruct (category_matches cl txn); [|reflexivity].
  destruct (amount_or_zero txn) as [amount|]; [|reflexivity].
  destruct (Txn.created_at txn) as [created|]; [|reflexivity].
  destruct (Txn.description txn) as [description|]; [|reflexivity].
  cbn [fst snd Txn.get_or].
  destruct (Txn.type txn) as [txn_type|]; [|reflexivity].
  destruct (Py.mem txn_type _); reflexivity.
Qed.

Lemma category_loop_result (cl : string) (transactions : list Txn.t)
    (acc : list category_entry * Q) :
  match category_loop cl transactions acc with
  | Some (entries, total_amount) =>
      (forall txn, In txn transactions ->
                   category_matches cl txn = true -> readable txn = true) /\
      entries = fst acc ++ map entry_of (filter (category_matches cl) transactions) /\
      total_amount
      == snd acc
         + Py.sum (map amount0
                     (filter (fun txn => category_matches cl txn && is_spending txn)
                        transactions))
  | None =>
      exists txn, In txn transactions /\
                  category_matches cl txn = true /\ readable txn = false
  end.
Proof.
  revert acc. induction transactions as [|txn txns IH]; intros acc;
    cbn [category_loop].
  - destruct acc as [entries total_amount]. cbn [fst snd filter map].
    rewrite app_nil_r, PyFacts.sum_nil.
    split; [intros txn []|]. split; [reflexivity | lra].
  - rewrite category_step_some. cbn [filter].
    destruct (category_matches cl txn) eqn:Em.
    + destruct (readable txn) eqn:Er.
      * specialize (IH (fst acc ++ [entry_of txn],
                        if is_spending txn then snd acc + amount0 txn else snd acc)).
        destruct (category_loop cl txns _) as [[entries total_amount]|].
        -- destruct IH as (Hall & Hentries & Htotal). cbn [fst snd] in *.
           split; [|split].
           ++ intros t [<-|Ht] Hm; [exact Er | now apply Hall].
           ++ rewrite Hentries. cbn [map]. now rewrite <- app_assoc.
           ++ rewrite Htotal. cbn [andb].
              destruct (is_spending txn); cbn [map];
                rewrite ?PyFacts.sum_cons; lra.
        -- destruct IH as (t & Ht & Hm & Hr). exists t. split; [now right | auto].
      * exists txn. split; [now left | auto].
    + specialize (IH acc).
      destruct (category_loop cl txns acc) as [[entries total_amount]|].
      * destruct IH as (Hall & Hentries & Htotal). split; [|split].
        -- intros t [<-|Ht] Hm; [congruence | now apply Hall].
        -- exact Hentries.
        -- cbn [andb]. exact Htotal.
      * destruct IH as (t & Ht & Hm & Hr). exists t. split; [now right | auto].
Qed.

(** X22. The report on a category raises exactly when a record that matches
    the category lacks a date or a description or has an amount that does
    not convert.  Otherwise it lists the matching records in batch order,
    counts them, and totals the amounts of the matching records of type
    sent or expense only.  A record matches when the category, in lower
    case, occurs in its description or in its category, so the empty
    category matches every record; for the category food a food keyword in
    the description is enough. *)
Theorem spending_by_category_report (transactions : list Txn.t)
    (category : string) :
  let matches := category_matches (Py.lower category) in
  (analyze_spending_by_category transactions category = None <->
   exists txn, In txn transactions /\ matches txn = true /\ readable txn = false) /\
  (forall report,
      analyze_spending_by_category transactions category = Some report ->
      report_transactions report = map entry_of (filter matches transactions) /\
      transaction_count report = List.length (filter matches transactions) /\
      total_spent report
      == Py.sum (map amount0
                   (filter (fun txn => matches txn && is_spending txn)
                      transactions))) /\
  (Py.lower category = ""%string -> forall txn, matches txn = true) /\
  (Py.lower category = "food"%string ->
   forall txn,
     Py.any_in FOOD_KEYWORDS (Py.lower (Txn.get_or (Txn.description txn) "")) = true ->
     matches txn = true).
Proof.
  intros matches. unfold analyze_spending_by_category.
  pose proof (category_loop_result (Py.lower category) transactions ([], 0)) as H.
  fold matches in H.
  destruct (category_loop (Py.lower category) transactions ([], 0))
    as [[entries total_amount]|].
  - destruct H as (Hall & Hentries & Htotal). cbn [fst snd app] in *.
    split; [|split; [|split]].
    + split; [discriminate|]. intros (t & Ht & Hm & Hr).
      rewrite (Hall t Ht Hm) in Hr. discriminate.
    + intros report [= <-].
      cbn [report_transactions transaction_count total_spent].
      split; [exact Hentries|]. split; [now rewrite Hentries, length_map|].
      rewrite Htotal. lra.
    + intros Hempty txn. unfold matches, category_matches. rewrite Hempty.
      destruct (Py.lower (Txn.get_or (Txn.description txn) "")); reflexivity.
    + intros Hfood txn Hkw. unfold matches, category_matches.
      rewrite Hfood, Hkw. cbn. now rewrite !orb_true_r.
  - split; [|split; [|split]].
    + split; [intros _; exact H | reflexivity].
    + intros report Hr. discriminate.
    + intros Hempty txn. unfold matches, category_matches. rewrite Hempty.
      destruct (Py.lower (Txn.get_or (Txn.description txn) "")); reflexivity.
    + intros Hfood txn Hkw. unfold matches, category_matches.
      rewrite Hfood, Hkw. cbn. now rewrite !orb_true_r.
Qed.

End SearchFacts.

(** ** GST summary and dashboard numbers ([backend/new.py]) *)

Module SummaryFacts.
Import New.

Definition desc_of (txn : Txn.t) : string :=
  Py.lower (Txn.get_or (Txn.description txn) "").

Definition is_collected (txn : Txn.t) : bool :=
  Py.contains "gst collected" (desc_of txn)
  || Py.contains "gst received" (desc_of txn).

Definition is_paid (txn : Txn.t) : bool :=
  negb (is_collected txn)
  && (Py.contains "gst paid" (desc_of txn)
      || Py.contains "gst payment" (desc_of txn)).

Definition converts (txn : Txn.t) : bool :=
  match amount_or_zero txn with Some _ => true | None => false end.

Definition sum_of (keep : Txn.t -> bool) (txns : list Txn.t) : Q :=
  Py.sum (map SearchFacts.amount0 (filter keep txns)).

Lemma sum_of_cons keep txn txns :
  sum_of keep (txn :: txns)
  == (if keep txn then SearchFacts.amount0 txn else 0) + sum_of keep txns.
Proof.
  unfold sum_of. cbn [filter]. destruct (keep txn); cbn [map].
  - apply PyFacts.sum_cons.
  - lra.
Qed.

Lemma sum_of_nil keep : sum_of keep [] == 0.
Proof. reflexivity. Qed.

Lemma gst_step_some (acc : Q * Q) (txn : Txn.t) :
  gst_step acc txn
  = if converts txn then
      Some (if is_collected txn then fst acc + SearchFacts.amount0 txn else fst acc,
            if is_paid txn then snd acc + SearchFacts.amount0 txn else snd acc)
    else None.
Proof.
  destruct acc as [collected paid].
  unfold gst_step, converts, is_paid, is_collected, desc_of, SearchFacts.amount0.
  destruct (amount_or_zero txn) as [amount|]; [|reflexivity].
  cbn [fst snd].
  destruct (Py.contains "gst collected" _ || Py.contains "gst received" _);
    [reflexivity|].
  destruct (Py.contains "gst paid" _ || Py.contains "gst payment" _); reflexivity.
Qed.

Lemma gst_loop_result (transactions : list Txn.t) (acc : Q * Q) :
  match gst_loop transactions acc with
  | Some (collected, paid) =>
      forallb converts transactions = true /\
      collected == fst acc + sum_of is_collected transactions /\
      paid == snd acc + sum_of is_paid transactions
  | None => forallb converts transactions = false
  end.
Proof.
  revert acc. induction transactions as [|txn txns IH]; intros acc;
    cbn [gst_loop forallb].
  - destruct acc as [collected paid]. rewrite !sum_of_nil. cbn [fst snd].
    split; [reflexivity|]. split; lra.
  - rewrite gst_step_some. destruct (converts txn); [|reflexivity].
    cbn [andb].
    specialize (IH (if is_collected txn
                    then fst acc + SearchFacts.amount0 txn else fst acc,
                    if is_paid txn
                    then snd acc + SearchFacts.amount0 txn else snd acc)).
    destruct (gst_loop txns _) as [[c p]|]; [|exact IH].
    destruct IH as (Hall & Hc & Hp). cbn [fst snd] in *.
    split; [exact Hall|].
    rewrite !sum_of_cons, Hc, Hp.
    destruct (is_collected txn), (is_paid txn); split; lra.
Qed.

Lemma sum_of_perm keep txns txns' :
  Permutation txns txns' -> sum_of keep txns == sum_of keep txns'.
Proof.
  induction 1 as [|t l l' _ IH|t t' l|l l' l'' _ IH1 _ IH2].
  - reflexivity.
  - rewrite !sum_of_cons, IH. reflexivity.
  - rewrite !sum_of_cons. lra.
  - now rewrite IH1.
Qed.

(** X23. The GST summary raises exactly when some record of the batch, GST
    or not, has an amount that does not convert.  Otherwise the collected
    amount is the sum over the records that mention "gst collected" or
    "gst received", the paid amount the sum over the records that mention
    "gst paid" or "gst payment" and none of the former two, so no record is
    counted on both sides; the liability is collected minus paid; and the
    three numbers do not depend on the order of the batch. *)
Theorem gst_summary_accounts (transactions : list Txn.t) :
  (gst_summary_basic transactions = None <->
   exists txn, In txn transactions /\ Txn.amount txn = Txn.AmountInvalid) /\
  (forall s,
      gst_summary_basic transactions = Some s ->
      gst_collected s == sum_of is_collected transactions /\
      gst_paid s == sum_of is_paid transactions /\
      gst_liability s == gst_collected s - gst_paid s /\
      (forall txn, is_collected txn && is_paid txn = false) /\
      (forall transactions' s',
          Permutation transactions transactions' ->
          gst_summary_basic transactions' = Some s' ->
          gst_collected s' == gst_collected s /\ gst_paid s' == gst_paid s)).
Proof.
  assert (Hconv : forall txns,
             forallb converts txns = false <->
             exists txn, In txn txns /\ Txn.amount txn = Txn.AmountInvalid).
  { intros txns. induction txns as [|t txns IH]; cbn [forallb].
    - split; [discriminate | intros (t & [] & _)].
    - unfold converts at 1, amount_or_zero.
      destruct (Txn.amount t) eqn:E; cbn [andb].
      + rewrite IH. split; intros (x & Hx & Ha); exists x;
          [split; [now right | exact Ha]|].
        destruct Hx as [<-|Hx]; [congruence | tauto].
      + split; [intros _; exists t; split; [now left | exact E] | reflexivity].
      + rewrite IH. split; intros (x & Hx & Ha); exists x;
          [split; [now right | exact Ha]|].
        destruct Hx as [<-|Hx]; [congruence | tauto]. }
  unfold gst_summary_basic.
  pose proof (gst_loop_result transactions (0, 0)) as H.
  destruct (gst_loop transactions (0, 0)) as [[collected paid]|].
  - destruct H as (Hall & Hc & Hp). cbn [fst snd] in *. split.
    + split; [discriminate|]. intros Hex. apply Hconv in Hex. congruence.
    + intros s [= <-]. cbn [gst_collected gst_paid gst_liability].
      split; [lra|]. split; [lra|]. split; [reflexivity|]. split.
      * intros txn. unfold is_paid. destruct (is_collected txn); reflexivity.
      * intros transactions' s' Hperm.
        pose proof (gst_loop_result transactions' (0, 0)) as H'.
        destruct (gst_loop transactions' (0, 0)) as [[c' p']|]; [|discriminate].
        destruct H' as (_ & Hc' & Hp'). cbn [fst snd] in *.
        intros [= <-]. cbn [gst_collected gst_paid].
        rewrite Hc, Hc', Hp, Hp',
          (sum_of_perm is_collected _ _ Hperm), (sum_of_perm is_paid _ _ Hperm).
        split; reflexivity.
  - split; [|intros s Hs; discriminate].
    split; [intros _; now apply Hconv | reflexivity].
Qed.

(** *** The numbers of the dashboard *)

(** Larger amounts first. *)
Fixpoint descending (items : list (string * Q)) : Prop :=
  match items with
  | [] => True
  | x :: rest => Forall (fun y => snd y <= snd x) rest /\ descending rest
  end.

Lemma insert_by_amount_perm (item : string * Q) (sorted : list (string * Q)) :
  Permutation (item :: sorted) (insert_by_amount item sorted).
Proof.
  induction sorted as [|x rest IH]; cbn [insert_by_amount].
  - apply Permutation_refl.
  - destruct (Py.ltb (snd x) (snd item)).
    + apply Permutation_refl.
    + eapply perm_trans; [apply perm_swap|]. now apply perm_skip.
Qed.

Lemma insert_by_amount_descending (item : string * Q) (sorted : list (string * Q)) :
  descending sorted -> descending (insert_by_amount item sorted).
Proof.
  induction sorted as [|x rest IH]; cbn [insert_by_amount descending].
  - intros _. split; [constructor | exact I].
  - intros [Hx Hrest]. destruct (Py.ltb (snd x) (snd item)) eqn:E.
    + apply PyFacts.ltb_lt in E. cbn [descending].
      split; [|split; assumption].
      constructor; [lra|].
      eapply Forall_impl; [|exact Hx]. cbn beta. intros y Hy. lra.
    + apply PyFacts.ltb_ge in E. cbn [descending].
      split; [|now apply IH].
      eapply Permutation_Forall; [apply insert_by_amount_perm|].
      constructor; assumption.
Qed.

Lemma sort_by_amount_facts (items : list (string * Q)) :
  Permutation items (sort_by_amount items) /\ descending (sort_by_amount items).
Proof.
  unfold sort_by_amount.
  assert (H : forall acc,
             descending acc ->
             Permutation (acc ++ items)
               (fold_left (fun sorted item => insert_by_amount item sorted) items acc)
             /\ descending
                  (fold_left (fun sorted item => insert_by_amount item sorted)
                     items acc)).
  { induction items as [|x items IH]; intros acc Hacc; cbn [fold_left].
    - rewrite app_nil_r. split; [apply Permutation_refl | exact Hacc].
    - destruct (IH (insert_by_amount x acc)
                  (insert_by_amount_descending x acc Hacc)) as [Hp Hd].
      split; [|exact Hd].
      eapply perm_trans; [|exact Hp].
      eapply perm_trans; [apply Permutation_sym, Permutation_middle|].
      change (x :: acc ++ items) with ((x :: acc) ++ items).
      apply Permutation_app_tail, insert_by_amount_perm. }
  apply (H [] I).
Qed.

Lemma descending_split (n : nat) (items : list (string * Q)) :
  descending items ->
  descending (firstn n items) /\
  forall top other,
    In top (firstn n items) -> In other (skipn n items) -> snd other <= snd top.
Proof.
  revert items. induction n as [|n IH]; intros items Hd.
  - cbn. split; [exact I | intros top other []].
  - destruct items as [|x rest]; [cbn; split; [exact I | intros top other []]|].
    destruct Hd as [Hx Hrest]. destruct (IH rest Hrest) as [Hfirst Hle].
    cbn [firstn skipn descending]. split.
    + split; [|exact Hfirst].
      rewrite <- (firstn_skipn n rest) in Hx. apply Forall_app in Hx. tauto.
    + intros top other [<-|Htop] Hother; [|now apply Hle].
      rewrite Forall_forall in Hx. apply Hx.
      rewrite <- (firstn_skipn n rest). apply in_or_app. now right.
Qed.

(** A record that the first loop of the dashboard can read. *)
Definition complete (txn : Txn.t) : bool :=
  match Txn.amount txn, Txn.description txn, Txn.type txn with
  | Txn.Amount _, Some _, Some _ => true
  | _, _, _ => false
  end.

Definition has_type (names : list string) (txn : Txn.t) : bool :=
  match Txn.type txn with
  | Some txn_type => Py.mem txn_type names
  | None => false
  end.

Definition spends_under (cat : string) (txn : Txn.t) : bool :=
  has_type ["sent"; "expense"]%string txn
  && String.eqb cat (Txn.get_or (Txn.category txn) "Other").

Lemma dashboard_step_some (acc : list (string * Q) * Q * Q) (txn : Txn.t) :
  dashboard_step acc txn
  = if complete txn then
      Some (if has_type ["sent"; "expense"]%string txn
            then Py.add (Txn.get_or (Txn.category txn) "Other")
                   (NewFacts.amount_of txn) (fst (fst acc))
            else fst (fst acc),
            if has_type ["received"]%string txn
            then snd (fst acc) + NewFacts.amount_of txn else snd (fst acc),
            if has_type ["sent"; "expense"]%string txn
            then snd acc + NewFacts.amount_of txn else snd acc)
    else None.
Proof.
  destruct acc as [[totals income] expense].
  unfold dashboard_step, complete, has_type, NewFacts.amount_of.
  destruct (Txn.amount txn) as [| |amt]; try reflexivity.
  destruct (Txn.description txn) as [desc|]; [|reflexivity].
  destruct (Txn.type txn) as [txn_type|]; [|reflexivity].
  cbn [fst snd Py.mem existsb]. rewrite orb_false_r.
  destruct (String.eqb txn_type "received") eqn:E.
  - apply String.eqb_eq in E. subst. reflexivity.
  - destruct (String.eqb txn_type "sent" || String.eqb txn_type "expense");
      reflexivity.
Qed.

Lemma dashboard_loop_result (transactions : list Txn.t)
    (acc : list (string * Q) * Q * Q) :
  match dashboard_loop transactions acc with
  | Some (totals, income, expense) =>
      forallb complete transactions = true /\
      (forall cat,
          Py.get0 cat totals
          == Py.get0 cat (fst (fst acc)) + sum_of (spends_under cat) transactions) /\
      Py.sum (Py.values totals)
      == Py.sum (Py.values (fst (fst acc)))
         + sum_of (has_type ["sent"; "expense"]%string) transactions /\
      income == snd (fst acc) + sum_of (has_type ["received"]%string) transactions /\
      expense == snd acc + sum_of (has_type ["sent"; "expense"]%string) transactions
  | None => forallb complete transactions = false
  end.
Proof.
  revert acc. induction transactions as [|txn txns IH]; intros acc;
    cbn [dashboard_loop forallb].
  - destruct acc as [[totals income] expense]. cbn [fst snd].
    split; [reflexivity|].
    split; [intros cat; rewrite sum_of_nil; lra|].
    rewrite !sum_of_nil. repeat split; lra.
  - rewrite dashboard_step_some. destruct (complete txn) eqn:Ec; [|reflexivity].
    cbn [andb].
    match goal with
    | |- context [dashboard_loop txns ?acc'] => specialize (IH acc')
    end.
    destruct (dashboard_loop txns _) as [[[totals income] expense]|]; [|exact IH].
    destruct IH as (Hall & Hget & Hsum & Hinc & Hexp). cbn [fst snd] in *.
    assert (Hamount : SearchFacts.amount0 txn = NewFacts.amount_of txn).
    { unfold SearchFacts.amount0, amount_or_zero, NewFacts.amount_of, complete in *.
      destruct (Txn.amount txn); try reflexivity; discriminate. }
    split; [exact Hall|]. split; [|split; [|split]].
    + intros cat. rewrite Hget, sum_of_cons, Hamount. unfold spends_under at 2.
      destruct (has_type ["sent"; "expense"]%string txn); cbn [andb].
      * rewrite NewFacts.get0_add. lra.
      * lra.
    + rewrite Hsum, sum_of_cons, Hamount.
      destruct (has_type ["sent"; "expense"]%string txn).
      * rewrite NewFacts.sum_values_add. lra.
      * lra.
    + rewrite Hinc, sum_of_cons, Hamount.
      destruct (has_type ["received"]%string txn); lra.
    + rewrite Hexp, sum_of_cons, Hamount.
      destruct (has_type ["sent"; "expense"]%string txn); lra.
Qed.

(** X24. The computation of the numbers that the dashboard draws (the
    drawing itself is left out of the model) raises exactly when a record
    lacks a convertible amount, a description or a type.  Otherwise the
    income is the sum of the received records and the expense the sum of
    the sent and expense records; the category totals cover the spending
    only, category by
    category, and add up to the expense; the net savings are income minus
    expense; the daily budget is 0 without income and otherwise the net
    savings over 30 within half a paisa; and the top categories are at most
    three categories of the totals, larger amounts first, none of the
    categories left out being larger than one of them. *)
Theorem dashboard_numbers (transactions : list Txn.t) :
  (generate_gamified_dashboard transactions = None <->
   exists txn, In txn transactions /\ complete txn = false) /\
  (forall d,
      generate_gamified_dashboard transactions = Some d ->
      dash_total_income d == sum_of (has_type ["received"]%string) transactions /\
      dash_total_expense d
      == sum_of (has_type ["sent"; "expense"]%string) transactions /\
      (forall cat,
          Py.get0 cat (dash_category_totals d)
          == sum_of (spends_under cat) transactions) /\
      Py.sum (Py.values (dash_category_totals d)) == dash_total_expense d /\
      dash_net_savings d == dash_total_income d - dash_total_expense d /\
      (dash_total_income d <= 0 -> daily_limit d == 0) /\
      (0 < dash_total_income d ->
       Qabs (daily_limit d - dash_net_savings d / 30) <= 1 # 200) /\
      (List.length (top_categories d) <= 3)%nat /\
      descending (top_categories d) /\
      exists others,
        Permutation (dash_category_totals d) (top_categories d ++ others) /\
        forall top other,
          In top (top_categories d) -> In other others -> snd other <= snd top).
Proof.
  unfold generate_gamified_dashboard.
  pose proof (dashboard_loop_result transactions ([], 0, 0)) as H.
  destruct (dashboard_loop transactions ([], 0, 0)) as [[[totals income] expense]|].
  - destruct H as (Hall & Hget & Hsum & Hinc & Hexp).
    cbn [fst snd] in Hget, Hsum, Hinc, Hexp. split.
    + split; [discriminate|]. intros (txn & Hin & Hc).
      rewrite forallb_forall in Hall. rewrite (Hall txn Hin) in Hc. discriminate.
    + intros d [= <-].
      cbn [dash_category_totals dash_total_income dash_total_expense
           dash_net_savings daily_limit top_categories].
      assert (Hz : forall cat, Py.get0 cat (@nil (string * Q)) == 0) by reflexivity.
      assert (Hs : Py.sum (Py.values (@nil (string * Q))) == 0) by reflexivity.
      split; [lra|]. split; [lra|].
      split; [intros cat; rewrite Hget, Hz; lra|].
      split; [lra|]. split; [reflexivity|]. split; [|split; [|split; [|split]]].
      * intros Hle. apply PyFacts.ltb_ge in Hle. rewrite Hle. reflexivity.
      * intros Hpos. apply PyFacts.ltb_lt in Hpos. rewrite Hpos.
        apply Qabs_Qle_condition.
        pose proof (RoundFacts.round2_error ((income - expense) / 30)). lra.
      * change (List.length (firstn 3 (sort_by_amount totals)) <= 3)%nat.
        apply firstn_le_length.
      * destruct (sort_by_amount_facts totals) as [_ Hd].
        exact (proj1 (descending_split 3 _ Hd)).
      * destruct (sort_by_amount_facts totals) as [Hp Hd].
        exists (skipn 3 (sort_by_amount totals)). split.
        -- change (Permutation totals
                     (firstn 3 (sort_by_amount totals)
                      ++ skipn 3 (sort_by_amount totals))).
           now rewrite firstn_skipn.
        -- exact (proj2 (descending_split 3 _ Hd)).
  - split; [|intros d Hd; discriminate].
    split; [|reflexivity]. intros _.
    clear -H. induction transactions as [|txn txns IH]; [discriminate|].
    cbn [forallb] in H. destruct (complete txn) eqn:E.
    + destruct (IH H) as (t & Ht & Hc). exists t. split; [now right | exact Hc].
    + exists txn. split; [now left | exact E].
Qed.

End SummaryFacts.

(** ** Loan insights from avoidable expenses ([backend/new.py]) *)

Module InsightFacts.
Import New.

(** The message a record gives at a monthly interest, if any. *)
Definition insight_of (interest : Q) (txn : Txn.t) : list insight :=
  match Txn.amount txn with
  | Txn.Amount alt_payment =>
      if Py.leb 1 (alt_payment / interest)
      then [mk_insight alt_payment (Txn.get_or (Txn.description txn) "")
              (int_of (alt_payment / interest))]
      else []
  | _ => []
  end.

(** The records on which the loop raises. *)
Definition unreadable (interest : Q) (txn : Txn.t) : bool :=
  match Txn.amount txn with
  | Txn.Amount alt_payment =>
      Py.leb 1 (alt_payment / interest)
      && match Txn.description txn with Some _ => false | None => true end
  | _ => true
  end.

Lemma insight_step_some (interest : Q) (messages : list insight) (txn : Txn.t) :
  insight_step interest messages txn
  = if unreadable interest txn then None
    else Some (messages ++ insight_of interest txn).
Proof.
  unfold insight_step, unreadable, insight_of.
  destruct (Txn.amount txn) as [| |alt]; try reflexivity.
  destruct (Py.leb 1 (alt / interest)); cbn [andb].
  - destruct (Txn.description txn); reflexivity.
  - now rewrite app_nil_r.
Qed.

Lemma insight_loop_result (interest : Q) (expenses : list Txn.t)
    (messages : list insight) :
  insight_loop interest expenses messages
  = if existsb (unreadable interest) expenses then None
    else Some (messages ++ flat_map (insight_of interest) expenses).
Proof.
  revert messages. induction expenses as [|txn rest IH]; intros messages;
    cbn [insight_loop existsb flat_map].
  - now rewrite app_nil_r.
  - rewrite insight_step_some.
    destruct (unreadable interest txn); [reflexivity|]. cbn [orb].
    rewrite IH. destruct (existsb _ rest); [reflexivity|].
    now rewrite app_assoc.
Qed.

Lemma int_of_bounds (x : Q) :
  1 <= x ->
  (1 <= int_of x)%Z /\ inject_Z (int_of x) <= x < inject_Z (int_of x) + 1.
Proof.
  intros Hx. unfold int_of.
  assert (H0 : Py.leb 0 x = true) by (apply PyFacts.leb_le; lra).
  rewrite H0. split.
  - change 1%Z with (Qfloor 1). now apply Qfloor_resp_le.
  - split; [apply Qfloor_le|].
    pose proof (Qlt_floor x) as H. rewrite inject_Z_plus in H. exact H.
Qed.

Lemma flat_map_insights_length (interest : Q) (expenses : list Txn.t) :
  (List.length (flat_map (insight_of interest) expenses)
   <= List.length expenses)%nat.
Proof.
  induction expenses as [|txn rest IH]; cbn [flat_map List.length]; [lia|].
  rewrite length_app. unfold insight_of at 1.
  destruct (Txn.amount txn); cbn [List.length]; try lia.
  destruct (Py.leb _ _); cbn [List.length]; lia.
Qed.

(** An insight and the record it comes from. *)
Definition comes_from (interest : Q) (m : insight) (txn : Txn.t) : Prop :=
  Txn.amount txn = Txn.Amount (alt_payment m) /\
  Txn.description txn = Some (insight_description m) /\
  1 <= alt_payment m / interest /\
  months_saved m = int_of (alt_payment m / interest).

Lemma insight_of_facts (interest : Q) (txn : Txn.t) (m : insight) :
  NewFacts.classified txn = true \/ unreadable interest txn = false ->
  In m (insight_of interest txn) ->
  comes_from interest m txn /\ (1 <= months_saved m)%Z /\
  (0 < interest ->
   inject_Z (months_saved m) * interest <= alt_payment m
   < (inject_Z (months_saved m) + 1) * interest).
Proof.
  unfold insight_of, comes_from, unreadable, NewFacts.classified.
  intros Hread. destruct (Txn.amount txn) as [| |alt]; try (intros []).
  destruct (Py.leb 1 (alt / interest)) eqn:E; [|intros []].
  intros [<-|[]]. cbn [alt_payment insight_description months_saved].
  apply PyFacts.leb_le in E.
  destruct (int_of_bounds _ E) as (H1 & H2 & H3).
  assert (Hdesc : Txn.description txn
                  = Some (Txn.get_or (Txn.description txn) "")).
  { destruct (Txn.description txn); [reflexivity|].
    destruct Hread as [Hread|Hread]; discriminate. }
  split; [split; [reflexivity|]; split; [exact Hdesc|]; split; [exact E | reflexivity]|].
  split; [exact H1|].
  intros Hpos.
  assert (Hback : alt / interest * interest == alt) by (field; lra).
  split.
  - rewrite <- Hback at 2. apply Qmult_le_compat_r; lra.
  - rewrite <- Hback at 1. apply Qmult_lt_compat_r; lra.
Qed.

(** X25. The simulation answers that no insight is available exactly when
    there is no loan or no avoidable expense.  When it returns messages,
    the first loan has a non-zero monthly interest and the messages come,
    in order, from the first three avoidable expenses only, one for each
    whose amount divided by the monthly interest is at least 1: between one
    and three messages, each with the amount and the description of its
    record and a whole number of months that is at least 1; for a positive
    monthly interest that number times the interest is at most the amount,
    and one more month would exceed it.  With avoidable expenses that are
    processed records and a loan whose interest converts, it never
    raises. *)
Theorem loan_insights (analysis : option result) (loans : list loan) :
  let avoidable :=
    match analysis with
    | Some r => avoidable_expenses (totals r)
    | None => []
    end in
  (simulate_loan_repayment_impact analysis loans = Some NoInsights <->
   loans = [] \/ avoidable = []) /\
  (forall messages,
      simulate_loan_repayment_impact analysis loans = Some (Insights messages) ->
      exists first rest interest,
        loans = first :: rest /\
        monthly_interest first = Txn.Amount interest /\ ~ interest == 0 /\
        messages = flat_map (insight_of interest) (firstn 3 avoidable) /\
        (1 <= List.length messages <= 3)%nat /\
        Forall (fun m =>
                  (1 <= months_saved m)%Z /\
                  (exists txn,
                      In txn (firstn 3 avoidable) /\ comes_from interest m txn) /\
                  (0 < interest ->
                   inject_Z (months_saved m) * interest <= alt_payment m
                   < (inject_Z (months_saved m) + 1) * interest))
          messages) /\
  (forall first rest,
      loans = first :: rest ->
      monthly_interest first <> Txn.AmountInvalid ->
      (forall txn, In txn (firstn 3 avoidable) -> NewFacts.classified txn = true) ->
      simulate_loan_repayment_impact analysis loans <> None).
Proof.
  unfold simulate_loan_repayment_impact. cbv zeta.
  remember (match analysis with
            | Some r => avoidable_expenses (totals r)
            | None => []
            end) as avoidable eqn:Havoidable.
  clear Havoidable.
  destruct loans as [|first rest].
  { split; [split; [intros _; now left | reflexivity]|].
    split; [intros messages H; discriminate|]. intros f r H. discriminate. }
  destruct avoidable as [|txn0 others] eqn:Eav.
  { split; [split; [intros _; now right | reflexivity]|].
    split; [intros messages H; discriminate|]. intros f r _ _ _. discriminate. }
  rewrite <- Eav.
  destruct (monthly_interest first) as [| |interest] eqn:Ei.
  - (* missing: the default 0 *)
    assert (Hz : Qeq_bool 0 0 = true) by reflexivity. rewrite Hz.
    split; [split; [discriminate | intros [H|H]; congruence]|].
    split; [intros messages H; discriminate|]. intros f r _ _ _. discriminate.
  - split; [split; [discriminate | intros [H|H]; congruence]|].
    split; [intros messages H; discriminate|].
    intros f r [= <- <-] H. congruence.
  - destruct (Qeq_bool interest 0) eqn:Ez.
    { split; [split; [discriminate | intros [H|H]; congruence]|].
      split; [intros messages H; discriminate|]. intros f r _ _ _. discriminate. }
    apply Qeq_bool_neq in Ez.
    rewrite insight_loop_result. cbn [app].
    set (expenses := firstn 3 avoidable).
    assert (Hlen : (List.length (flat_map (insight_of interest) expenses) <= 3)%nat).
    { eapply Nat.le_trans; [apply flat_map_insights_length|].
      apply firstn_le_length. }
    destruct (existsb (unreadable interest) expenses) eqn:Eu.
    + split; [split; [discriminate | intros [H|H]; congruence]|].
      split; [intros messages H; discriminate|].
      intros f r _ _ Hall. exfalso.
      apply existsb_exists in Eu. destruct Eu as (txn & Hin & Hu).
      specialize (Hall txn Hin).
      unfold unreadable, NewFacts.classified in *.
      destruct (Txn.amount txn); try discriminate.
      destruct (Txn.description txn); try discriminate.
      now rewrite andb_false_r in Hu.
    + assert (Hfacts : Forall
                (fun m =>
                   (1 <= months_saved m)%Z /\
                   (exists txn, In txn expenses /\ comes_from interest m txn) /\
                   (0 < interest ->
                    inject_Z (months_saved m) * interest <= alt_payment m
                    < (inject_Z (months_saved m) + 1) * interest))
                (flat_map (insight_of interest) expenses)).
      { apply Forall_forall. intros m Hm. apply in_flat_map in Hm.
        destruct Hm as (txn & Hin & Hm).
        assert (Hr : unreadable interest txn = false).
        { destruct (unreadable interest txn) eqn:E; [|reflexivity].
          assert (existsb (unreadable interest) expenses = true)
            by (apply existsb_exists; eauto).
          congruence. }
        destruct (insight_of_facts interest txn m (or_intror Hr) Hm)
          as (Hfrom & Hmonths & Hbounds).
        split; [exact Hmonths|]. split; [eauto | exact Hbounds]. }
      destruct (flat_map (insight_of interest) expenses) as [|m ms] eqn:Em.
      * split; [split; [discriminate | intros [H|H]; congruence]|].
        split; [intros messages H; discriminate|]. intros f r _ _ _. discriminate.
      * split; [split; [discriminate | intros [H|H]; congruence]|].
        split; [|intros f r _ _ _; discriminate].
        intros messages [= <-]. exists first, rest, interest.
        split; [reflexivity|]. split; [exact Ei|]. split; [exact Ez|].
        split; [symmetry; exact Em|]. split; [cbn [List.length] in *; lia|].
        exact Hfacts.
Qed.

End InsightFacts.
